(** * BaaS SMS/MMS MCP server: a shallow embedding of [baas_sms_mcp/server.py]

    The server exposes eight tools.  Four talk to the remote messaging API
    ([send_sms], [send_mms], [get_message_status], [get_send_history]) and four
    build or fetch integration code ([get_code_template_url],
    [generate_direct_api_code], [create_message_service_template],
    [get_integration_guide]).

    Python values are embedded as follows.
    - [str] is a Rocq [string] holding the UTF-8 encoding of the text; [len]
      counts code points ([py_len]), every other operation used by the server
      ([==], [+], [replace], [in]) agrees with its byte-wise counterpart on
      UTF-8 text.
    - [int] is [Z].
    - JSON documents and the dictionaries the tools return are [value]s; a
      [dict] is an association list in insertion order.
    - a tool is a computation in the monad [M]: it threads the list of HTTP
      requests issued so far and either returns or raises an exception. *)

From Stdlib Require Import List ZArith Lia Bool Ascii String DecimalString.
From Stdlib Require Import Floats.SpecFloat.
From Stdlib Require Import Sorting.Permutation.
Import ListNotations.

Set Warnings "-register-all".

Local Open Scope string_scope.
Local Open Scope Z_scope.

(* ------------------------------------------------------------------ *)
(** ** Python strings *)

Module PyStr.

(** The double quote character, which no literal of this file contains. *)
Definition dq : string := String (ascii_of_nat 34) EmptyString.

(** The line feed character. *)
Definition nl : string := String (ascii_of_nat 10) EmptyString.

(** Lines of a multi-line literal, joined by line feeds (no trailing one). *)
Fixpoint unlines (ls : list string) : string :=
  match ls with
  | [] => EmptyString
  | [l] => l
  | l :: rest => l ++ nl ++ unlines rest
  end.

(** A byte of the form [10xxxxxx] continues a code point started earlier. *)
Definition is_continuation (c : ascii) : bool :=
  let n := nat_of_ascii c in (Nat.leb 128 n && Nat.ltb n 192)%bool.

(** [len(s)]: the number of code points of [s]. *)
Fixpoint py_len (s : string) : Z :=
  match s with
  | EmptyString => 0
  | String c rest => (if is_continuation c then 0 else 1) + py_len rest
  end.

(** Truth value of a [str]: only the empty string is false. *)
Definition truthy_str (s : string) : bool :=
  match s with EmptyString => false | _ => true end.

Definition is_ascii (c : ascii) : bool := Nat.ltb (nat_of_ascii c) 128.

Fixpoint all_ascii (s : string) : bool :=
  match s with
  | EmptyString => true
  | String c rest => (is_ascii c && all_ascii rest)%bool
  end.

Definition is_upper (c : ascii) : bool :=
  let n := nat_of_ascii c in (Nat.leb 65 n && Nat.leb n 90)%bool.

Definition is_lower (c : ascii) : bool :=
  let n := nat_of_ascii c in (Nat.leb 97 n && Nat.leb n 122)%bool.

Definition ascii_lower (c : ascii) : ascii :=
  if is_upper c then ascii_of_nat (nat_of_ascii c + 32) else c.

Definition ascii_upper (c : ascii) : ascii :=
  if is_lower c then ascii_of_nat (nat_of_ascii c - 32) else c.

Fixpoint map_string (f : ascii -> ascii) (s : string) : string :=
  match s with
  | EmptyString => EmptyString
  | String c rest => String (f c) (map_string f rest)
  end.

(** [str.title()] on ASCII text: a letter that follows a cased letter is
    lowered, any other letter is raised. *)
Fixpoint ascii_title (previous_is_cased : bool) (s : string) : string :=
  match s with
  | EmptyString => EmptyString
  | String c rest =>
      String (if previous_is_cased then ascii_lower c else ascii_upper c)
             (ascii_title (is_upper c || is_lower c)%bool rest)
  end.

(** [needle] is a prefix of [s]: [Some] of what follows it. *)
Fixpoint strip_prefix (needle s : string) : option string :=
  match needle, s with
  | EmptyString, _ => Some s
  | String a n', String b s' => if Ascii.eqb a b then strip_prefix n' s' else None
  | String _ _, EmptyString => None
  end.

Definition startswith (s needle : string) : bool :=
  match strip_prefix needle s with Some _ => true | None => false end.

(** [s.endswith(suffix)]. *)
Fixpoint endswith (s suffix : string) : bool :=
  (String.eqb s suffix ||
   match s with
   | EmptyString => false
   | String _ rest => endswith rest suffix
   end)%bool.

(** [needle in s]. *)
Fixpoint contains (s needle : string) : bool :=
  (startswith s needle ||
   match s with
   | EmptyString => false
   | String _ rest => contains rest needle
   end)%bool.

(** [s.replace(old, new)] for a non-empty [old]: scanning from the left,
    each occurrence of [old] is replaced and the scan resumes after it.
    [skip] counts the bytes of an occurrence still to be dropped. *)
Fixpoint replace_from (skip : nat) (old new s : string) : string :=
  match s with
  | EmptyString => EmptyString
  | String c rest =>
      match skip with
      | S k => replace_from k old new rest
      | O =>
          if startswith s old
          then new ++ replace_from (String.length old - 1) old new rest
          else String c (replace_from O old new rest)
      end
  end.

Definition replace (s old new : string) : string := replace_from O old new s.

(** The first occurrence of [needle] in [s]: the text before and after it. *)
Fixpoint find_sub (needle s : string) : option (string * string) :=
  match strip_prefix needle s with
  | Some after => Some (EmptyString, after)
  | None =>
      match s with
      | EmptyString => None
      | String c rest =>
          match find_sub needle rest with
          | Some (before, after) => Some (String c before, after)
          | None => None
          end
      end
  end.

(** The UTF-8 encodings of the code points for which [str.isspace] holds:
    U+0009..U+000D, U+001C..U+0020, U+0085, U+00A0, U+1680, U+2000..U+200A,
    U+2028, U+2029, U+202F, U+205F and U+3000. *)
Definition bytes (l : list nat) : string :=
  fold_right (fun n s => String (ascii_of_nat n) s) EmptyString l.

Definition whitespace : list string :=
  map bytes
    ([[9]; [10]; [11]; [12]; [13]; [28]; [29]; [30]; [31]; [32];
      [194; 133]; [194; 160]; [225; 154; 128]] ++
     map (fun k => [226; 128; k]) (seq 128 11) ++
     [[226; 128; 168]; [226; 128; 169]; [226; 128; 175]; [226; 129; 159];
      [227; 128; 128]])%nat%list.

Fixpoint first_some {A} (f : string -> option A) (l : list string) : option A :=
  match l with
  | [] => None
  | w :: rest => match f w with Some a => Some a | None => first_some f rest end
  end.

(** [s.lstrip()]; the fuel bounds the number of characters dropped. *)
Fixpoint lstrip_fuel (fuel : nat) (s : string) : string :=
  match fuel with
  | O => s
  | S f =>
      match first_some (fun w => strip_prefix w s) whitespace with
      | Some rest => lstrip_fuel f rest
      | None => s
      end
  end.

Definition lstrip (s : string) : string := lstrip_fuel (String.length s) s.

Fixpoint rev_string (acc s : string) : string :=
  match s with
  | EmptyString => acc
  | String c rest => rev_string (String c acc) rest
  end.

Fixpoint rstrip_fuel (fuel : nat) (r : string) : string :=
  match fuel with
  | O => r
  | S f =>
      match first_some (fun w => strip_prefix (rev_string EmptyString w) r)
                       whitespace with
      | Some rest => rstrip_fuel f rest
      | None => r
      end
  end.

(** [s.rstrip()], computed on the reversed string. *)
Definition rstrip (s : string) : string :=
  let r := rev_string EmptyString s in
  rev_string EmptyString (rstrip_fuel (String.length r) r).

(** [s.strip()]. *)
Definition strip (s : string) : string := rstrip (lstrip s).

(** The code points of [s], each as a one-character string (iteration over a
    [str]). *)
Fixpoint py_chars_from (cur : option string) (s : string) : list string :=
  match s with
  | EmptyString => match cur with Some c => [c] | None => [] end
  | String c rest =>
      if is_continuation c
      then py_chars_from
             (Some (match cur with Some p => p | None => EmptyString end
                    ++ String c EmptyString)) rest
      else match cur with
           | Some p => p :: py_chars_from (Some (String c EmptyString)) rest
           | None => py_chars_from (Some (String c EmptyString)) rest
           end
  end.

Definition py_chars (s : string) : list string := py_chars_from None s.

(** [x in l] for a list of strings. *)
Definition str_in (x : string) (l : list string) : bool :=
  existsb (String.eqb x) l.

(** [str(n)] for an [int]. *)
Definition str_of_int (z : Z) : string := NilZero.string_of_int (Z.to_int z).

End PyStr.
Import PyStr.

(* ------------------------------------------------------------------ *)
(** ** Python values, exceptions and the HTTP client *)

(** JSON documents and the dictionaries built by the tools.  A [VDict] lists
    its items in insertion order; a lookup takes the first item with the key. *)
Inductive value : Type :=
| VNone
| VBool (b : bool)
| VInt (z : Z)
| VFloat (f : spec_float)
| VStr (s : string)
| VList (l : list value)
| VDict (d : list (string * value)).

Definition dict : Type := list (string * value).

(** An exception object: its class name and [str(e)]. *)
Record exn : Type := Exn { exn_class : string; exn_str : string }.

(** The outcome of evaluating an expression or running a block. *)
Inductive outcome (A : Type) : Type :=
| Return (a : A)
| Raise (e : exn).
Arguments Return {A} a.
Arguments Raise {A} e.

(** An HTTP request handed to the shared [httpx.AsyncClient]. *)
Inductive request : Type :=
| POST (url : string) (json : value) (headers : list (string * string))
| GET (url : string) (headers : list (string * string)).

(** The parts of an [httpx.Response] the server reads; [json] is what
    [response.json()] evaluates to. *)
Record response : Type := Response {
  status_code : Z;
  text : string;
  json : outcome value
}.

(** The remote collaborators (messaging API and CDN): the answer to a request
    may depend on the requests made before it, and may be a transport
    exception. *)
Definition remote : Type := list request -> request -> outcome response.

(** What the Python runtime and the process environment supply and this
    development does not model:
    - the [BAAS_API_KEY] environment variable read at import time;
    - [str.lower] and [str.title] on text with non-ASCII code points;
    - [re.findall] for a pattern that holds a regular-expression
      metacharacter. *)
Record runtime : Type := Runtime {
  BAAS_API_KEY : string;
  unicode_lower : string -> string;
  unicode_title : string -> string;
  re_findall_special : string -> string -> outcome (list string)
}.

(** A tool runs against the requests issued so far and extends them. *)
Definition M (A : Type) : Type := list request -> outcome A * list request.

Definition ret {A} (a : A) : M A := fun calls => (Return a, calls).

Definition raise {A} (e : exn) : M A := fun calls => (Raise e, calls).

Definition bind {A B} (m : M A) (k : A -> M B) : M B :=
  fun calls =>
    match m calls with
    | (Return a, calls') => k a calls'
    | (Raise e, calls') => (Raise e, calls')
    end.

(** [try: m except Exception as e: h e]. *)
Definition try_except {A} (m : M A) (h : exn -> M A) : M A :=
  fun calls =>
    match m calls with
    | (Return a, calls') => (Return a, calls')
    | (Raise e, calls') => h e calls'
    end.

(** An expression that may raise but issues no request. *)
Definition lift {A} (o : outcome A) : M A := fun calls => (o, calls).

(** [await client.post(...)] / [await client.get(...)]: the request is
    issued, then the remote side answers or the transport fails. *)
Definition send (net : remote) (r : request) : M response :=
  fun calls => (net calls r, (calls ++ [r])%list).

Declare Scope py_scope.
Delimit Scope py_scope with py.
Notation "x <- m ;; k" := (bind m (fun x => k))
  (at level 61, m at next level, right associativity) : py_scope.
Local Open Scope py_scope.

(** Binding inside [outcome] alone. *)
Definition obind {A B} (o : outcome A) (k : A -> outcome B) : outcome B :=
  match o with
  | Return a => k a
  | Raise e => Raise e
  end.

(** *** Dynamic operations on values *)

Definition type_name (v : value) : string :=
  match v with
  | VNone => "NoneType"
  | VBool _ => "bool"
  | VInt _ => "int"
  | VFloat _ => "float"
  | VStr _ => "str"
  | VList _ => "list"
  | VDict _ => "dict"
  end.

(** Truth value testing. *)
Definition truthy (v : value) : bool :=
  match v with
  | VNone => false
  | VBool b => b
  | VInt z => negb (z =? 0)
  | VFloat f => match f with S754_zero _ => false | _ => true end
  | VStr s => truthy_str s
  | VList l => match l with [] => false | _ => true end
  | VDict d => match d with [] => false | _ => true end
  end.

(** [d.get(key)] on a [dict], as an option. *)
Fixpoint lookup (key : string) (d : dict) : option value :=
  match d with
  | [] => None
  | (k, v) :: rest => if String.eqb key k then Some v else lookup key rest
  end.

(** [d.get(key, default)]. *)
Definition dict_get (d : dict) (key : string) (default : value) : value :=
  match lookup key d with Some v => v | None => default end.

(** [v.get(key, default)] on any value: only a [dict] has the method. *)
Definition get (v : value) (key : string) (default : value) : outcome value :=
  match v with
  | VDict d => Return (dict_get d key default)
  | _ => Raise (Exn "AttributeError"
                    ("'" ++ type_name v ++ "' object has no attribute 'get'"))
  end.

(** [v[key]] for a [str] key. *)
Definition subscript (v : value) (key : string) : outcome value :=
  match v with
  | VDict d =>
      match lookup key d with
      | Some x => Return x
      | None => Raise (Exn "KeyError" ("'" ++ key ++ "'"))
      end
  | VList _ =>
      Raise (Exn "TypeError" "list indices must be integers or slices, not str")
  | VStr _ =>
      Raise (Exn "TypeError" "string indices must be integers, not 'str'")
  | _ =>
      Raise (Exn "TypeError" ("'" ++ type_name v ++ "' object is not subscriptable"))
  end.

(** The keys of a [dict], each once, in order of first insertion. *)
Fixpoint dict_keys (seen : list string) (d : dict) : list string :=
  match d with
  | [] => []
  | (k, _) :: rest =>
      if str_in k seen then dict_keys seen rest
      else k :: dict_keys (k :: seen) rest
  end.

(** [iter(v)]: the items a [for] loop over [v] visits. *)
Definition iterate (v : value) : outcome (list value) :=
  match v with
  | VList l => Return l
  | VDict d => Return (map VStr (dict_keys [] d))
  | VStr s => Return (map VStr (py_chars s))
  | _ => Raise (Exn "TypeError" ("'" ++ type_name v ++ "' object is not iterable"))
  end.

(** [len(v)]. *)
Definition len (v : value) : outcome Z :=
  match v with
  | VList l => Return (Z.of_nat (List.length l))
  | VDict d => Return (Z.of_nat (List.length (dict_keys [] d)))
  | VStr s => Return (py_len s)
  | _ => Raise (Exn "TypeError"
                    ("object of type '" ++ type_name v ++ "' has no len()"))
  end.

(** [v == s] for a [str] literal [s]. *)
Definition eq_str (v : value) (s : string) : bool :=
  match v with
  | VStr t => String.eqb t s
  | _ => false
  end.

(** [str.lower()] and [str.title()]: computed here on ASCII text, taken from
    the runtime otherwise. *)
Definition lower (rt : runtime) (s : string) : string :=
  if all_ascii s then map_string ascii_lower s else unicode_lower rt s.

Definition title (rt : runtime) (s : string) : string :=
  if all_ascii s then ascii_title false s else unicode_title rt s.

Definition str_list (l : list string) : value := VList (map VStr l).

Definition opt_str (o : option string) : value :=
  match o with Some s => VStr s | None => VNone end.

(* ------------------------------------------------------------------ *)
(** ** The embedded client sources

    The string literals of [generate_javascript_code], [generate_python_code]
    and [generate_php_code], one list item per source line. *)

Module Templates.

(** The literal that starts at line 853 of [server.py]. *)
Definition javascript_base : string := unlines [
  "/**";
  " * BaaS SMS/MMS Direct API Client";
  " * Directly calls https://api.aiapp.link without MCP";
  " */";
  "";
  "class BaaSMessageService {";
  "    constructor(apiKey, projectId, baseUrl = 'https://api.aiapp.link') {";
  "        this.apiKey = apiKey;";
  "        this.projectId = projectId;";
  "        this.baseUrl = baseUrl;";
  "    }";
  "    ";
  "    /**";
  "     * Send SMS message";
  "     * @param {Array} recipients - Array of {phone_number, member_code}";
  "     * @param {string} message - Message content (max 2000 chars)";
  "     * @param {string} callbackNumber - Sender callback number";
  "     * @returns {Promise<Object>} Response object";
  "     */";
  "    async sendSMS(recipients, message, callbackNumber) {";
  "        try {";
  "            const response = await fetch(`${this.baseUrl}/message/sms`, {";
  "                method: 'POST',";
  "                headers: {";
  "                    'X-API-KEY': this.apiKey,";
  "                    'Content-Type': 'application/json'";
  "                },";
  "                body: JSON.stringify({";
  "                    recipients: recipients,";
  "                    message: message,";
  "                    callback_number: callbackNumber,";
  "                    project_id: this.projectId,";
  "                    channel_id: 1";
  "                })";
  "            });";
  "            ";
  "            const result = await response.json();";
  "            ";
  "            if (response.ok && result.success) {";
  "                return {";
  "                    success: true,";
  "                    groupId: result.data.group_id,";
  "                    message: 'SMS sent successfully'";
  "                };";
  "            } else {";
  "                return {";
  "                    success: false,";
  "                    error: result.message || 'Send failed',";
  "                    errorCode: result.error_code";
  "                };";
  "            }";
  "        } catch (error) {";
  "            return {";
  "                success: false,";
  "                error: `Network error: ${error.message}`";
  "            };";
  "        }";
  "    }";
  "    ";
  "    /**";
  "     * Send MMS message with images";
  "     * @param {Array} recipients - Array of {phone_number, member_code}";
  "     * @param {string} message - Message content";
  "     * @param {string} subject - MMS subject (max 40 chars)";
  "     * @param {string} callbackNumber - Sender callback number";
  "     * @param {Array} imageUrls - Array of image URLs (max 5)";
  "     * @returns {Promise<Object>} Response object";
  "     */";
  "    async sendMMS(recipients, message, subject, callbackNumber, imageUrls = []) {";
  "        try {";
  "            const response = await fetch(`${this.baseUrl}/message/mms`, {";
  "                method: 'POST',";
  "                headers: {";
  "                    'X-API-KEY': this.apiKey,";
  "                    'Content-Type': 'application/json'";
  "                },";
  "                body: JSON.stringify({";
  "                    recipients: recipients,";
  "                    message: message,";
  "                    subject: subject,";
  "                    callback_number: callbackNumber,";
  "                    project_id: this.projectId,";
  "                    channel_id: 3,";
  "                    img_url_list: imageUrls";
  "                })";
  "            });";
  "            ";
  "            const result = await response.json();";
  "            ";
  "            if (response.ok && result.success) {";
  "                return {";
  "                    success: true,";
  "                    groupId: result.data.group_id,";
  "                    message: 'MMS sent successfully'";
  "                };";
  "            } else {";
  "                return {";
  "                    success: false,";
  "                    error: result.message || 'Send failed',";
  "                    errorCode: result.error_code";
  "                };";
  "            }";
  "        } catch (error) {";
  "            return {";
  "                success: false,";
  "                error: `Network error: ${error.message}`";
  "            };";
  "        }";
  "    }";
  "    ";
  "    /**";
  "     * Check message delivery status";
  "     * @param {number} groupId - Message group ID";
  "     * @returns {Promise<Object>} Status information";
  "     */";
  "    async getMessageStatus(groupId) {";
  "        try {";
  "            const response = await fetch(";
  "                `${this.baseUrl}/message/send_history/sms/${groupId}/messages`,";
  "                {";
  "                    method: 'GET',";
  "                    headers: {";
  "                        'X-API-KEY': this.apiKey,";
  "                        'Content-Type': 'application/json'";
  "                    }";
  "                }";
  "            );";
  "            ";
  "            const result = await response.json();";
  "            ";
  "            if (response.ok && result.success) {";
  "                const messages = result.data || [];";
  "                const totalCount = messages.length;";
  "                const successCount = messages.filter(msg => msg.result === '성공').length;";
  "                const failedCount = messages.filter(msg => msg.result === '실패').length;";
  "                const pendingCount = totalCount - successCount - failedCount;";
  "                ";
  "                let status = '전송중';";
  "                if (pendingCount === 0) {";
  "                    status = failedCount === 0 ? '성공' : ";
  "                            (successCount === 0 ? '실패' : '부분성공');";
  "                }";
  "                ";
  "                return {";
  "                    groupId: groupId,";
  "                    status: status,";
  "                    totalCount: totalCount,";
  "                    successCount: successCount,";
  "                    failedCount: failedCount,";
  "                    pendingCount: pendingCount,";
  "                    messages: messages.map(msg => ({";
  "                        phone: msg.phone,";
  "                        name: msg.name,";
  "                        status: msg.result,";
  "                        reason: msg.reason";
  "                    }))";
  "                };";
  "            } else {";
  "                return {";
  "                    success: false,";
  "                    error: result.message || 'Status check failed'";
  "                };";
  "            }";
  "        } catch (error) {";
  "            return {";
  "                success: false,";
  "                error: `Network error: ${error.message}`";
  "            };";
  "        }";
  "    }";
  "}"
].

(** The literal that starts at line 1027 of [server.py]. *)
Definition javascript_react : string := unlines [
  "";
  "";
  "/**";
  " * React Hook for BaaS SMS service";
  " */";
  "import { useState, useCallback } from 'react';";
  "";
  "export function useBaaSMessageService(apiKey, projectId) {";
  "    const [loading, setLoading] = useState(false);";
  "    const [error, setError] = useState(null);";
  "    ";
  "    const service = new BaaSMessageService(apiKey, projectId);";
  "    ";
  "    const sendSMS = useCallback(async (recipients, message, callbackNumber) => {";
  "        setLoading(true);";
  "        setError(null);";
  "        ";
  "        try {";
  "            const result = await service.sendSMS(recipients, message, callbackNumber);";
  "            return result;";
  "        } catch (err) {";
  "            setError(err.message);";
  "            throw err;";
  "        } finally {";
  "            setLoading(false);";
  "        }";
  "    }, [service]);";
  "    ";
  "    const sendMMS = useCallback(async (recipients, message, subject, callbackNumber, imageUrls) => {";
  "        setLoading(true);";
  "        setError(null);";
  "        ";
  "        try {";
  "            const result = await service.sendMMS(recipients, message, subject, callbackNumber, imageUrls);";
  "            return result;";
  "        } catch (err) {";
  "            setError(err.message);";
  "            throw err;";
  "        } finally {";
  "            setLoading(false);";
  "        }";
  "    }, [service]);";
  "    ";
  "    return {";
  "        sendSMS,";
  "        sendMMS,";
  "        getMessageStatus: service.getMessageStatus.bind(service),";
  "        loading,";
  "        error";
  "    };";
  "}"
].

(** The literal that starts at line 1080 of [server.py]. *)
Definition javascript_vue : string := unlines [
  "";
  "";
  "/**";
  " * Vue 3 Composition API for BaaS SMS service";
  " */";
  "import { ref, reactive } from 'vue';";
  "";
  "export function useBaaSMessageService(apiKey, projectId) {";
  "    const loading = ref(false);";
  "    const error = ref(null);";
  "    ";
  "    const service = new BaaSMessageService(apiKey, projectId);";
  "    ";
  "    const sendSMS = async (recipients, message, callbackNumber) => {";
  "        loading.value = true;";
  "        error.value = null;";
  "        ";
  "        try {";
  "            const result = await service.sendSMS(recipients, message, callbackNumber);";
  "            return result;";
  "        } catch (err) {";
  "            error.value = err.message;";
  "            throw err;";
  "        } finally {";
  "            loading.value = false;";
  "        }";
  "    };";
  "    ";
  "    const sendMMS = async (recipients, message, subject, callbackNumber, imageUrls) => {";
  "        loading.value = true;";
  "        error.value = null;";
  "        ";
  "        try {";
  "            const result = await service.sendMMS(recipients, message, subject, callbackNumber, imageUrls);";
  "            return result;";
  "        } catch (err) {";
  "            error.value = err.message;";
  "            throw err;";
  "        } finally {";
  "            loading.value = false;";
  "        }";
  "    };";
  "    ";
  "    return {";
  "        sendSMS,";
  "        sendMMS,";
  "        getMessageStatus: service.getMessageStatus.bind(service),";
  "        loading,";
  "        error";
  "    };";
  "}"
].

(** The literal that starts at line 1134 of [server.py]. *)
Definition javascript_examples : string := unlines [
  "";
  "";
  "// Usage Examples";
  "";
  "// Example 1: Basic SMS sending";
  "const messageService = new BaaSMessageService('your-api-key', 'your-project-id');";
  "";
  "const recipients = [";
  "    { phone_number: " ++ dq ++ "010-1234-5678" ++ dq ++ ", member_code: " ++ dq ++ "user_001" ++ dq ++ " }";
  "];";
  "";
  "// Send SMS";
  "messageService.sendSMS(";
  "    recipients,";
  "    " ++ dq ++ "안녕하세요! 인증번호는 123456입니다." ++ dq ++ ",";
  "    " ++ dq ++ "02-1234-5678" ++ dq;
  ").then(result => {";
  "    console.log('SMS Result:', result);";
  "    if (result.success) {";
  "        // Check status";
  "        return messageService.getMessageStatus(result.groupId);";
  "    }";
  "}).then(status => {";
  "    console.log('Status:', status);";
  "});";
  "";
  "// Example 2: MMS with images";
  "messageService.sendMMS(";
  "    recipients,";
  "    " ++ dq ++ "신상품 출시 안내드립니다!" ++ dq ++ ",";
  "    " ++ dq ++ "신상품 알림" ++ dq ++ ",";
  "    " ++ dq ++ "02-1234-5678" ++ dq ++ ",";
  "    [" ++ dq ++ "https://example.com/product.jpg" ++ dq ++ "]";
  ").then(result => {";
  "    console.log('MMS Result:', result);";
  "});";
  "";
  "// Example 3: Environment-based configuration";
  "const apiKey = process.env.BAAS_API_KEY || 'your-api-key';";
  "const projectId = process.env.BAAS_PROJECT_ID || 'your-project-id';";
  "const service = new BaaSMessageService(apiKey, projectId);"
].

(** The literal that starts at line 1177 of [server.py]. *)
Definition javascript_export : string := unlines [
  "";
  "";
  "// Node.js export";
  "if (typeof module !== 'undefined' && module.exports) {";
  "    module.exports = { BaaSMessageService };";
  "}";
  "";
  "// ES6 export";
  "export { BaaSMessageService };"
].

(** The literal that starts at line 1192 of [server.py]. *)
Definition python_base : string := unlines [
  dq ++ dq ++ dq;
  "BaaS SMS/MMS Direct API Client";
  "Directly calls https://api.aiapp.link without MCP";
  dq ++ dq ++ dq;
  "";
  "import requests";
  "import json";
  "from typing import List, Dict, Optional, Union";
  "";
  "class BaaSMessageService:";
  "    def __init__(self, api_key: str, project_id: str, base_url: str = 'https://api.aiapp.link'):";
  "        self.api_key = api_key";
  "        self.project_id = project_id";
  "        self.base_url = base_url";
  "        ";
  "    def send_sms(self, recipients: List[Dict], message: str, callback_number: str) -> Dict:";
  "        " ++ dq ++ dq ++ dq;
  "        Send SMS message";
  "        ";
  "        Args:";
  "            recipients: List of {phone_number, member_code}";
  "            message: Message content (max 2000 chars)";
  "            callback_number: Sender callback number";
  "            ";
  "        Returns:";
  "            Dict: Response object";
  "        " ++ dq ++ dq ++ dq;
  "        try:";
  "            headers = {";
  "                'X-API-KEY': self.api_key,";
  "                'Content-Type': 'application/json'";
  "            }";
  "            ";
  "            payload = {";
  "                'recipients': recipients,";
  "                'message': message,";
  "                'callback_number': callback_number,";
  "                'project_id': self.project_id,";
  "                'channel_id': 1";
  "            }";
  "            ";
  "            response = requests.post(";
  "                f'{self.base_url}/message/sms',";
  "                headers=headers,";
  "                json=payload,";
  "                timeout=30";
  "            )";
  "            ";
  "            result = response.json()";
  "            ";
  "            if response.status_code == 200 and result.get('success'):";
  "                return {";
  "                    'success': True,";
  "                    'group_id': result['data']['group_id'],";
  "                    'message': 'SMS sent successfully'";
  "                }";
  "            else:";
  "                return {";
  "                    'success': False,";
  "                    'error': result.get('message', 'Send failed'),";
  "                    'error_code': result.get('error_code')";
  "                }";
  "                ";
  "        except requests.exceptions.RequestException as e:";
  "            return {";
  "                'success': False,";
  "                'error': f'Network error: {str(e)}'";
  "            }";
  "    ";
  "    def send_mms(self, recipients: List[Dict], message: str, subject: str, ";
  "                callback_number: str, image_urls: Optional[List[str]] = None) -> Dict:";
  "        " ++ dq ++ dq ++ dq;
  "        Send MMS message with images";
  "        ";
  "        Args:";
  "            recipients: List of {phone_number, member_code}";
  "            message: Message content";
  "            subject: MMS subject (max 40 chars)";
  "            callback_number: Sender callback number";
  "            image_urls: List of image URLs (max 5)";
  "            ";
  "        Returns:";
  "            Dict: Response object";
  "        " ++ dq ++ dq ++ dq;
  "        try:";
  "            headers = {";
  "                'X-API-KEY': self.api_key,";
  "                'Content-Type': 'application/json'";
  "            }";
  "            ";
  "            payload = {";
  "                'recipients': recipients,";
  "                'message': message,";
  "                'subject': subject,";
  "                'callback_number': callback_number,";
  "                'project_id': self.project_id,";
  "                'channel_id': 3,";
  "                'img_url_list': image_urls or []";
  "            }";
  "            ";
  "            response = requests.post(";
  "                f'{self.base_url}/message/mms',";
  "                headers=headers,";
  "                json=payload,";
  "                timeout=30";
  "            )";
  "            ";
  "            result = response.json()";
  "            ";
  "            if response.status_code == 200 and result.get('success'):";
  "                return {";
  "                    'success': True,";
  "                    'group_id': result['data']['group_id'],";
  "                    'message': 'MMS sent successfully'";
  "                }";
  "            else:";
  "                return {";
  "                    'success': False,";
  "                    'error': result.get('message', 'Send failed'),";
  "                    'error_code': result.get('error_code')";
  "                }";
  "                ";
  "        except requests.exceptions.RequestException as e:";
  "            return {";
  "                'success': False,";
  "                'error': f'Network error: {str(e)}'";
  "            }";
  "    ";
  "    def get_message_status(self, group_id: int) -> Dict:";
  "        " ++ dq ++ dq ++ dq;
  "        Check message delivery status";
  "        ";
  "        Args:";
  "            group_id: Message group ID";
  "            ";
  "        Returns:";
  "            Dict: Status information";
  "        " ++ dq ++ dq ++ dq;
  "        try:";
  "            headers = {";
  "                'X-API-KEY': self.api_key,";
  "                'Content-Type': 'application/json'";
  "            }";
  "            ";
  "            response = requests.get(";
  "                f'{self.base_url}/message/send_history/sms/{group_id}/messages',";
  "                headers=headers,";
  "                timeout=30";
  "            )";
  "            ";
  "            result = response.json()";
  "            ";
  "            if response.status_code == 200 and result.get('success'):";
  "                messages = result.get('data', [])";
  "                total_count = len(messages)";
  "                success_count = sum(1 for msg in messages if msg.get('result') == '성공')";
  "                failed_count = sum(1 for msg in messages if msg.get('result') == '실패')";
  "                pending_count = total_count - success_count - failed_count";
  "                ";
  "                if pending_count > 0:";
  "                    status = '전송중'";
  "                elif failed_count == 0:";
  "                    status = '성공'";
  "                else:";
  "                    status = '실패' if success_count == 0 else '부분성공'";
  "                ";
  "                return {";
  "                    'group_id': group_id,";
  "                    'status': status,";
  "                    'total_count': total_count,";
  "                    'success_count': success_count,";
  "                    'failed_count': failed_count,";
  "                    'pending_count': pending_count,";
  "                    'messages': [";
  "                        {";
  "                            'phone': msg.get('phone', ''),";
  "                            'name': msg.get('name', ''),";
  "                            'status': msg.get('result', ''),";
  "                            'reason': msg.get('reason')";
  "                        }";
  "                        for msg in messages";
  "                    ]";
  "                }";
  "            else:";
  "                return {";
  "                    'success': False,";
  "                    'error': result.get('message', 'Status check failed')";
  "                }";
  "                ";
  "        except requests.exceptions.RequestException as e:";
  "            return {";
  "                'success': False,";
  "                'error': f'Network error: {str(e)}'";
  "            }"
].

(** The literal that starts at line 1389 of [server.py]. *)
Definition python_django : string := unlines [
  "";
  "";
  "# Django integration";
  "from django.conf import settings";
  "from django.core.cache import cache";
  "";
  "class DjangoBaaSMessageService(BaaSMessageService):";
  "    def __init__(self, project_id: str = None):";
  "        api_key = getattr(settings, 'BAAS_API_KEY', None)";
  "        project_id = project_id or getattr(settings, 'BAAS_PROJECT_ID', None)";
  "        ";
  "        if not api_key:";
  "            raise ValueError(" ++ dq ++ "BAAS_API_KEY must be set in Django settings" ++ dq ++ ")";
  "        if not project_id:";
  "            raise ValueError(" ++ dq ++ "BAAS_PROJECT_ID must be provided or set in Django settings" ++ dq ++ ")";
  "            ";
  "        super().__init__(api_key, project_id)";
  "    ";
  "    def send_sms_cached(self, recipients: List[Dict], message: str, callback_number: str, cache_timeout: int = 300) -> Dict:";
  "        " ++ dq ++ dq ++ dq ++ "Send SMS with caching for duplicate prevention" ++ dq ++ dq ++ dq;
  "        cache_key = f" ++ dq ++ "baas_sms_{hash(str(recipients))}{hash(message)}" ++ dq;
  "        ";
  "        cached_result = cache.get(cache_key)";
  "        if cached_result:";
  "            return cached_result";
  "            ";
  "        result = self.send_sms(recipients, message, callback_number)";
  "        ";
  "        if result.get('success'):";
  "            cache.set(cache_key, result, cache_timeout)";
  "            ";
  "        return result"
].

(** The literal that starts at line 1423 of [server.py]. *)
Definition python_fastapi : string := unlines [
  "";
  "";
  "# FastAPI integration";
  "from fastapi import HTTPException, Depends";
  "from pydantic import BaseModel";
  "from typing import List";
  "";
  "class SMSRequest(BaseModel):";
  "    recipients: List[Dict[str, str]]";
  "    message: str";
  "    callback_number: str";
  "";
  "class MMSRequest(BaseModel):";
  "    recipients: List[Dict[str, str]]";
  "    message: str";
  "    subject: str";
  "    callback_number: str";
  "    image_urls: Optional[List[str]] = []";
  "";
  "def get_baas_service():";
  "    " ++ dq ++ dq ++ dq ++ "FastAPI dependency for BaaS service" ++ dq ++ dq ++ dq;
  "    import os";
  "    api_key = os.getenv('BAAS_API_KEY')";
  "    project_id = os.getenv('BAAS_PROJECT_ID')";
  "    ";
  "    if not api_key or not project_id:";
  "        raise HTTPException(status_code=500, detail=" ++ dq ++ "BaaS configuration missing" ++ dq ++ ")";
  "        ";
  "    return BaaSMessageService(api_key, project_id)";
  "";
  "# FastAPI route examples";
  "async def send_sms_endpoint(request: SMSRequest, service: BaaSMessageService = Depends(get_baas_service)):";
  "    result = service.send_sms(request.recipients, request.message, request.callback_number)";
  "    ";
  "    if not result.get('success'):";
  "        raise HTTPException(status_code=400, detail=result.get('error'))";
  "        ";
  "    return result"
].

(** The literal that starts at line 1464 of [server.py]. *)
Definition python_examples : string := unlines [
  "";
  "";
  "# Usage Examples";
  "if __name__ == " ++ dq ++ "__main__" ++ dq ++ ":";
  "    import os";
  "    ";
  "    # Configuration from environment variables";
  "    api_key = os.getenv('BAAS_API_KEY', 'your-api-key')";
  "    project_id = os.getenv('BAAS_PROJECT_ID', 'your-project-id')";
  "    ";
  "    # Create service instance";
  "    service = BaaSMessageService(api_key, project_id)";
  "    ";
  "    # Example 1: Send SMS";
  "    recipients = [";
  "        {" ++ dq ++ "phone_number" ++ dq ++ ": " ++ dq ++ "010-1234-5678" ++ dq ++ ", " ++ dq ++ "member_code" ++ dq ++ ": " ++ dq ++ "user_001" ++ dq ++ "}";
  "    ]";
  "    ";
  "    sms_result = service.send_sms(";
  "        recipients,";
  "        " ++ dq ++ "안녕하세요! 인증번호는 123456입니다." ++ dq ++ ",";
  "        " ++ dq ++ "02-1234-5678" ++ dq;
  "    )";
  "    print(" ++ dq ++ "SMS Result:" ++ dq ++ ", sms_result)";
  "    ";
  "    # Example 2: Send MMS";
  "    if sms_result.get('success'):";
  "        mms_result = service.send_mms(";
  "            recipients,";
  "            " ++ dq ++ "이미지가 포함된 MMS입니다." ++ dq ++ ",";
  "            " ++ dq ++ "MMS 테스트" ++ dq ++ ",";
  "            " ++ dq ++ "02-1234-5678" ++ dq ++ ",";
  "            [" ++ dq ++ "https://example.com/image.jpg" ++ dq ++ "]";
  "        )";
  "        print(" ++ dq ++ "MMS Result:" ++ dq ++ ", mms_result)";
  "        ";
  "        # Example 3: Check status";
  "        if mms_result.get('success'):";
  "            status = service.get_message_status(mms_result['group_id'])";
  "            print(" ++ dq ++ "Message Status:" ++ dq ++ ", status)"
].

(** The literal that starts at line 1510 of [server.py]. *)
Definition php_base : string := unlines [
  "<?php";
  "/**";
  " * BaaS SMS/MMS Direct API Client";
  " * Directly calls https://api.aiapp.link without MCP";
  " */";
  "";
  "class BaaSMessageService {";
  "    private $apiKey;";
  "    private $projectId;";
  "    private $baseUrl;";
  "    ";
  "    public function __construct($apiKey, $projectId, $baseUrl = 'https://api.aiapp.link') {";
  "        $this->apiKey = $apiKey;";
  "        $this->projectId = $projectId;";
  "        $this->baseUrl = $baseUrl;";
  "    }";
  "    ";
  "    /**";
  "     * Send SMS message";
  "     * @param array $recipients Array of ['phone_number' => '', 'member_code' => '']";
  "     * @param string $message Message content (max 2000 chars)";
  "     * @param string $callbackNumber Sender callback number";
  "     * @return array Response array";
  "     */";
  "    public function sendSMS($recipients, $message, $callbackNumber) {";
  "        $payload = [";
  "            'recipients' => $recipients,";
  "            'message' => $message,";
  "            'callback_number' => $callbackNumber,";
  "            'project_id' => $this->projectId,";
  "            'channel_id' => 1";
  "        ];";
  "        ";
  "        return $this->makeRequest('/message/sms', $payload);";
  "    }";
  "    ";
  "    /**";
  "     * Send MMS message with images";
  "     * @param array $recipients Array of recipients";
  "     * @param string $message Message content";
  "     * @param string $subject MMS subject (max 40 chars)";
  "     * @param string $callbackNumber Sender callback number";
  "     * @param array $imageUrls Array of image URLs (max 5)";
  "     * @return array Response array";
  "     */";
  "    public function sendMMS($recipients, $message, $subject, $callbackNumber, $imageUrls = []) {";
  "        $payload = [";
  "            'recipients' => $recipients,";
  "            'message' => $message,";
  "            'subject' => $subject,";
  "            'callback_number' => $callbackNumber,";
  "            'project_id' => $this->projectId,";
  "            'channel_id' => 3,";
  "            'img_url_list' => $imageUrls";
  "        ];";
  "        ";
  "        return $this->makeRequest('/message/mms', $payload);";
  "    }";
  "    ";
  "    /**";
  "     * Check message delivery status";
  "     * @param int $groupId Message group ID";
  "     * @return array Status information";
  "     */";
  "    public function getMessageStatus($groupId) {";
  "        $url = " ++ dq ++ "/message/send_history/sms/{$groupId}/messages" ++ dq ++ ";";
  "        return $this->makeRequest($url, null, 'GET');";
  "    }";
  "    ";
  "    /**";
  "     * Make HTTP request to BaaS API";
  "     * @param string $endpoint API endpoint";
  "     * @param array|null $payload Request payload";
  "     * @param string $method HTTP method";
  "     * @return array Response array";
  "     */";
  "    private function makeRequest($endpoint, $payload = null, $method = 'POST') {";
  "        $headers = [";
  "            'X-API-KEY: ' . $this->apiKey,";
  "            'Content-Type: application/json'";
  "        ];";
  "        ";
  "        $ch = curl_init();";
  "        curl_setopt($ch, CURLOPT_URL, $this->baseUrl . $endpoint);";
  "        curl_setopt($ch, CURLOPT_HTTPHEADER, $headers);";
  "        curl_setopt($ch, CURLOPT_RETURNTRANSFER, true);";
  "        curl_setopt($ch, CURLOPT_TIMEOUT, 30);";
  "        ";
  "        if ($method === 'POST') {";
  "            curl_setopt($ch, CURLOPT_POST, true);";
  "            if ($payload) {";
  "                curl_setopt($ch, CURLOPT_POSTFIELDS, json_encode($payload));";
  "            }";
  "        }";
  "        ";
  "        $response = curl_exec($ch);";
  "        $httpCode = curl_getinfo($ch, CURLINFO_HTTP_CODE);";
  "        $error = curl_error($ch);";
  "        curl_close($ch);";
  "        ";
  "        if ($response === false || !empty($error)) {";
  "            return [";
  "                'success' => false,";
  "                'error' => 'cURL error: ' . $error";
  "            ];";
  "        }";
  "        ";
  "        $result = json_decode($response, true);";
  "        ";
  "        if ($httpCode === 200 && isset($result['success']) && $result['success']) {";
  "            return [";
  "                'success' => true,";
  "                'group_id' => $result['data']['group_id'] ?? null,";
  "                'message' => 'Request successful'";
  "            ];";
  "        } else {";
  "            return [";
  "                'success' => false,";
  "                'error' => $result['message'] ?? 'Request failed',";
  "                'error_code' => $result['error_code'] ?? null";
  "            ];";
  "        }";
  "    }";
  "}"
].

(** The literal that starts at line 1637 of [server.py]. *)
Definition php_laravel : string := unlines [
  "";
  "";
  "/**";
  " * Laravel Service Provider integration";
  " */";
  "namespace App\Services;";
  "";
  "use Illuminate\Support\Facades\Config;";
  "use Illuminate\Support\Facades\Cache;";
  "";
  "class LaravelBaaSMessageService extends BaaSMessageService {";
  "    public function __construct($projectId = null) {";
  "        $apiKey = Config::get('services.baas.api_key');";
  "        $projectId = $projectId ?: Config::get('services.baas.project_id');";
  "        ";
  "        if (!$apiKey || !$projectId) {";
  "            throw new \Exception('BaaS configuration missing in config/services.php');";
  "        }";
  "        ";
  "        parent::__construct($apiKey, $projectId);";
  "    }";
  "    ";
  "    /**";
  "     * Send SMS with Laravel caching";
  "     */";
  "    public function sendSMSCached($recipients, $message, $callbackNumber, $cacheMinutes = 5) {";
  "        $cacheKey = 'baas_sms_' . md5(serialize($recipients) . $message);";
  "        ";
  "        return Cache::remember($cacheKey, $cacheMinutes, function() use ($recipients, $message, $callbackNumber) {";
  "            return $this->sendSMS($recipients, $message, $callbackNumber);";
  "        });";
  "    }";
  "}";
  "";
  "// Add to config/services.php:";
  "/*";
  "'baas' => [";
  "    'api_key' => env('BAAS_API_KEY'),";
  "    'project_id' => env('BAAS_PROJECT_ID'),";
  "],";
  "*/"
].

(** The literal that starts at line 1681 of [server.py]. *)
Definition php_examples : string := unlines [
  "";
  "";
  "// Usage Examples";
  "";
  "// Basic usage";
  "$apiKey = $_ENV['BAAS_API_KEY'] ?? 'your-api-key';";
  "$projectId = $_ENV['BAAS_PROJECT_ID'] ?? 'your-project-id';";
  "";
  "$service = new BaaSMessageService($apiKey, $projectId);";
  "";
  "// Example 1: Send SMS";
  "$recipients = [";
  "    ['phone_number' => '010-1234-5678', 'member_code' => 'user_001']";
  "];";
  "";
  "$smsResult = $service->sendSMS(";
  "    $recipients,";
  "    '안녕하세요! 인증번호는 123456입니다.',";
  "    '02-1234-5678'";
  ");";
  "";
  "echo " ++ dq ++ "SMS Result: " ++ dq ++ " . json_encode($smsResult) . " ++ dq ++ "\n" ++ dq ++ ";";
  "";
  "// Example 2: Send MMS";
  "if ($smsResult['success']) {";
  "    $mmsResult = $service->sendMMS(";
  "        $recipients,";
  "        '이미지가 포함된 MMS입니다.',";
  "        'MMS 테스트',";
  "        '02-1234-5678',";
  "        ['https://example.com/image.jpg']";
  "    );";
  "    ";
  "    echo " ++ dq ++ "MMS Result: " ++ dq ++ " . json_encode($mmsResult) . " ++ dq ++ "\n" ++ dq ++ ";";
  "    ";
  "    // Example 3: Check status";
  "    if ($mmsResult['success'] && isset($mmsResult['group_id'])) {";
  "        $status = $service->getMessageStatus($mmsResult['group_id']);";
  "        echo " ++ dq ++ "Status: " ++ dq ++ " . json_encode($status) . " ++ dq ++ "\n" ++ dq ++ ";";
  "    }";
  "}";
  "";
  "?>"
].
End Templates.

(** [generate_javascript_code(framework, include_examples)]. *)
Definition generate_javascript_code
    (framework : option string) (include_examples : bool) : string :=
  let base_code := Templates.javascript_base in
  let base_code :=
    match framework with
    | Some f =>
        if String.eqb f "react" then base_code ++ Templates.javascript_react
        else if String.eqb f "vue" then base_code ++ Templates.javascript_vue
        else base_code
    | None => base_code
    end in
  let base_code :=
    if include_examples then base_code ++ Templates.javascript_examples
    else base_code in
  base_code ++ Templates.javascript_export.

(** [generate_python_code(framework, include_examples)]. *)
Definition generate_python_code
    (framework : option string) (include_examples : bool) : string :=
  let base_code := Templates.python_base in
  let base_code :=
    match framework with
    | Some f =>
        if String.eqb f "django" then base_code ++ Templates.python_django
        else if String.eqb f "fastapi" then base_code ++ Templates.python_fastapi
        else base_code
    | None => base_code
    end in
  if include_examples then base_code ++ Templates.python_examples
  else base_code.

(** [generate_php_code(framework, include_examples)]. *)
Definition generate_php_code
    (framework : option string) (include_examples : bool) : string :=
  let base_code := Templates.php_base in
  let base_code :=
    match framework with
    | Some f =>
        if String.eqb f "laravel" then base_code ++ Templates.php_laravel
        else base_code
    | None => base_code
    end in
  if include_examples then base_code ++ Templates.php_examples
  else base_code.

(* ------------------------------------------------------------------ *)
(** ** The tools *)

Definition API_BASE_URL : string := "https://api.aiapp.link".

(** A recipient: a [Dict[str, str]] with [phone_number] and [member_code]. *)
Definition recipient : Type := list (string * string).

Definition str_dict (d : list (string * string)) : value :=
  VDict (map (fun kv => (fst kv, VStr (snd kv))) d).

Definition recipients_value (recipients : list recipient) : value :=
  VList (map str_dict recipients).

(** The shape every tool gives to a failure. *)
Definition failure (error error_code : string) : dict :=
  [("success", VBool false);
   ("error", VStr error);
   ("error_code", VStr error_code)].

(** [x.lower() if x else None] for an optional argument. *)
Definition lower_opt (rt : runtime) (x : option string) : option string :=
  match x with
  | Some s => if truthy_str s then Some (lower rt s) else None
  | None => None
  end.

(** [sum(1 for msg in messages if msg.get("result") == label)], the items of
    [messages] taken from the left. *)
Fixpoint sum_results (label : string) (acc : Z) (messages : list value)
  : outcome Z :=
  match messages with
  | [] => Return acc
  | msg :: rest =>
      obind (get msg "result" VNone) (fun r =>
      sum_results label (if eq_str r label then acc + 1 else acc) rest)
  end.

Definition count_results (label : string) (messages : value) : outcome Z :=
  obind (iterate messages) (sum_results label 0).

(** One item of the [messages] list comprehension of [get_message_status]. *)
Definition message_row (msg : value) : outcome value :=
  obind (get msg "phone" (VStr "")) (fun phone =>
  obind (get msg "name" (VStr "")) (fun name =>
  obind (get msg "result" (VStr "")) (fun status =>
  obind (get msg "reason" VNone) (fun reason =>
  Return (VDict [("phone", phone); ("name", name);
                 ("status", status); ("reason", reason)]))))).

Fixpoint message_rows (messages : list value) : outcome (list value) :=
  match messages with
  | [] => Return []
  | msg :: rest =>
      obind (message_row msg) (fun row =>
      obind (message_rows rest) (fun rows => Return (row :: rows)))
  end.

(** The overall status of a send group, from its three counts. *)
Definition overall_status (success_count failed_count pending_count : Z)
  : string :=
  if pending_count >? 0 then "전송중"
  else if failed_count =? 0 then "성공"
  else if success_count =? 0 then "실패" else "부분성공".

(** The characters that make a regular expression more than a literal. *)
Definition regex_metachars : string := ".^$*+?{}[]\|()".

Fixpoint has_char (c : ascii) (s : string) : bool :=
  match s with
  | EmptyString => false
  | String d rest => (Ascii.eqb c d || has_char c rest)%bool
  end.

Fixpoint is_literal_pattern (s : string) : bool :=
  match s with
  | EmptyString => true
  | String c rest => (negb (has_char c regex_metachars) && is_literal_pattern rest)%bool
  end.

(** The matches of [opening(.*?)```] in [s] under [re.DOTALL], for a literal
    [opening]: the text between an opening fence and the nearest closing
    fence after it, then on from the end of that fence. *)
Fixpoint fenced_blocks (fuel : nat) (opening s : string) : list string :=
  match fuel with
  | O => []
  | S fuel' =>
      match find_sub opening s with
      | None => []
      | Some (_, after_opening) =>
          match find_sub "```" after_opening with
          | None => []
          | Some (block, rest) => block :: fenced_blocks fuel' opening rest
          end
      end
  end.

(** [re.findall(f'```{language}(.*?)```', template_content, re.DOTALL)]. *)
Definition re_findall_fenced (rt : runtime) (language template_content : string)
  : outcome (list string) :=
  if is_literal_pattern language
  then Return (fenced_blocks (S (String.length template_content))
                             ("```" ++ language) template_content)
  else re_findall_special rt ("```" ++ language ++ "(.*?)```") template_content.

Section Tools.

Variable rt : runtime.
Variable net : remote.

Definition api_headers : list (string * string) :=
  [("X-API-KEY", BAAS_API_KEY rt); ("Content-Type", "application/json")].

(** *** [get_code_template_url] *)

Definition supported_languages : list string :=
  ["javascript"; "python"; "php"; "java"; "go"; "csharp"].

Definition supported_frameworks : list (string * list string) :=
  [("javascript", ["react"; "vue"; "nextjs"; "express"; "nodejs"]);
   ("python", ["django"; "fastapi"; "flask"; "python"]);
   ("php", ["laravel"; "symfony"; "php"]);
   ("java", ["spring"; "springboot"]);
   ("go", ["gin"; "echo"; "fiber"]);
   ("csharp", ["aspnet"; "dotnet"])].

Definition get_code_template_url_body
    (language : string) (framework deployment_platform : option string)
  : M dict :=
  let language := lower rt language in
  let framework := lower_opt rt framework in
  let platform := lower_opt rt deployment_platform in
  let base_url := "https://cdn.mbaas.kr/templates/sms-mms" in
  let template_path :=
    match framework with
    | Some f => language ++ "/" ++ f
    | None => language ++ "/vanilla"
    end in
  let template_url := base_url ++ "/" ++ template_path ++ ".md" in
  let integration_url :=
    match platform with
    | Some p => Some (base_url ++ "/deployment/" ++ p ++ ".md")
    | None => None
    end in
  if negb (str_in language supported_languages) then
    ret [("success", VBool false);
         ("error", VStr ("언어 '" ++ language ++ "'는 아직 지원되지 않습니다"));
         ("supported_languages", str_list supported_languages);
         ("error_code", VStr "UNSUPPORTED_LANGUAGE")]
  else
    ret [("success", VBool true);
         ("language", VStr language);
         ("framework", opt_str framework);
         ("deployment_platform", opt_str platform);
         ("template_url", VStr template_url);
         ("integration_url", opt_str integration_url);
         ("api_endpoint", VStr "https://api.aiapp.link");
         ("cdn_info", VDict [("cache_duration", VStr "24시간");
                             ("last_updated", VStr "자동 업데이트");
                             ("version", VStr "latest")]);
         ("configuration",
          VDict [("required_env_vars", str_list ["BAAS_API_KEY"; "BAAS_PROJECT_ID"]);
                 ("installation_guide",
                  VStr (base_url ++ "/setup/" ++ language ++ ".md"))]);
         ("message",
          VStr (language ++ " 템플릿 URL을 제공합니다. 토큰 최적화를 위해 CDN에서 직접 다운로드하세요."))].

Definition get_code_template_url
    (language : string) (framework deployment_platform : option string)
  : M dict :=
  try_except
    (get_code_template_url_body language framework deployment_platform)
    (fun e => ret (failure ("템플릿 URL 생성에 실패했습니다: " ++ exn_str e)
                           "URL_GENERATION_ERROR")).

(** *** [send_sms] *)

(** The part of [send_sms] and [send_mms] that reads the answer to the POST;
    [sent] is the success message of the channel. *)
Definition send_result (sent : string) (recipients : list recipient)
    (response : response) : M dict :=
  if status_code response =? 200 then
    result <- lift (json response) ;;
    success <- lift (get result "success" VNone) ;;
    if truthy success then
      data <- lift (subscript result "data") ;;
      group_id <- lift (subscript data "group_id") ;;
      ret [("success", VBool true);
           ("group_id", group_id);
           ("message", VStr sent);
           ("sent_count", VInt (Z.of_nat (List.length recipients)));
           ("failed_count", VInt 0)]
    else
      error <- lift (get result "message" (VStr "Unknown error")) ;;
      error_code <- lift (get result "error_code" (VStr "UNKNOWN_ERROR")) ;;
      ret [("success", VBool false);
           ("error", error);
           ("error_code", error_code)]
  else
    ret (failure ("API 호출이 실패했습니다 (상태코드: "
                  ++ str_of_int (status_code response) ++ ")")
                 "API_ERROR").

Definition sms_payload (recipients : list recipient)
    (message callback_number project_id : string) : value :=
  VDict [("recipients", recipients_value recipients);
         ("message", VStr message);
         ("callback_number", VStr callback_number);
         ("project_id", VStr project_id);
         ("channel_id", VInt 1)].

Definition send_sms_body (recipients : list recipient)
    (message callback_number project_id : string) : M dict :=
  if negb (truthy_str project_id) then
    ret (failure "프로젝트 ID가 필요합니다" "MISSING_PROJECT_ID")
  else if (match recipients with [] => true | _ => false end
           || (Z.of_nat (List.length recipients) >? 1000))%bool then
    ret (failure "수신자 수는 1명 이상 1000명 이하여야 합니다"
                 "INVALID_RECIPIENTS_COUNT")
  else if py_len message >? 2000 then
    ret (failure "메시지 길이가 2000자를 초과했습니다" "MESSAGE_TOO_LONG")
  else
    let payload := sms_payload recipients message callback_number project_id in
    response <- send net (POST (API_BASE_URL ++ "/message/sms") payload api_headers) ;;
    send_result "SMS가 성공적으로 전송되었습니다" recipients response.

Definition send_sms (recipients : list recipient)
    (message callback_number project_id : string) : M dict :=
  try_except
    (send_sms_body recipients message callback_number project_id)
    (fun e => ret (failure ("SMS 전송에 실패했습니다: " ++ exn_str e)
                           "INTERNAL_ERROR")).

(** *** [send_mms] *)

Definition mms_payload (recipients : list recipient)
    (message subject callback_number project_id : string)
    (image_urls : option (list string)) : value :=
  VDict [("recipients", recipients_value recipients);
         ("message", VStr message);
         ("subject", VStr subject);
         ("callback_number", VStr callback_number);
         ("project_id", VStr project_id);
         ("channel_id", VInt 3);
         ("img_url_list",
          str_list match image_urls with
                   | Some (u :: us) => u :: us
                   | _ => []
                   end)].

Definition send_mms_body (recipients : list recipient)
    (message subject callback_number project_id : string)
    (image_urls : option (list string)) : M dict :=
  if negb (truthy_str project_id) then
    ret (failure "프로젝트 ID가 필요합니다" "MISSING_PROJECT_ID")
  else if (match recipients with [] => true | _ => false end
           || (Z.of_nat (List.length recipients) >? 1000))%bool then
    ret (failure "수신자 수는 1명 이상 1000명 이하여야 합니다"
                 "INVALID_RECIPIENTS_COUNT")
  else if py_len message >? 2000 then
    ret (failure "메시지 길이가 2000자를 초과했습니다" "MESSAGE_TOO_LONG")
  else if py_len subject >? 40 then
    ret (failure "제목 길이가 40자를 초과했습니다" "SUBJECT_TOO_LONG")
  else if match image_urls with
          | Some (u :: us) => Z.of_nat (List.length (u :: us)) >? 5
          | _ => false
          end then
    ret (failure "최대 5개의 이미지만 첨부 가능합니다" "TOO_MANY_IMAGES")
  else
    let payload :=
      mms_payload recipients message subject callback_number project_id
                  image_urls in
    response <- send net (POST (API_BASE_URL ++ "/message/mms") payload api_headers) ;;
    send_result "MMS가 성공적으로 전송되었습니다" recipients response.

Definition send_mms (recipients : list recipient)
    (message subject callback_number project_id : string)
    (image_urls : option (list string)) : M dict :=
  try_except
    (send_mms_body recipients message subject callback_number project_id
                   image_urls)
    (fun e => ret (failure ("MMS 전송에 실패했습니다: " ++ exn_str e)
                           "INTERNAL_ERROR")).

(** *** [get_message_status] *)

(** The statistics and the result built from the [data] of a successful
    answer. *)
Definition group_status (group_id : Z) (messages : value) : outcome dict :=
  obind (len messages) (fun total_count =>
  obind (count_results "성공" messages) (fun success_count =>
  obind (count_results "실패" messages) (fun failed_count =>
  let pending_count := total_count - success_count - failed_count in
  let status := overall_status success_count failed_count pending_count in
  obind (obind (iterate messages) message_rows) (fun rows =>
  Return [("group_id", VInt group_id);
          ("status", VStr status);
          ("total_count", VInt total_count);
          ("success_count", VInt success_count);
          ("failed_count", VInt failed_count);
          ("pending_count", VInt pending_count);
          ("messages", VList rows)])))).

Definition get_message_status_body (group_id : Z) : M dict :=
  response <- send net
    (GET (API_BASE_URL ++ "/message/send_history/sms/" ++ str_of_int group_id
          ++ "/messages") api_headers) ;;
  if status_code response =? 200 then
    result <- lift (json response) ;;
    success <- lift (get result "success" VNone) ;;
    if truthy success then
      messages <- lift (get result "data" (VList [])) ;;
      lift (group_status group_id messages)
    else
      error <- lift (get result "message" (VStr "메시지 상태 조회에 실패했습니다")) ;;
      error_code <- lift (get result "error_code" (VStr "UNKNOWN_ERROR")) ;;
      ret [("success", VBool false);
           ("error", error);
           ("error_code", error_code)]
  else
    ret (failure ("API 호출이 실패했습니다 (상태코드: "
                  ++ str_of_int (status_code response) ++ ")")
                 "API_ERROR").

Definition get_message_status (group_id : Z) : M dict :=
  try_except
    (get_message_status_body group_id)
    (fun e => ret (failure ("메시지 상태 조회에 실패했습니다: " ++ exn_str e)
                           "INTERNAL_ERROR")).

(** *** [get_send_history] *)

(** The [headers] and [params] dictionaries that the source builds before
    its placeholder answer are never used and are left out. *)
Definition get_send_history_body (project_id : string) (offset limit : Z)
    (message_type : string) : M dict :=
  if negb (truthy_str project_id) then
    ret (failure "프로젝트 ID가 필요합니다" "MISSING_PROJECT_ID")
  else
    let limit := if limit >? 100 then 100 else limit in
    let offset := if offset <? 0 then 0 else offset in
    let message_type :=
      if negb (str_in message_type ["SMS"; "MMS"; "ALL"]) then "ALL"
      else message_type in
    ret [("success", VBool true);
         ("data", VDict [("project_id", VStr project_id);
                         ("total_count", VInt 0);
                         ("offset", VInt offset);
                         ("limit", VInt limit);
                         ("message_type", VStr message_type);
                         ("history", VList [])]);
         ("message", VStr "전송 기록 엔드포인트가 아직 API에 구현되지 않았습니다")].

Definition get_send_history (project_id : string) (offset limit : Z)
    (message_type : string) : M dict :=
  try_except
    (get_send_history_body project_id offset limit message_type)
    (fun e => ret (failure ("전송 기록 조회에 실패했습니다: " ++ exn_str e)
                           "INTERNAL_ERROR")).

(** *** [generate_direct_api_code] *)

(** The local generators, by language: the [if]/[elif] chain that both
    fallback branches of [generate_direct_api_code] start with. *)
Definition local_generation (language : string) (framework : option string)
    (include_examples : bool) : option string :=
  if (String.eqb language "javascript" || String.eqb language "js")%bool then
    Some (generate_javascript_code framework include_examples)
  else if (String.eqb language "python" || String.eqb language "py")%bool then
    Some (generate_python_code framework include_examples)
  else if String.eqb language "php" then
    Some (generate_php_code framework include_examples)
  else None.

(** How the block that fetches the template ends: with [code] assigned
    (and [template_content] assigned or not), or by returning from the tool. *)
Inductive fetched : Type :=
| Code (code : string) (template_content : option string)
| Returned (result : dict).

(** The [except Exception as cdn_error] branch.  [template_content] tells
    whether the variable was assigned before the exception. *)
Definition cdn_error_fallback (language : string) (framework : option string)
    (include_examples : bool) (template_content : option string)
    (cdn_error : exn) : M fetched :=
  match local_generation language framework include_examples with
  | Some code => ret (Code code template_content)
  | None =>
      ret (Returned (failure ("CDN 오류 및 로컬 생성 불가: " ++ exn_str cdn_error)
                             "GENERATION_FAILED"))
  end.

(** The inner [try] block.  An exception can come from the GET, before
    [template_content] is assigned, or from [re.findall], after it. *)
Definition fetch_template (language : string) (framework : option string)
    (include_examples : bool) (template_url : string) : M fetched :=
  try_except
    (response <- send net (GET template_url []) ;;
     if status_code response =? 200 then
       let template_content := text response in
       try_except
         (code_blocks <- lift (re_findall_fenced rt language template_content) ;;
          match code_blocks with
          | block :: _ => ret (Code (strip block) (Some template_content))
          | [] => ret (Code template_content (Some template_content))
          end)
         (cdn_error_fallback language framework include_examples
                             (Some template_content))
     else
       match local_generation language framework include_examples with
       | Some code => ret (Code code None)
       | None =>
           ret (Returned
                  [("success", VBool false);
                   ("error", VStr ("CDN에서 템플릿을 가져올 수 없고, 언어 '" ++ language
                                   ++ "'는 로컬 생성을 지원하지 않습니다"));
                   ("supported_languages", str_list ["javascript"; "python"; "php"]);
                   ("error_code", VStr "TEMPLATE_UNAVAILABLE")])
       end)
    (cdn_error_fallback language framework include_examples None).

Definition extensions : list (string * string) :=
  [("javascript", "js"); ("js", "js"); ("python", "py"); ("py", "py");
   ("php", "php")].

Fixpoint assoc (key : string) (l : list (string * string)) : option string :=
  match l with
  | [] => None
  | (k, v) :: rest => if String.eqb key k then Some v else assoc key rest
  end.

Definition config_instructions : dict :=
  [("javascript",
    VDict [("env_vars", str_list ["BAAS_API_KEY"; "BAAS_PROJECT_ID"]);
           ("install", VStr "npm install (dependencies included in template)");
           ("usage", VStr "Import and instantiate BaaSMessageService class")]);
   ("python",
    VDict [("env_vars", str_list ["BAAS_API_KEY"; "BAAS_PROJECT_ID"]);
           ("install", VStr "pip install requests");
           ("usage", VStr "Import and instantiate BaaSMessageService class")]);
   ("php",
    VDict [("env_vars", str_list ["BAAS_API_KEY"; "BAAS_PROJECT_ID"]);
           ("install", VStr "cURL extension required (usually included)");
           ("usage", VStr "Include file and instantiate BaaSMessageService class")])].

Definition generate_direct_api_code_body (language : string)
    (framework : option string) (include_examples : bool) : M dict :=
  let language := lower rt language in
  let framework := lower_opt rt framework in
  let base_url := "https://cdn.baas-templates.com/sms-mms" in
  let template_path :=
    match framework with
    | Some f => language ++ "/" ++ f
    | None => language ++ "/vanilla"
    end in
  let template_url := base_url ++ "/" ++ template_path ++ ".md" in
  fetched <- fetch_template language framework include_examples template_url ;;
  match fetched with
  | Returned result => ret result
  | Code code template_content =>
      let extension :=
        match assoc language extensions with Some e => e | None => language end in
      let filename := "baas-sms-service." ++ extension in
      let from_cdn := match template_content with Some _ => true | None => false end in
      ret [("success", VBool true);
           ("language", VStr language);
           ("framework", opt_str framework);
           ("code", VStr code);
           ("filename", VStr filename);
           ("description",
            VStr (title rt language ++ " BaaS SMS service for direct API calls"));
           ("source", VStr (if from_cdn then "CDN template" else "Local generation"));
           ("template_url", VStr template_url);
           ("configuration", dict_get config_instructions language (VDict []));
           ("api_endpoint", VStr "https://api.aiapp.link");
           ("message",
            VStr (title rt language ++ " 코드가 성공적으로 생성되었습니다 (소스: "
                  ++ (if from_cdn then "CDN" else "로컬") ++ ")"))]
  end.

Definition generate_direct_api_code (language : string)
    (framework : option string) (include_examples : bool) : M dict :=
  try_except
    (generate_direct_api_code_body language framework include_examples)
    (fun e => ret (failure ("코드 생성에 실패했습니다: " ++ exn_str e)
                           "CODE_GENERATION_ERROR")).

(** *** [create_message_service_template] *)

(** The f-string of the JavaScript fallback helpers. *)
Definition project_helpers (project_id default_callback company_name : string)
  : string :=
  unlines [
    "";
    "// " ++ company_name ++ " Project-Specific Helpers";
    "const PROJECT_CONFIG = {";
    "    PROJECT_ID: '" ++ project_id ++ "',";
    "    DEFAULT_CALLBACK: '" ++ default_callback ++ "',";
    "    COMPANY_NAME: '" ++ company_name ++ "'";
    "};";
    "";
    "// Pre-configured service instance";
    "const messageService = new BaaSMessageService(";
    "    process.env.BAAS_API_KEY || 'your-api-key',";
    "    PROJECT_CONFIG.PROJECT_ID";
    ");";
    "";
    "// Helper functions for common use cases";
    "async function sendVerificationSMS(phoneNumber, code, memberCode) {";
    "    return await messageService.sendSMS(";
    "        [{ phone_number: phoneNumber, member_code: memberCode }],";
    "        `[" ++ company_name ++ "] 인증번호: ${code}`,";
    "        PROJECT_CONFIG.DEFAULT_CALLBACK";
    "    );";
    "}";
    "";
    "async function sendOrderConfirmation(phoneNumber, orderNumber, memberCode) {";
    "    return await messageService.sendSMS(";
    "        [{ phone_number: phoneNumber, member_code: memberCode }],";
    "        `[" ++ company_name ++ "] 주문이 완료되었습니다. 주문번호: ${orderNumber}`,";
    "        PROJECT_CONFIG.DEFAULT_CALLBACK";
    "    );";
    "}"
  ].

(** [project_config.get(key, default)]. *)
Definition config_get (project_config : list (string * string))
    (key default : string) : string :=
  match assoc key project_config with Some v => v | None => default end.

(** The three literal replacements applied to the generated code. *)
Definition customize (code project_id default_callback company_name : string)
  : string :=
  let code := replace code "your-project-id" project_id in
  let code := replace code "02-1234-5678" default_callback in
  replace code "Your Company" company_name.

(** The three template-variable replacements applied to the CDN helpers. *)
Definition fill_helpers
    (helpers_template project_id default_callback company_name : string)
  : string :=
  let helpers_code := replace helpers_template "{{company_name}}" company_name in
  let helpers_code := replace helpers_code "{{project_id}}" project_id in
  replace helpers_code "{{default_callback}}" default_callback.

(** The [try] block that fetches the project helpers; it yields [code] as it
    stands after the block. *)
Definition append_helpers (language code project_id default_callback
    company_name : string) : M string :=
  try_except
    (response <- send net
       (GET ("https://cdn.baas-templates.com/sms-mms/helpers/" ++ language
             ++ "-project.md") []) ;;
     if status_code response =? 200 then
       let helpers_template := text response in
       let helpers_code :=
         fill_helpers helpers_template project_id default_callback company_name in
       ret (code ++ nl ++ nl ++ helpers_code)
     else ret code)
    (fun _ =>
       if String.eqb language "javascript" then
         ret (code ++ project_helpers project_id default_callback company_name)
       else ret code).

Definition create_message_service_template_body
    (project_config : list (string * string)) (language : string)
    (features : option (list string)) : M dict :=
  let features :=
    match features with
    | None => ["sms"; "mms"; "status_check"]
    | Some fs => fs
    end in
  let project_id := config_get project_config "project_id" "your-project-id" in
  let default_callback :=
    config_get project_config "default_callback" "02-1234-5678" in
  let company_name := config_get project_config "company_name" "Your Company" in
  base_result <- generate_direct_api_code language None true ;;
  if negb (truthy (dict_get base_result "success" VNone)) then ret base_result
  else
    code <- lift (subscript (VDict base_result) "code") ;;
    match code with
    | VStr code =>
        let code := customize code project_id default_callback company_name in
        code <- append_helpers language code project_id default_callback
                               company_name ;;
        ret [("success", VBool true);
             ("project_config", str_dict project_config);
             ("language", VStr language);
             ("features", str_list features);
             ("code", VStr code);
             ("filename",
              VStr (replace (lower rt company_name) " " "_"
                    ++ "_message_service." ++ language));
             ("description", VStr (company_name ++ " 전용 메시지 서비스 템플릿"));
             ("source", VStr "CDN template + project customization");
             ("message", VStr "프로젝트별 맞춤 코드가 생성되었습니다 (CDN 최적화)")]
    | other =>
        raise (Exn "AttributeError"
                   ("'" ++ type_name other ++ "' object has no attribute 'replace'"))
    end.

Definition create_message_service_template
    (project_config : list (string * string)) (language : string)
    (features : option (list string)) : M dict :=
  try_except
    (create_message_service_template_body project_config language features)
    (fun e => ret (failure ("템플릿 생성에 실패했습니다: " ++ exn_str e)
                           "TEMPLATE_GENERATION_ERROR")).

(** *** [get_integration_guide] *)

Definition security_checklist : value :=
  str_list ["API 키를 코드에 하드코딩하지 않기";
            "환경 변수 또는 시크릿 관리 서비스 사용";
            "HTTPS 통신 확인";
            "적절한 에러 로깅 설정"].

Definition basic_guides : dict :=
  [("vercel",
    VDict [("title", VStr "Vercel 배포 가이드");
           ("steps", str_list ["1. 환경 변수 설정: BAAS_API_KEY, BAAS_PROJECT_ID";
                               "2. vercel.json 설정에 환경 변수 추가";
                               "3. API Routes에서 BaaSMessageService 사용";
                               "4. Edge Runtime 호환성 확인"]);
           ("config",
            VDict [("env_vars", VStr "Vercel Dashboard > Settings > Environment Variables");
                   ("api_routes", VStr "/api/send-sms.js 형태로 구현");
                   ("limitations", VStr "Edge Runtime에서는 Node.js APIs 제한")])]);
   ("netlify",
    VDict [("title", VStr "Netlify Functions 가이드");
           ("steps", str_list ["1. netlify/functions 디렉토리에 함수 생성";
                               "2. 환경 변수를 Netlify 대시보드에서 설정";
                               "3. BaaSMessageService를 Serverless Function에서 사용";
                               "4. 빌드 설정에 필요한 패키지 의존성 추가"])]);
   ("docker",
    VDict [("title", VStr "Docker 컨테이너 배포");
           ("steps", str_list ["1. Dockerfile에 필요한 의존성 설치";
                               "2. ENV 명령어로 환경 변수 설정";
                               "3. 또는 docker run -e 옵션 사용";
                               "4. 네트워크 접근성 확인 (api.aiapp.link)"])])].

Definition deployment_notes : dict :=
  [("development", VStr "개발 환경에서는 .env 파일 사용 권장");
   ("staging", VStr "스테이징 환경에서는 별도 프로젝트 ID 사용");
   ("production", VStr "프로덕션에서는 환경 변수 암호화 및 로깅 설정 필요")].

(** The inner [try] block: [Some] result when the CDN has the guide. *)
Definition fetch_guide (platform deployment_type guide_url : string)
  : M (option dict) :=
  try_except
    (response <- send net (GET guide_url []) ;;
     if status_code response =? 200 then
       let guide_content := text response in
       ret (Some [("success", VBool true);
                  ("platform", VStr platform);
                  ("deployment_type", VStr deployment_type);
                  ("guide_content", VStr guide_content);
                  ("source", VStr "CDN");
                  ("guide_url", VStr guide_url);
                  ("security_checklist", security_checklist);
                  ("message",
                   VStr (title rt platform ++ " " ++ deployment_type
                         ++ " 배포 가이드입니다 (CDN 최적화)"))])
     else ret None)
    (fun _ => ret None).

Definition get_integration_guide_body (platform deployment_type : string)
  : M dict :=
  let platform := lower rt platform in
  let deployment_type := lower rt deployment_type in
  let guide_url :=
    "https://cdn.baas-templates.com/sms-mms/deployment/" ++ platform ++ "-"
    ++ deployment_type ++ ".md" in
  fetched <- fetch_guide platform deployment_type guide_url ;;
  match fetched with
  | Some result => ret result
  | None =>
      let guide := dict_get basic_guides platform VNone in
      if negb (truthy guide) then
        ret [("success", VBool false);
             ("error", VStr ("플랫폼 '" ++ platform
                             ++ "'에 대한 가이드가 아직 준비되지 않았습니다"));
             ("available_platforms", str_list (map fst basic_guides));
             ("cdn_url", VStr "https://cdn.baas-templates.com/sms-mms/deployment/");
             ("error_code", VStr "PLATFORM_NOT_SUPPORTED")]
      else
        ret [("success", VBool true);
             ("platform", VStr platform);
             ("deployment_type", VStr deployment_type);
             ("guide", guide);
             ("source", VStr "Local fallback");
             ("deployment_notes", dict_get deployment_notes deployment_type (VStr ""));
             ("security_checklist", security_checklist);
             ("message",
              VStr (title rt platform ++ " " ++ deployment_type
                    ++ " 배포 가이드입니다 (로컬 폴백)"))]
  end.

Definition get_integration_guide (platform deployment_type : string) : M dict :=
  try_except
    (get_integration_guide_body platform deployment_type)
    (fun e => ret (failure ("가이드 조회에 실패했습니다: " ++ exn_str e)
                           "GUIDE_RETRIEVAL_ERROR")).

End Tools.

(* ------------------------------------------------------------------ *)
(** ** Vocabulary of the statements *)

(** The requests the remote-call tools issue. *)
Definition sms_request (rt : runtime) (recipients : list recipient)
    (message callback_number project_id : string) : request :=
  POST (API_BASE_URL ++ "/message/sms")
       (sms_payload recipients message callback_number project_id)
       (api_headers rt).

Definition mms_request (rt : runtime) (recipients : list recipient)
    (message subject callback_number project_id : string)
    (image_urls : option (list string)) : request :=
  POST (API_BASE_URL ++ "/message/mms")
       (mms_payload recipients message subject callback_number project_id
                    image_urls)
       (api_headers rt).

Definition status_request (rt : runtime) (group_id : Z) : request :=
  GET (API_BASE_URL ++ "/message/send_history/sms/" ++ str_of_int group_id
       ++ "/messages")
      (api_headers rt).

(** The payload of a request, when it has one. *)
Definition payload_of (r : request) : option value :=
  match r with
  | POST _ payload _ => Some payload
  | GET _ _ => None
  end.

Definition is_post (r : request) : bool :=
  match r with POST _ _ _ => true | GET _ _ => false end.

(** A field of a value that is a [dict]. *)
Definition field (key : string) (v : value) : option value :=
  match v with
  | VDict d => lookup key d
  | _ => None
  end.

(** The URL [generate_direct_api_code] fetches, from the lower-cased
    language and framework. *)
Definition cdn_template_url (language : string) (framework : option string)
  : string :=
  "https://cdn.baas-templates.com/sms-mms" ++ "/" ++
  match framework with
  | Some f => language ++ "/" ++ f
  | None => language ++ "/vanilla"
  end ++ ".md".

(** The URL [create_message_service_template] fetches the helpers from. *)
Definition helpers_url (language : string) : string :=
  "https://cdn.baas-templates.com/sms-mms/helpers/" ++ language ++ "-project.md".

(** What [s.replace(old, new)] means for a non-empty [old]: reading [s]
    from the left, an occurrence of [old] is rewritten to [new] and reading
    resumes after it; a character that starts no occurrence is kept. *)
Inductive Replaced (old new : string) : string -> string -> Prop :=
| Replaced_end : Replaced old new EmptyString EmptyString
| Replaced_here (rest rest' : string) :
    Replaced old new rest rest' ->
    Replaced old new (old ++ rest) (new ++ rest')
| Replaced_keep (c : ascii) (s s' : string) :
    startswith (String c s) old = false ->
    Replaced old new s s' ->
    Replaced old new (String c s) (String c s').


(** The specification of the status aggregator (section 4.2), on delivery
    records given as dictionaries. *)
Module Aggregator.

Definition label (record : dict) : value := dict_get record "result" VNone.

(** The number of records whose result label equals [l]. *)
Definition count_label (l : string) (records : list dict) : Z :=
  Z.of_nat (List.length (filter (fun r => eq_str (label r) l) records)).

Definition row (record : dict) : value :=
  VDict [("phone", dict_get record "phone" (VStr ""));
         ("name", dict_get record "name" (VStr ""));
         ("status", dict_get record "result" (VStr ""));
         ("reason", dict_get record "reason" VNone)].

(** A delivery record with the given result label. *)
Definition record_with (l : string) : dict :=
  [("phone", VStr "010-1234-5678"); ("name", VStr "user_001"); ("result", VStr l)].

End Aggregator.

(** Sample collaborators for the closed instances below. *)
Module Sample.

Definition rt : runtime :=
  Runtime "test-key" (fun s => s) (fun s => s)
          (fun _ _ => Raise (Exn "error" "nothing to repeat at position 0")).

(** A remote side that is unreachable. *)
Definition net_down : remote :=
  fun _ _ => Raise (Exn "ConnectError" "All connection attempts failed").

(** A remote side that answers every request with [status] and JSON [body]. *)
Definition net_json (status : Z) (body : value) : remote :=
  fun _ _ => Return (Response status EmptyString (Return body)).

(** A CDN that answers every request with [status] and the text [body]. *)
Definition net_text (status : Z) (body : string) : remote :=
  fun _ _ => Return (Response status body
                              (Raise (Exn "JSONDecodeError" "Expecting value"))).

(** A CDN that has the project helpers and nothing else. *)
Definition net_helpers_only : remote :=
  fun _ r =>
    match r with
    | GET url _ =>
        if endswith url "-project.md"
        then Return (Response 200 "// {{company_name}} helpers for {{project_id}}"
                              (Raise (Exn "JSONDecodeError" "Expecting value")))
        else Return (Response 404 "Not Found"
                              (Raise (Exn "JSONDecodeError" "Expecting value")))
    | POST _ _ _ => Raise (Exn "ConnectError" "All connection attempts failed")
    end.

Definition project_config : list (string * string) :=
  [("project_id", "proj-42"); ("company_name", "Acme")].

Definition recipients : list recipient :=
  [[("phone_number", "010-1234-5678"); ("member_code", "user_001")]].

Definition send_ok (group_id : Z) : value :=
  VDict [("success", VBool true);
         ("data", VDict [("group_id", VInt group_id)])].

Definition status_ok (labels : list string) : value :=
  VDict [("success", VBool true);
         ("data", VList (map (fun l => VDict (Aggregator.record_with l)) labels))].

End Sample.

(** *** Vocabulary of the further properties *)

(** The URL [get_integration_guide] fetches, from the lower-cased platform
    and deployment type. *)
Definition guide_url (platform deployment_type : string) : string :=
  "https://cdn.baas-templates.com/sms-mms/deployment/" ++ platform ++ "-"
  ++ deployment_type ++ ".md".

Definition is_dict (v : value) : bool :=
  match v with VDict _ => true | _ => false end.

(** A value that has neither a length nor items: [None], a boolean or a
    number. *)
Definition is_scalar (v : value) : bool :=
  match v with
  | VNone | VBool _ | VInt _ | VFloat _ => true
  | _ => false
  end.

(** The record carries the result label [l]. *)
Definition has_label (l : string) (record : dict) : Prop :=
  Aggregator.label record = VStr l.

(** The dictionary [create_message_service_template] returns on success,
    around the code it has assembled. *)
Definition template_result (rt : runtime)
    (project_config : list (string * string)) (language : string)
    (features : option (list string)) (code : string) : dict :=
  let company_name := config_get project_config "company_name" "Your Company" in
  [("success", VBool true);
   ("project_config", str_dict project_config);
   ("language", VStr language);
   ("features",
    str_list match features with
             | None => ["sms"; "mms"; "status_check"]
             | Some fs => fs
             end);
   ("code", VStr code);
   ("filename",
    VStr (replace (lower rt company_name) " " "_"
          ++ "_message_service." ++ language));
   ("description", VStr (company_name ++ " 전용 메시지 서비스 템플릿"));
   ("source", VStr "CDN template + project customization");
   ("message", VStr "프로젝트별 맞춤 코드가 생성되었습니다 (CDN 최적화)")].

(** What [append_helpers] leaves in [code], by the answer to the helpers
    request. *)
Definition with_helpers (language code project_id default_callback
    company_name : string) (answer : outcome response) : string :=
  match answer with
  | Return resp =>
      if status_code resp =? 200
      then code ++ nl ++ nl
           ++ fill_helpers (text resp) project_id default_callback company_name
      else code
  | Raise _ =>
      if String.eqb language "javascript"
      then code ++ project_helpers project_id default_callback company_name
      else code
  end.

(** The URL [get_code_template_url] returns, from the lower-cased language
    and framework. *)
Definition mbaas_template_url (language : string) (framework : option string)
  : string :=
  "https://cdn.mbaas.kr/templates/sms-mms" ++ "/" ++
  match framework with
  | Some f => language ++ "/" ++ f
  | None => language ++ "/vanilla"
  end ++ ".md".

(** The file extension [generate_direct_api_code] gives to a language. *)
Definition extension_of (language : string) : string :=
  if (String.eqb language "javascript" || String.eqb language "js")%bool then "js"
  else if (String.eqb language "python" || String.eqb language "py")%bool then "py"
  else language.

(** A request to the CDN: a GET without any header. *)
Definition bare_get (r : request) : Prop := exists url, r = GET url [].

(** Further sample collaborators. *)
Module Scenario.

(** A CDN that answers every request with a Markdown page holding one
    fenced Python block. *)
Definition markdown : string :=
  unlines ["# Python"; "```python"; "print('hello')"; "```"; "Done."].

Definition net_markdown : remote := Sample.net_text 200 markdown.

(** A runtime whose [re] module rejects the pattern of the language "(",
    an unbalanced parenthesis. *)
Definition regex_error : exn :=
  Exn "error" "missing ), unterminated subpattern at position 3".

Definition rt : runtime :=
  Runtime "test-key" (fun s => s) (fun s => s) (fun _ _ => Raise regex_error).

(** A status answer whose [data] is [v]. *)
Definition status_data (v : value) : value :=
  VDict [("success", VBool true); ("data", v)].

(** A remote failure without message or code. *)
Definition refused : value := VDict [("success", VBool false)].

End Scenario.

(** Proof steps shared by the lemmas on the tool boundary. *)



(* ------------------------------------------------------------------ *)
(** ** Status aggregation *)

Import Aggregator.

Lemma eq_str_true (v : value) (s : string) :
  eq_str v s = true <-> v = VStr s.
Proof.
  destruct v; simpl; split; intro H; try discriminate.
  - apply String.eqb_eq in H. now subst.
  - injection H as ->. apply String.eqb_refl.
Qed.

Lemma sum_results_records (l : string) (records : list dict) :
  forall acc,
    sum_results l acc (map VDict records) = Return (acc + count_label l records).
Proof.
  unfold count_label.
  induction records as [|r records IH]; intro acc; simpl.
  - f_equal. lia.
  - fold (label r).
    destruct (eq_str (label r) l); rewrite IH; f_equal; simpl List.length; lia.
Qed.

Lemma message_rows_records (records : list dict) :
  message_rows (map VDict records) = Return (map row records).
Proof.
  induction records as [|r records IH]; simpl.
  - reflexivity.
  - rewrite IH. reflexivity.
Qed.

Lemma count_label_nonneg (l : string) (records : list dict) :
  0 <= count_label l records.
Proof. unfold count_label. lia. Qed.

(** Two different labels select disjoint sets of records. *)
Lemma count_label_disjoint (a b : string) (records : list dict) :
  a <> b ->
  count_label a records + count_label b records <= Z.of_nat (List.length records).
Proof.
  intro Hab. unfold count_label.
  induction records as [|r records IH]; simpl.
  - lia.
  - destruct (eq_str (label r) a) eqn:Ea, (eq_str (label r) b) eqn:Eb;
      simpl List.length; try lia.
    apply eq_str_true in Ea. apply eq_str_true in Eb.
    rewrite Ea in Eb. injection Eb as Heq. contradiction.
Qed.

Lemma success_failed_differ : "성공" <> "실패".
Proof. discriminate. Qed.

(** What [get_message_status] returns when the API answers 200 with a
    success flag and a list of delivery records. *)
Lemma get_message_status_on_records
    (rt : runtime) (net : remote) (group_id : Z) (calls : list request)
    (resp : response) (result : dict) (records : list dict) :
  net calls (status_request rt group_id) = Return resp ->
  status_code resp = 200 ->
  json resp = Return (VDict result) ->
  truthy (dict_get result "success" VNone) = true ->
  dict_get result "data" (VList []) = VList (map VDict records) ->
  let total := Z.of_nat (List.length records) in
  let success := count_label "성공" records in
  let failed := count_label "실패" records in
  let pending := total - success - failed in
  get_message_status rt net group_id calls =
  (Return [("group_id", VInt group_id);
           ("status", VStr (overall_status success failed pending));
           ("total_count", VInt total);
           ("success_count", VInt success);
           ("failed_count", VInt failed);
           ("pending_count", VInt pending);
           ("messages", VList (map row records))],
   (calls ++ [status_request rt group_id])%list).
Proof.
  intros Hnet Hstatus Hjson Hflag Hdata. cbv zeta.
  unfold get_message_status, get_message_status_body, try_except, bind, send, lift.
  unfold status_request in Hnet. rewrite Hnet, Hstatus, Hjson.
  cbn [get Z.eqb Pos.eqb]. rewrite Hflag, Hdata.
  unfold group_status, count_results. cbn [len iterate obind].
  rewrite !sum_results_records, message_rows_records, length_map.
  reflexivity.
Qed.


(** C1.  When the API answers 200 with a success flag and a list of delivery
    records, [get_message_status] reports [success] = the number of records
    whose result label is "성공", [failed] = the number whose label is "실패",
    [pending] = total - success - failed, and an overall status chosen in
    strict priority order: "전송중" if pending > 0, else "성공" if failed = 0,
    else "실패" if success = 0, else "부분성공". *)
Theorem get_message_status_priority_order
    (rt : runtime) (net : remote) (group_id : Z) (calls : list request)
    (resp : response) (result : dict) (records : list dict) :
  net calls (status_request rt group_id) = Return resp ->
  status_code resp = 200 ->
  json resp = Return (VDict result) ->
  truthy (dict_get result "success" VNone) = true ->
  dict_get result "data" (VList []) = VList (map VDict records) ->
  let total := Z.of_nat (List.length records) in
  let success := Aggregator.count_label "성공" records in
  let failed := Aggregator.count_label "실패" records in
  let pending := total - success - failed in
  exists status rows,
    fst (get_message_status rt net group_id calls) =
      Return [("group_id", VInt group_id);
              ("status", VStr status);
              ("total_count", VInt total);
              ("success_count", VInt success);
              ("failed_count", VInt failed);
              ("pending_count", VInt pending);
              ("messages", VList rows)] /\
    (pending > 0 -> status = "전송중") /\
    (pending <= 0 -> failed = 0 -> status = "성공") /\
    (pending <= 0 -> failed <> 0 -> success = 0 -> status = "실패") /\
    (pending <= 0 -> failed <> 0 -> success <> 0 -> status = "부분성공").
Proof.
  intros Hnet Hstatus Hjson Hflag Hdata total success failed pending.
  exists (overall_status success failed pending), (map Aggregator.row records).
  split.
  - rewrite (get_message_status_on_records rt net group_id calls resp result
               records Hnet Hstatus Hjson Hflag Hdata).
    reflexivity.
  - unfold overall_status.
    destruct (Z.gtb_spec pending 0), (Z.eqb_spec failed 0),
      (Z.eqb_spec success 0); repeat split; intros; try reflexivity; lia.
Qed.

(** A group of two failed records and one record still in transit is
    reported as in progress: pending dominates. *)
Lemma get_message_status_priority_order_witness :
  exists d,
    fst (get_message_status Sample.rt
           (Sample.net_json 200 (Sample.status_ok ["실패"; "실패"; "접수"]))
           7 []) = Return d /\
    lookup "status" d = Some (VStr "전송중") /\
    lookup "failed_count" d = Some (VInt 2) /\
    lookup "pending_count" d = Some (VInt 1).
Proof.
  destruct (get_message_status_priority_order
              Sample.rt
              (Sample.net_json 200 (Sample.status_ok ["실패"; "실패"; "접수"]))
              7 []
              (Response 200 EmptyString
                        (Return (Sample.status_ok ["실패"; "실패"; "접수"])))
              [("success", VBool true);
               ("data", VList (map (fun l => VDict (Aggregator.record_with l))
                                   ["실패"; "실패"; "접수"]))]
              (map Aggregator.record_with ["실패"; "실패"; "접수"])
              eq_refl eq_refl eq_refl eq_refl eq_refl)
    as (status & rows & Hret & Hpending & _).
  eexists. split; [exact Hret|].
  rewrite (Hpending ltac:(vm_compute; reflexivity)).
  repeat split.
Defined.

(** The four groups of section 8 of the specification. *)
Example status_of_success_failed :
  fst (get_message_status Sample.rt
         (Sample.net_json 200 (Sample.status_ok ["성공"; "실패"])) 1 [])
  = Return [("group_id", VInt 1); ("status", VStr "부분성공");
            ("total_count", VInt 2); ("success_count", VInt 1);
            ("failed_count", VInt 1); ("pending_count", VInt 0);
            ("messages",
             VList (map Aggregator.row
                        (map Aggregator.record_with ["성공"; "실패"])))].
Proof. vm_compute. reflexivity. Qed.

Example status_of_success_success :
  option_map (lookup "status")
    (match fst (get_message_status Sample.rt
                  (Sample.net_json 200 (Sample.status_ok ["성공"; "성공"])) 1 [])
     with Return d => Some d | Raise _ => None end)
  = Some (Some (VStr "성공")).
Proof. vm_compute. reflexivity. Qed.

Example status_of_failed_failed :
  option_map (lookup "status")
    (match fst (get_message_status Sample.rt
                  (Sample.net_json 200 (Sample.status_ok ["실패"; "실패"])) 1 [])
     with Return d => Some d | Raise _ => None end)
  = Some (Some (VStr "실패")).
Proof. vm_compute. reflexivity. Qed.

Example status_of_success_pending :
  option_map (lookup "status")
    (match fst (get_message_status Sample.rt
                  (Sample.net_json 200 (Sample.status_ok ["성공"; "전송중"])) 1 [])
     with Return d => Some d | Raise _ => None end)
  = Some (Some (VStr "전송중")).
Proof. vm_compute. reflexivity. Qed.

(** C10.  The three counts of [get_message_status] are non-negative and add
    up to the total: every record falls in exactly one bucket.  For an empty
    list of records the total and the three counts are 0 and the overall
    status is "성공". *)
Theorem get_message_status_counts_partition
    (rt : runtime) (net : remote) (group_id : Z) (calls : list request)
    (resp : response) (result : dict) (records : list dict) :
  net calls (status_request rt group_id) = Return resp ->
  status_code resp = 200 ->
  json resp = Return (VDict result) ->
  truthy (dict_get result "success" VNone) = true ->
  dict_get result "data" (VList []) = VList (map VDict records) ->
  exists d total success failed pending status,
    fst (get_message_status rt net group_id calls) = Return d /\
    lookup "total_count" d = Some (VInt total) /\
    lookup "success_count" d = Some (VInt success) /\
    lookup "failed_count" d = Some (VInt failed) /\
    lookup "pending_count" d = Some (VInt pending) /\
    lookup "status" d = Some (VStr status) /\
    total = Z.of_nat (List.length records) /\
    success + failed + pending = total /\
    0 <= success /\ 0 <= failed /\ 0 <= pending /\
    (records = [] ->
     total = 0 /\ success = 0 /\ failed = 0 /\ pending = 0 /\ status = "성공").
Proof.
  intros Hnet Hstatus Hjson Hflag Hdata.
  pose proof (get_message_status_on_records rt net group_id calls resp result
                records Hnet Hstatus Hjson Hflag Hdata) as Hret.
  cbv zeta in Hret. rewrite Hret. cbn [fst].
  pose proof (count_label_nonneg "성공" records) as Hs.
  pose proof (count_label_nonneg "실패" records) as Hf.
  pose proof (count_label_disjoint "성공" "실패" records success_failed_differ) as Hd.
  do 6 eexists. split; [reflexivity|].
  repeat (split; [reflexivity|]).
  repeat (split; [lia|]).
  intros ->. repeat split.
Qed.

(** The empty group: the API answers with an empty [data] list. *)
Lemma get_message_status_counts_partition_witness :
  exists d,
    fst (get_message_status Sample.rt
           (Sample.net_json 200 (Sample.status_ok [])) 7 []) = Return d /\
    lookup "total_count" d = Some (VInt 0) /\
    lookup "success_count" d = Some (VInt 0) /\
    lookup "failed_count" d = Some (VInt 0) /\
    lookup "pending_count" d = Some (VInt 0) /\
    lookup "status" d = Some (VStr "성공").
Proof.
  destruct (get_message_status_counts_partition
              Sample.rt (Sample.net_json 200 (Sample.status_ok [])) 7 []
              (Response 200 EmptyString (Return (Sample.status_ok [])))
              [("success", VBool true); ("data", VList [])]
              []
              eq_refl eq_refl eq_refl eq_refl eq_refl)
    as (d & total & success & failed & pending & status & Hret & Ht & Hs & Hf
        & Hp & Hst & _ & _ & _ & _ & _ & Hempty).
  destruct (Hempty eq_refl) as (-> & -> & -> & -> & ->).
  exists d. repeat split; assumption.
Defined.

(* ------------------------------------------------------------------ *)
(** ** Sending: [send_sms] and [send_mms] *)

Lemma gtb_true (a b : Z) : a > b -> (a >? b) = true.
Proof. intro H. destruct (Z.gtb_spec a b); [reflexivity | lia]. Qed.

Lemma gtb_false (a b : Z) : a <= b -> (a >? b) = false.
Proof. intro H. destruct (Z.gtb_spec a b); [lia | reflexivity]. Qed.

Lemma truthy_str_nonempty (s : string) : s <> EmptyString -> truthy_str s = true.
Proof. destruct s; [congruence | reflexivity]. Qed.

Lemma recipients_in_range (recipients : list recipient) :
  1 <= Z.of_nat (List.length recipients) <= 1000 ->
  (match recipients with [] => true | _ => false end
   || (Z.of_nat (List.length recipients) >? 1000))%bool = false.
Proof.
  intros [Hlo Hhi]. rewrite (gtb_false _ _ Hhi).
  destruct recipients; [simpl in Hlo; lia | reflexivity].
Qed.

Lemma recipients_out_of_range (recipients : list recipient) :
  recipients = [] \/ Z.of_nat (List.length recipients) > 1000 ->
  (match recipients with [] => true | _ => false end
   || (Z.of_nat (List.length recipients) >? 1000))%bool = true.
Proof.
  intros [-> | H]; [reflexivity|].
  rewrite (gtb_true _ _ H). apply orb_true_r.
Qed.

(** The three ways [send_result] reads the answer to the POST. *)
Lemma send_result_success (sent : string) (recipients : list recipient)
    (resp : response) (result data : dict) (group_id : value)
    (calls : list request) :
  status_code resp = 200 ->
  json resp = Return (VDict result) ->
  truthy (dict_get result "success" VNone) = true ->
  lookup "data" result = Some (VDict data) ->
  lookup "group_id" data = Some group_id ->
  send_result sent recipients resp calls =
  (Return [("success", VBool true);
           ("group_id", group_id);
           ("message", VStr sent);
           ("sent_count", VInt (Z.of_nat (List.length recipients)));
           ("failed_count", VInt 0)], calls).
Proof.
  intros Hstatus Hjson Hflag Hdata Hgroup.
  unfold send_result, bind, lift. rewrite Hstatus, Hjson.
  cbn [get Z.eqb Pos.eqb subscript]. rewrite Hflag, Hdata.
  cbn [subscript]. rewrite Hgroup. reflexivity.
Qed.

Lemma send_result_failure (sent : string) (recipients : list recipient)
    (resp : response) (result : dict) (calls : list request) :
  status_code resp = 200 ->
  json resp = Return (VDict result) ->
  truthy (dict_get result "success" VNone) = false ->
  send_result sent recipients resp calls =
  (Return [("success", VBool false);
           ("error", dict_get result "message" (VStr "Unknown error"));
           ("error_code", dict_get result "error_code" (VStr "UNKNOWN_ERROR"))],
   calls).
Proof.
  intros Hstatus Hjson Hflag.
  unfold send_result, bind, lift. rewrite Hstatus, Hjson.
  cbn [get Z.eqb Pos.eqb]. rewrite Hflag. reflexivity.
Qed.

Lemma send_result_http_error (sent : string) (recipients : list recipient)
    (resp : response) (calls : list request) :
  status_code resp <> 200 ->
  send_result sent recipients resp calls =
  (Return (failure ("API 호출이 실패했습니다 (상태코드: "
                    ++ str_of_int (status_code resp) ++ ")") "API_ERROR"),
   calls).
Proof.
  intro Hstatus. unfold send_result.
  destruct (Z.eqb_spec (status_code resp) 200); [contradiction | reflexivity].
Qed.

Lemma dict_get_present (d : dict) (key : string) (default v : value) :
  lookup key d = Some v -> dict_get d key default = v.
Proof. unfold dict_get. now intros ->. Qed.

(** With valid arguments [send_sms] posts once and hands the answer to
    [send_result]; a transport exception is caught at the boundary. *)
Lemma send_sms_valid (rt : runtime) (net : remote)
    (recipients : list recipient) (message callback_number project_id : string)
    (calls : list request) :
  1 <= Z.of_nat (List.length recipients) <= 1000 ->
  py_len message <= 2000 ->
  project_id <> EmptyString ->
  let request := sms_request rt recipients message callback_number project_id in
  send_sms rt net recipients message callback_number project_id calls =
  match net calls request with
  | Return resp =>
      try_except (send_result "SMS가 성공적으로 전송되었습니다" recipients resp)
        (fun e => ret (failure ("SMS 전송에 실패했습니다: " ++ exn_str e)
                               "INTERNAL_ERROR"))
        (calls ++ [request])%list
  | Raise e =>
      (Return (failure ("SMS 전송에 실패했습니다: " ++ exn_str e) "INTERNAL_ERROR"),
       (calls ++ [request])%list)
  end.
Proof.
  intros Hrec Hmsg Hpid. cbv zeta.
  unfold send_sms, send_sms_body, try_except at 1.
  rewrite (truthy_str_nonempty _ Hpid), (recipients_in_range _ Hrec),
    (gtb_false _ _ Hmsg).
  cbn [negb]. unfold bind, send, sms_request.
  destruct (net calls _) as [resp|e]; reflexivity.
Qed.

Lemma send_mms_valid (rt : runtime) (net : remote)
    (recipients : list recipient)
    (message subject callback_number project_id : string)
    (image_urls : option (list string)) (calls : list request) :
  1 <= Z.of_nat (List.length recipients) <= 1000 ->
  py_len message <= 2000 ->
  project_id <> EmptyString ->
  py_len subject <= 40 ->
  match image_urls with
  | Some urls => Z.of_nat (List.length urls) <= 5
  | None => True
  end ->
  let request :=
    mms_request rt recipients message subject callback_number project_id
                image_urls in
  send_mms rt net recipients message subject callback_number project_id
           image_urls calls =
  match net calls request with
  | Return resp =>
      try_except (send_result "MMS가 성공적으로 전송되었습니다" recipients resp)
        (fun e => ret (failure ("MMS 전송에 실패했습니다: " ++ exn_str e)
                               "INTERNAL_ERROR"))
        (calls ++ [request])%list
  | Raise e =>
      (Return (failure ("MMS 전송에 실패했습니다: " ++ exn_str e) "INTERNAL_ERROR"),
       (calls ++ [request])%list)
  end.
Proof.
  intros Hrec Hmsg Hpid Hsubj Himg. cbv zeta.
  unfold send_mms, send_mms_body, try_except at 1.
  rewrite (truthy_str_nonempty _ Hpid), (recipients_in_range _ Hrec),
    (gtb_false _ _ Hmsg), (gtb_false _ _ Hsubj).
  cbn [negb].
  assert (match image_urls with
          | Some (u :: us) => Z.of_nat (List.length (u :: us)) >? 5
          | _ => false
          end = false) as ->.
  { destruct image_urls as [[|u us]|]; try reflexivity.
    now apply gtb_false. }
  unfold bind, send, mms_request.
  destruct (net calls _) as [resp|e]; reflexivity.
Qed.

Lemma try_except_return {A} (m : M A) (h : exn -> M A) (calls calls' : list request)
    (a : A) :
  m calls = (Return a, calls') -> try_except m h calls = (Return a, calls').
Proof. unfold try_except. now intros ->. Qed.

(** [send_result] issues no request of its own. *)
Lemma send_result_calls (sent : string) (recipients : list recipient)
    (resp : response) (calls : list request) :
  snd (send_result sent recipients resp calls) = calls.
Proof.
  unfold send_result, bind, lift, ret.
  destruct (status_code resp =? 200); [|reflexivity].
  destruct (json resp) as [result|e]; [|reflexivity].
  destruct (get result "success" VNone) as [flag|e]; [|reflexivity].
  destruct (truthy flag).
  - destruct (subscript result "data") as [data|e]; [|reflexivity].
    destruct (subscript data "group_id"); reflexivity.
  - destruct (get result "message" _) as [m|e]; [|reflexivity].
    destruct (get result "error_code" _); reflexivity.
Qed.

Lemma try_except_ret_calls {A} (m : M A) (f : exn -> A) (calls : list request) :
  snd (try_except m (fun e => ret (f e)) calls) = snd (m calls).
Proof. unfold try_except, ret. destruct (m calls) as [[a|e] c]; reflexivity. Qed.

(** C2.  With 1 to 1000 recipients, a message of at most 2000 characters and
    a non-empty project id, [send_sms] issues exactly one request, a POST
    whose payload has channel discriminator 1.  On a 200 answer with a success
    flag it returns success with the remote [data.group_id], [sent_count] =
    the number of recipients and [failed_count] = 0; on a 200 answer without
    the flag it returns the remote message and error code; on any other
    status it returns [API_ERROR]. *)
Theorem send_sms_contract
    (rt : runtime) (net : remote) (recipients : list recipient)
    (message callback_number project_id : string) (calls : list request) :
  1 <= Z.of_nat (List.length recipients) <= 1000 ->
  py_len message <= 2000 ->
  project_id <> EmptyString ->
  let payload := sms_payload recipients message callback_number project_id in
  let request := POST (API_BASE_URL ++ "/message/sms") payload (api_headers rt) in
  let run := send_sms rt net recipients message callback_number project_id calls in
  snd run = (calls ++ [request])%list /\
  field "channel_id" payload = Some (VInt 1) /\
  (forall resp result data group_id,
      net calls request = Return resp ->
      status_code resp = 200 ->
      json resp = Return (VDict result) ->
      truthy (dict_get result "success" VNone) = true ->
      lookup "data" result = Some (VDict data) ->
      lookup "group_id" data = Some group_id ->
      fst run =
      Return [("success", VBool true);
              ("group_id", group_id);
              ("message", VStr "SMS가 성공적으로 전송되었습니다");
              ("sent_count", VInt (Z.of_nat (List.length recipients)));
              ("failed_count", VInt 0)]) /\
  (forall resp result,
      net calls request = Return resp ->
      status_code resp = 200 ->
      json resp = Return (VDict result) ->
      truthy (dict_get result "success" VNone) = false ->
      fst run =
      Return [("success", VBool false);
              ("error", dict_get result "message" (VStr "Unknown error"));
              ("error_code", dict_get result "error_code" (VStr "UNKNOWN_ERROR"))]
      /\
      forall remote_message remote_code,
        lookup "message" result = Some remote_message ->
        lookup "error_code" result = Some remote_code ->
        fst run =
        Return [("success", VBool false);
                ("error", remote_message);
                ("error_code", remote_code)]) /\
  (forall resp,
      net calls request = Return resp ->
      status_code resp <> 200 ->
      fst run =
      Return (failure ("API 호출이 실패했습니다 (상태코드: "
                       ++ str_of_int (status_code resp) ++ ")") "API_ERROR")).
Proof.
  intros Hrec Hmsg Hpid payload request run.
  pose proof (send_sms_valid rt net recipients message callback_number
                project_id calls Hrec Hmsg Hpid) as Hrun.
  cbv zeta in Hrun. fold payload in Hrun. unfold sms_request in Hrun.
  fold payload request in Hrun. fold run in Hrun.
  split; [|split; [reflexivity|split; [|split]]].
  - rewrite Hrun. destruct (net calls request) as [resp|e]; [|reflexivity].
    rewrite try_except_ret_calls. apply send_result_calls.
  - intros resp result data group_id Hnet Hstatus Hjson Hflag Hdata Hgroup.
    rewrite Hrun, Hnet.
    erewrite try_except_return
      by (eapply send_result_success; eassumption).
    reflexivity.
  - intros resp result Hnet Hstatus Hjson Hflag.
    assert (fst run =
            Return [("success", VBool false);
                    ("error", dict_get result "message" (VStr "Unknown error"));
                    ("error_code",
                     dict_get result "error_code" (VStr "UNKNOWN_ERROR"))]) as Hfail.
    { rewrite Hrun, Hnet.
      erewrite try_except_return
        by (eapply send_result_failure; eassumption).
      reflexivity. }
    split; [exact Hfail|].
    intros m c Hm Hc. rewrite Hfail.
    now rewrite (dict_get_present _ _ _ _ Hm), (dict_get_present _ _ _ _ Hc).
  - intros resp Hnet Hstatus.
    rewrite Hrun, Hnet.
    erewrite try_except_return
      by (eapply send_result_http_error; eassumption).
    reflexivity.
Qed.

(** One recipient, a short message: the remote side accepts and names
    group 42. *)
Lemma send_sms_contract_witness :
  send_sms Sample.rt (Sample.net_json 200 (Sample.send_ok 42))
           Sample.recipients "hello" "02-1234-5678" "project-1" [] =
  (Return [("success", VBool true);
           ("group_id", VInt 42);
           ("message", VStr "SMS가 성공적으로 전송되었습니다");
           ("sent_count", VInt 1);
           ("failed_count", VInt 0)],
   [POST "https://api.aiapp.link/message/sms"
         (VDict [("recipients",
                  VList [VDict [("phone_number", VStr "010-1234-5678");
                                ("member_code", VStr "user_001")]]);
                 ("message", VStr "hello");
                 ("callback_number", VStr "02-1234-5678");
                 ("project_id", VStr "project-1");
                 ("channel_id", VInt 1)])
         [("X-API-KEY", "test-key"); ("Content-Type", "application/json")]]).
Proof.
  destruct (send_sms_contract
              Sample.rt (Sample.net_json 200 (Sample.send_ok 42))
              Sample.recipients "hello" "02-1234-5678" "project-1" []
              ltac:(simpl; lia) ltac:(vm_compute; discriminate)
              ltac:(discriminate))
    as (Hcalls & _ & Hok & _).
  specialize (Hok (Response 200 EmptyString (Return (Sample.send_ok 42)))
                  [("success", VBool true);
                   ("data", VDict [("group_id", VInt 42)])]
                  [("group_id", VInt 42)] (VInt 42)
                  eq_refl eq_refl eq_refl eq_refl eq_refl eq_refl).
  rewrite (surjective_pairing (send_sms _ _ _ _ _ _ _)), Hok, Hcalls.
  reflexivity.
Defined.

(** C3.  [send_sms] fails fast, without any request: an empty project id
    gives [MISSING_PROJECT_ID] (checked first); otherwise an empty recipient
    list or one of more than 1000 entries gives [INVALID_RECIPIENTS_COUNT];
    otherwise a message of more than 2000 characters gives
    [MESSAGE_TOO_LONG].  In each case the result has [success: False]. *)
Theorem send_sms_fails_fast
    (rt : runtime) (net : remote) (recipients : list recipient)
    (message callback_number project_id : string) (calls : list request) :
  let run := send_sms rt net recipients message callback_number project_id calls in
  (project_id = EmptyString ->
   run = (Return (failure "프로젝트 ID가 필요합니다" "MISSING_PROJECT_ID"), calls)) /\
  (project_id <> EmptyString ->
   recipients = [] \/ Z.of_nat (List.length recipients) > 1000 ->
   run = (Return (failure "수신자 수는 1명 이상 1000명 이하여야 합니다"
                          "INVALID_RECIPIENTS_COUNT"), calls)) /\
  (project_id <> EmptyString ->
   1 <= Z.of_nat (List.length recipients) <= 1000 ->
   py_len message > 2000 ->
   run = (Return (failure "메시지 길이가 2000자를 초과했습니다" "MESSAGE_TOO_LONG"),
          calls)) /\
  (project_id = EmptyString \/ recipients = []
   \/ Z.of_nat (List.length recipients) > 1000 \/ py_len message > 2000 ->
   snd run = calls /\
   exists error error_code,
     fst run = Return [("success", VBool false);
                       ("error", VStr error);
                       ("error_code", VStr error_code)] /\
     In error_code ["MISSING_PROJECT_ID"; "INVALID_RECIPIENTS_COUNT";
                    "MESSAGE_TOO_LONG"]).
Proof.
  cbv zeta.
  assert (project_id = EmptyString ->
          send_sms rt net recipients message callback_number project_id calls =
          (Return (failure "프로젝트 ID가 필요합니다" "MISSING_PROJECT_ID"), calls))
    as Hpid.
  { intros ->. reflexivity. }
  assert (project_id <> EmptyString ->
          recipients = [] \/ Z.of_nat (List.length recipients) > 1000 ->
          send_sms rt net recipients message callback_number project_id calls =
          (Return (failure "수신자 수는 1명 이상 1000명 이하여야 합니다"
                           "INVALID_RECIPIENTS_COUNT"), calls)) as Hrec.
  { intros Hne Hbad. unfold send_sms, send_sms_body, try_except.
    rewrite (truthy_str_nonempty _ Hne), (recipients_out_of_range _ Hbad).
    reflexivity. }
  assert (project_id <> EmptyString ->
          1 <= Z.of_nat (List.length recipients) <= 1000 ->
          py_len message > 2000 ->
          send_sms rt net recipients message callback_number project_id calls =
          (Return (failure "메시지 길이가 2000자를 초과했습니다" "MESSAGE_TOO_LONG"),
           calls)) as Hmsg.
  { intros Hne Hok Hlong. unfold send_sms, send_sms_body, try_except.
    rewrite (truthy_str_nonempty _ Hne), (recipients_in_range _ Hok),
      (gtb_true _ _ Hlong).
    reflexivity. }
  repeat split; try assumption.
  - destruct (string_dec project_id EmptyString) as [He|Hne];
      [rewrite (Hpid He); reflexivity|].
    destruct (Z_gt_le_dec (Z.of_nat (List.length recipients)) 1000) as [Hgt|Hle];
      [rewrite (Hrec Hne (or_intror Hgt)); reflexivity|].
    destruct recipients as [|r rs];
      [rewrite (Hrec Hne (or_introl eq_refl)); reflexivity|].
    rewrite Hmsg; [reflexivity | assumption | simpl List.length in *; lia |].
    destruct H as [?|[?|[?|?]]]; (contradiction || discriminate || lia).
  - destruct (string_dec project_id EmptyString) as [He|Hne].
    { rewrite (Hpid He). do 2 eexists. split; [reflexivity|]. simpl. tauto. }
    destruct (Z_gt_le_dec (Z.of_nat (List.length recipients)) 1000) as [Hgt|Hle].
    { rewrite (Hrec Hne (or_intror Hgt)). do 2 eexists.
      split; [reflexivity|]. simpl. tauto. }
    destruct recipients as [|r rs].
    { rewrite (Hrec Hne (or_introl eq_refl)). do 2 eexists.
      split; [reflexivity|]. simpl. tauto. }
    rewrite Hmsg.
    + do 2 eexists. split; [reflexivity|]. simpl. tauto.
    + assumption.
    + simpl List.length in *. lia.
    + destruct H as [?|[?|[?|?]]]; (contradiction || discriminate || lia).
Qed.

(** No project id; 1001 recipients; a message of 2001 characters. *)
Lemma send_sms_fails_fast_witness :
  send_sms Sample.rt Sample.net_down Sample.recipients "hello" "02-1234-5678"
           EmptyString [] =
  (Return (failure "프로젝트 ID가 필요합니다" "MISSING_PROJECT_ID"), []) /\
  send_sms Sample.rt Sample.net_down (repeat [] 1001) "hello" "02-1234-5678"
           "project-1" [] =
  (Return (failure "수신자 수는 1명 이상 1000명 이하여야 합니다"
                   "INVALID_RECIPIENTS_COUNT"), []) /\
  send_sms Sample.rt Sample.net_down Sample.recipients
           (string_of_list_ascii (repeat "a"%char 2001)) "02-1234-5678"
           "project-1" [] =
  (Return (failure "메시지 길이가 2000자를 초과했습니다" "MESSAGE_TOO_LONG"), []).
Proof.
  split; [|split].
  - apply (send_sms_fails_fast Sample.rt Sample.net_down Sample.recipients
             "hello" "02-1234-5678" EmptyString []).
    reflexivity.
  - apply (send_sms_fails_fast Sample.rt Sample.net_down (repeat [] 1001)
             "hello" "02-1234-5678" "project-1" []).
    + discriminate.
    + right. vm_compute. reflexivity.
  - apply (send_sms_fails_fast Sample.rt Sample.net_down Sample.recipients
             (string_of_list_ascii (repeat "a"%char 2001)) "02-1234-5678"
             "project-1" []).
    + discriminate.
    + simpl. lia.
    + vm_compute. reflexivity.
Defined.

(** C4.  [send_mms] follows the contract of [send_sms] (the same three
    fail-fast checks, one POST, the same reading of the answer) and adds: a
    subject of more than 40 characters gives [SUBJECT_TOO_LONG] with no
    request, a subject of at most 40 proceeds to the POST; more than five
    image URLs give [TOO_MANY_IMAGES] with no request; the payload has channel
    discriminator 3 and, without [image_urls], an empty image URL list. *)
Theorem send_mms_contract
    (rt : runtime) (net : remote) (recipients : list recipient)
    (message subject callback_number project_id : string)
    (image_urls : option (list string)) (calls : list request) :
  let payload :=
    mms_payload recipients message subject callback_number project_id
                image_urls in
  let request := POST (API_BASE_URL ++ "/message/mms") payload (api_headers rt) in
  let run :=
    send_mms rt net recipients message subject callback_number project_id
             image_urls calls in
  let images_ok :=
    match image_urls with
    | Some urls => Z.of_nat (List.length urls) <= 5
    | None => True
    end in
  (project_id = EmptyString ->
   run = (Return (failure "프로젝트 ID가 필요합니다" "MISSING_PROJECT_ID"), calls)) /\
  (project_id <> EmptyString ->
   recipients = [] \/ Z.of_nat (List.length recipients) > 1000 ->
   run = (Return (failure "수신자 수는 1명 이상 1000명 이하여야 합니다"
                          "INVALID_RECIPIENTS_COUNT"), calls)) /\
  (project_id <> EmptyString ->
   1 <= Z.of_nat (List.length recipients) <= 1000 ->
   (py_len message > 2000 ->
    run = (Return (failure "메시지 길이가 2000자를 초과했습니다" "MESSAGE_TOO_LONG"),
           calls)) /\
   (py_len message <= 2000 ->
    (py_len subject > 40 ->
     run = (Return (failure "제목 길이가 40자를 초과했습니다" "SUBJECT_TOO_LONG"),
            calls)) /\
    (py_len subject <= 40 ->
     (forall urls, image_urls = Some urls -> Z.of_nat (List.length urls) > 5 ->
      run = (Return (failure "최대 5개의 이미지만 첨부 가능합니다" "TOO_MANY_IMAGES"),
             calls)) /\
     (images_ok ->
      snd run = (calls ++ [request])%list /\
      (forall resp result data group_id,
          net calls request = Return resp ->
          status_code resp = 200 ->
          json resp = Return (VDict result) ->
          truthy (dict_get result "success" VNone) = true ->
          lookup "data" result = Some (VDict data) ->
          lookup "group_id" data = Some group_id ->
          fst run =
          Return [("success", VBool true);
                  ("group_id", group_id);
                  ("message", VStr "MMS가 성공적으로 전송되었습니다");
                  ("sent_count", VInt (Z.of_nat (List.length recipients)));
                  ("failed_count", VInt 0)]) /\
      (forall resp result,
          net calls request = Return resp ->
          status_code resp = 200 ->
          json resp = Return (VDict result) ->
          truthy (dict_get result "success" VNone) = false ->
          fst run =
          Return [("success", VBool false);
                  ("error", dict_get result "message" (VStr "Unknown error"));
                  ("error_code",
                   dict_get result "error_code" (VStr "UNKNOWN_ERROR"))]) /\
      (forall resp,
          net calls request = Return resp ->
          status_code resp <> 200 ->
          fst run =
          Return (failure ("API 호출이 실패했습니다 (상태코드: "
                           ++ str_of_int (status_code resp) ++ ")")
                          "API_ERROR")))))) /\
  field "channel_id" payload = Some (VInt 3) /\
  (image_urls = None -> field "img_url_list" payload = Some (VList [])).
Proof.
  cbv zeta.
  split; [intros ->; reflexivity|].
  split.
  { intros Hne Hbad. unfold send_mms, send_mms_body, try_except.
    rewrite (truthy_str_nonempty _ Hne), (recipients_out_of_range _ Hbad).
    reflexivity. }
  split; [|split; [reflexivity | intros ->; reflexivity]].
  intros Hne Hrec. split.
  { intro Hlong. unfold send_mms, send_mms_body, try_except.
    rewrite (truthy_str_nonempty _ Hne), (recipients_in_range _ Hrec),
      (gtb_true _ _ Hlong).
    reflexivity. }
  intro Hmsg. split.
  { intro Hlong. unfold send_mms, send_mms_body, try_except.
    rewrite (truthy_str_nonempty _ Hne), (recipients_in_range _ Hrec),
      (gtb_false _ _ Hmsg), (gtb_true _ _ Hlong).
    reflexivity. }
  intro Hsubj. split.
  { intros urls -> Hmany. unfold send_mms, send_mms_body, try_except.
    rewrite (truthy_str_nonempty _ Hne), (recipients_in_range _ Hrec),
      (gtb_false _ _ Hmsg), (gtb_false _ _ Hsubj).
    destruct urls as [|u us]; [simpl in Hmany; lia|].
    rewrite (gtb_true _ _ Hmany). reflexivity. }
  intro Himg.
  pose proof (send_mms_valid rt net recipients message subject callback_number
                project_id image_urls calls Hrec Hmsg Hne Hsubj Himg) as Hrun.
  cbv zeta in Hrun. unfold mms_request in Hrun.
  split; [|split; [|split]].
  - rewrite Hrun. destruct (net calls _) as [resp|e]; [|reflexivity].
    rewrite try_except_ret_calls. apply send_result_calls.
  - intros resp result data group_id Hnet Hstatus Hjson Hflag Hdata Hgroup.
    rewrite Hrun, Hnet.
    erewrite try_except_return
      by (eapply send_result_success; eassumption).
    reflexivity.
  - intros resp result Hnet Hstatus Hjson Hflag.
    rewrite Hrun, Hnet.
    erewrite try_except_return
      by (eapply send_result_failure; eassumption).
    reflexivity.
  - intros resp Hnet Hstatus.
    rewrite Hrun, Hnet.
    erewrite try_except_return
      by (eapply send_result_http_error; eassumption).
    reflexivity.
Qed.

(** A subject of 41 characters is refused before any request; one of exactly
    40 characters is posted. *)
Lemma send_mms_contract_witness :
  send_mms Sample.rt (Sample.net_json 200 (Sample.send_ok 42))
           Sample.recipients "hello"
           (string_of_list_ascii (repeat "s"%char 41))
           "02-1234-5678" "project-1" None [] =
  (Return (failure "제목 길이가 40자를 초과했습니다" "SUBJECT_TOO_LONG"), []) /\
  snd (send_mms Sample.rt (Sample.net_json 200 (Sample.send_ok 42))
                Sample.recipients "hello"
                (string_of_list_ascii (repeat "s"%char 40))
                "02-1234-5678" "project-1" None []) =
  [POST (API_BASE_URL ++ "/message/mms")
        (mms_payload Sample.recipients "hello"
                     (string_of_list_ascii (repeat "s"%char 40))
                     "02-1234-5678" "project-1" None)
        (api_headers Sample.rt)] /\
  send_mms Sample.rt (Sample.net_json 200 (Sample.send_ok 42))
           Sample.recipients "hello" "subject" "02-1234-5678" "project-1"
           (Some (repeat "https://example.com/image.jpg" 6)) [] =
  (Return (failure "최대 5개의 이미지만 첨부 가능합니다" "TOO_MANY_IMAGES"), []).
Proof.
  split; [|split].
  - apply (send_mms_contract Sample.rt (Sample.net_json 200 (Sample.send_ok 42))
             Sample.recipients "hello"
             (string_of_list_ascii (repeat "s"%char 41))
             "02-1234-5678" "project-1" None []).
    + discriminate.
    + simpl. lia.
    + vm_compute. discriminate.
    + vm_compute. reflexivity.
  - apply (send_mms_contract Sample.rt (Sample.net_json 200 (Sample.send_ok 42))
             Sample.recipients "hello"
             (string_of_list_ascii (repeat "s"%char 40))
             "02-1234-5678" "project-1" None []).
    + discriminate.
    + simpl. lia.
    + vm_compute. discriminate.
    + vm_compute. discriminate.
    + exact I.
  - apply (send_mms_contract Sample.rt (Sample.net_json 200 (Sample.send_ok 42))
             Sample.recipients "hello" "subject" "02-1234-5678" "project-1"
             (Some (repeat "https://example.com/image.jpg" 6)) []
          ) with (urls := repeat "https://example.com/image.jpg" 6).
    + discriminate.
    + simpl. lia.
    + vm_compute. discriminate.
    + vm_compute. discriminate.
    + reflexivity.
    + vm_compute. reflexivity.
Defined.

(* ------------------------------------------------------------------ *)
(** ** The history stub: [get_send_history] *)

(** C5, as stated, at an empty project id: the tool returns the
    [MISSING_PROJECT_ID] failure, which carries no history list at all. *)
Lemma get_send_history_empty_project_id :
  get_send_history EmptyString 0 20 "ALL" [] =
  (Return (failure "프로젝트 ID가 필요합니다" "MISSING_PROJECT_ID"), []) /\
  lookup "data" (failure "프로젝트 ID가 필요합니다" "MISSING_PROJECT_ID") = None /\
  ~ (exists d data,
        fst (get_send_history EmptyString 0 20 "ALL" []) = Return d /\
        lookup "data" d = Some (VDict data) /\
        lookup "history" data = Some (VList [])).
Proof.
  split; [reflexivity|]. split; [reflexivity|].
  intros (d & data & Hret & Hdata & _).
  vm_compute in Hret. injection Hret as <-. discriminate Hdata.
Qed.

(** C5, amended.  [get_send_history] never issues a request.  With a
    non-empty project id it returns an empty history list and echoes the
    limit clamped to at most 100, the offset clamped to at least 0 and the
    message type, replaced by "ALL" unless it is "SMS", "MMS" or "ALL"; with an
    empty project id it returns the [MISSING_PROJECT_ID] failure. *)
Theorem get_send_history_stub
    (project_id : string) (offset limit : Z) (message_type : string)
    (calls : list request) :
  let run := get_send_history project_id offset limit message_type calls in
  snd run = calls /\
  (project_id = EmptyString ->
   fst run = Return (failure "프로젝트 ID가 필요합니다" "MISSING_PROJECT_ID")) /\
  (project_id <> EmptyString ->
   fst run =
   Return [("success", VBool true);
           ("data",
            VDict [("project_id", VStr project_id);
                   ("total_count", VInt 0);
                   ("offset", VInt (Z.max offset 0));
                   ("limit", VInt (Z.min limit 100));
                   ("message_type",
                    VStr (if str_in message_type ["SMS"; "MMS"; "ALL"]
                          then message_type else "ALL"));
                   ("history", VList [])]);
           ("message", VStr "전송 기록 엔드포인트가 아직 API에 구현되지 않았습니다")]).
Proof.
  cbv zeta. unfold get_send_history, get_send_history_body, try_except, ret.
  destruct project_id as [|c rest]; cbn [truthy_str negb].
  - repeat split. intro H. contradiction.
  - repeat split; [discriminate|]. intros _.
    replace (if limit >? 100 then 100 else limit) with (Z.min limit 100)
      by (destruct (Z.gtb_spec limit 100); lia).
    replace (if offset <? 0 then 0 else offset) with (Z.max offset 0)
      by (destruct (Z.ltb_spec offset 0); lia).
    destruct (str_in message_type ["SMS"; "MMS"; "ALL"]); reflexivity.
Qed.

(** A limit of 500 is echoed as 100, an offset of -3 as 0, an unknown
    message type as "ALL". *)
Lemma get_send_history_stub_witness :
  fst (get_send_history "project-1" (-3) 500 "KAKAO" []) =
  Return [("success", VBool true);
          ("data",
           VDict [("project_id", VStr "project-1");
                  ("total_count", VInt 0);
                  ("offset", VInt 0);
                  ("limit", VInt 100);
                  ("message_type", VStr "ALL");
                  ("history", VList [])]);
          ("message", VStr "전송 기록 엔드포인트가 아직 API에 구현되지 않았습니다")].
Proof.
  apply (get_send_history_stub "project-1" (-3) 500 "KAKAO" []).
  discriminate.
Defined.

(* ------------------------------------------------------------------ *)
(** ** Template URLs: [get_code_template_url] *)

(** C7, as stated, at the language "PYTHON": the string is not a member of
    the supported set, yet the tool lowers it first and answers with the
    Python template instead of [UNSUPPORTED_LANGUAGE]. *)
Lemma get_code_template_url_upper_case :
  str_in "PYTHON" supported_languages = false /\
  exists d,
    get_code_template_url Sample.rt "PYTHON" None None [] = (Return d, []) /\
    lookup "success" d = Some (VBool true) /\
    lookup "error_code" d = None /\
    lookup "template_url" d =
      Some (VStr "https://cdn.mbaas.kr/templates/sms-mms/python/vanilla.md").
Proof.
  split; [reflexivity|]. eexists. split; [vm_compute; reflexivity|].
  repeat split.
Qed.

(** C7, amended.  [get_code_template_url] issues no request.  When the
    lower-cased language is outside the supported set it returns
    [UNSUPPORTED_LANGUAGE] with the supported languages; for "python" with
    "fastapi" the template URL ends in [python/fastapi.md] and the
    installation guide URL refers to [setup/python.md]. *)
Theorem get_code_template_url_pure
    (rt : runtime) (language : string)
    (framework deployment_platform : option string) (calls : list request) :
  let run :=
    get_code_template_url rt language framework deployment_platform calls in
  snd run = calls /\
  (str_in (lower rt language) supported_languages = false ->
   fst run =
   Return [("success", VBool false);
           ("error", VStr ("언어 '" ++ lower rt language
                           ++ "'는 아직 지원되지 않습니다"));
           ("supported_languages",
            str_list ["javascript"; "python"; "php"; "java"; "go"; "csharp"]);
           ("error_code", VStr "UNSUPPORTED_LANGUAGE")]) /\
  (language = "python" -> framework = Some "fastapi" ->
   exists d template_url configuration installation_guide,
     fst run = Return d /\
     lookup "success" d = Some (VBool true) /\
     lookup "template_url" d = Some (VStr template_url) /\
     endswith template_url "python/fastapi.md" = true /\
     lookup "configuration" d = Some configuration /\
     field "installation_guide" configuration = Some (VStr installation_guide) /\
     contains installation_guide "setup/python.md" = true).
Proof.
  cbv zeta.
  unfold get_code_template_url, get_code_template_url_body, try_except, ret.
  split; [|split].
  - destruct (negb _); reflexivity.
  - intros ->. reflexivity.
  - intros -> ->.
    change (lower rt "python") with "python".
    change (lower_opt rt (Some "fastapi")) with (Some "fastapi").
    cbn [str_in existsb supported_languages negb].
    change (negb (str_in "python" supported_languages)) with false.
    cbv iota. cbn [fst].
    do 4 eexists. split; [reflexivity|].
    split; [reflexivity|]. split; [reflexivity|].
    split; [vm_compute; reflexivity|]. split; [reflexivity|].
    split; [reflexivity|]. vm_compute. reflexivity.
Qed.

(** The language "rust" is refused; "python" with "fastapi" is served. *)
Lemma get_code_template_url_pure_witness :
  fst (get_code_template_url Sample.rt "rust" None None []) =
  Return [("success", VBool false);
          ("error", VStr "언어 'rust'는 아직 지원되지 않습니다");
          ("supported_languages",
           str_list ["javascript"; "python"; "php"; "java"; "go"; "csharp"]);
          ("error_code", VStr "UNSUPPORTED_LANGUAGE")] /\
  exists d,
    fst (get_code_template_url Sample.rt "python" (Some "fastapi") None [])
    = Return d /\
    lookup "template_url" d =
      Some (VStr "https://cdn.mbaas.kr/templates/sms-mms/python/fastapi.md") /\
    field "installation_guide" (dict_get d "configuration" VNone) =
      Some (VStr "https://cdn.mbaas.kr/templates/sms-mms/setup/python.md").
Proof.
  split.
  - apply (get_code_template_url_pure Sample.rt "rust" None None []).
    reflexivity.
  - destruct (get_code_template_url_pure Sample.rt "python" (Some "fastapi")
                None [])
      as (_ & _ & Hpy).
    destruct (Hpy eq_refl eq_refl) as (d & _ & _ & _ & Hret & _).
    exists d. split; [exact Hret|].
    vm_compute in Hret. injection Hret as <-. split; reflexivity.
Defined.

(* ------------------------------------------------------------------ *)
(** ** Code generation: [generate_direct_api_code] *)

Lemma strip_prefix_app (needle s rest t : string) :
  strip_prefix needle s = Some rest ->
  strip_prefix needle (s ++ t) = Some (rest ++ t).
Proof.
  revert s. induction needle as [|a needle IH]; intros s H; simpl in *.
  - now injection H as ->.
  - destruct s as [|b s]; [discriminate|]. simpl.
    destruct (Ascii.eqb a b); [now apply IH | discriminate].
Qed.

Lemma startswith_app (s needle t : string) :
  startswith s needle = true -> startswith (s ++ t) needle = true.
Proof.
  unfold startswith. destruct (strip_prefix needle s) as [rest|] eqn:E;
    [|discriminate].
  intros _. now rewrite (strip_prefix_app _ _ _ t E).
Qed.

(** Appending text keeps an occurrence. *)
Lemma contains_app (s needle t : string) :
  contains s needle = true -> contains (s ++ t) needle = true.
Proof.
  induction s as [|c s IH]; simpl; intro H.
  - rewrite orb_false_r in H.
    pose proof (startswith_app EmptyString needle t H) as Ht. simpl in Ht.
    destruct t; simpl; rewrite Ht; reflexivity.
  - apply orb_true_iff in H as [H|H].
    + change (String c (s ++ t)) with (String c s ++ t).
      now rewrite (startswith_app _ _ t H).
    + rewrite (IH H). apply orb_true_r.
Qed.

Lemma javascript_code_has_class (framework : option string) (include_examples : bool) :
  contains (generate_javascript_code framework include_examples)
           "class BaaSMessageService" = true.
Proof.
  assert (contains Templates.javascript_base "class BaaSMessageService" = true)
    as Hbase by (vm_compute; reflexivity).
  unfold generate_javascript_code.
  destruct framework as [f|], include_examples;
    try destruct (String.eqb f "react"); try destruct (String.eqb f "vue");
    cbv zeta; repeat (first [exact Hbase | apply contains_app]).
Qed.

Lemma python_code_has_class (framework : option string) (include_examples : bool) :
  contains (generate_python_code framework include_examples)
           "class BaaSMessageService" = true.
Proof.
  assert (contains Templates.python_base "class BaaSMessageService" = true)
    as Hbase by (vm_compute; reflexivity).
  unfold generate_python_code.
  destruct framework as [f|], include_examples;
    try destruct (String.eqb f "django"); try destruct (String.eqb f "fastapi");
    cbv zeta; repeat (first [exact Hbase | apply contains_app]).
Qed.

Lemma php_code_has_class (framework : option string) (include_examples : bool) :
  contains (generate_php_code framework include_examples)
           "class BaaSMessageService" = true.
Proof.
  assert (contains Templates.php_base "class BaaSMessageService" = true)
    as Hbase by (vm_compute; reflexivity).
  unfold generate_php_code.
  destruct framework as [f|], include_examples;
    try destruct (String.eqb f "laravel");
    cbv zeta; repeat (first [exact Hbase | apply contains_app]).
Qed.

(** Every locally generated source defines the client class. *)
Lemma local_generation_has_class (language : string) (framework : option string)
    (include_examples : bool) (code : string) :
  local_generation language framework include_examples = Some code ->
  contains code "class BaaSMessageService" = true.
Proof.
  unfold local_generation.
  destruct (_ || _)%bool; [intro H; injection H as <-;
                           apply javascript_code_has_class|].
  destruct (_ || _)%bool; [intro H; injection H as <-;
                           apply python_code_has_class|].
  destruct (String.eqb language "php"); [|discriminate].
  intro H; injection H as <-. apply php_code_has_class.
Qed.

(** Local generation exists for three languages, under five names. *)
Lemma local_generation_languages (language : string) (framework : option string)
    (include_examples : bool) :
  In language ["javascript"; "js"; "python"; "py"; "php"] <->
  exists code, local_generation language framework include_examples = Some code.
Proof.
  unfold local_generation. split.
  - intros [<-|[<-|[<-|[<-|[<-|[]]]]]]; eexists; reflexivity.
  - intros [code H].
    destruct (String.eqb_spec language "javascript"); [subst; simpl; tauto|].
    destruct (String.eqb_spec language "js"); [subst; simpl; tauto|].
    destruct (String.eqb_spec language "python"); [subst; simpl; tauto|].
    destruct (String.eqb_spec language "py"); [subst; simpl; tauto|].
    destruct (String.eqb_spec language "php"); [subst; simpl; tauto|].
    discriminate H.
Qed.

(** The transport fails: the [except] branch runs with [template_content]
    unassigned. *)
Lemma fetch_template_raised (rt : runtime) (net : remote)
    (language : string) (framework : option string) (include_examples : bool)
    (template_url : string) (calls : list request) (e : exn) :
  net calls (GET template_url []) = Raise e ->
  fetch_template rt net language framework include_examples template_url calls =
  (match local_generation language framework include_examples with
   | Some code => Return (Code code None)
   | None =>
       Return (Returned (failure ("CDN 오류 및 로컬 생성 불가: " ++ exn_str e)
                                 "GENERATION_FAILED"))
   end, (calls ++ [GET template_url []])%list).
Proof.
  intro Hnet. unfold fetch_template, try_except, bind, send.
  rewrite Hnet. unfold cdn_error_fallback, ret.
  destruct (local_generation _ _ _); reflexivity.
Qed.

(** The CDN answers with a status other than 200. *)
Lemma fetch_template_not_found (rt : runtime) (net : remote)
    (language : string) (framework : option string) (include_examples : bool)
    (template_url : string) (calls : list request) (resp : response) :
  net calls (GET template_url []) = Return resp ->
  status_code resp <> 200 ->
  fetch_template rt net language framework include_examples template_url calls =
  (match local_generation language framework include_examples with
   | Some code => Return (Code code None)
   | None =>
       Return
         (Returned
            [("success", VBool false);
             ("error", VStr ("CDN에서 템플릿을 가져올 수 없고, 언어 '" ++ language
                             ++ "'는 로컬 생성을 지원하지 않습니다"));
             ("supported_languages", str_list ["javascript"; "python"; "php"]);
             ("error_code", VStr "TEMPLATE_UNAVAILABLE")])
   end, (calls ++ [GET template_url []])%list).
Proof.
  intros Hnet Hstatus. unfold fetch_template, try_except, bind, send.
  rewrite Hnet.
  destruct (Z.eqb_spec (status_code resp) 200); [contradiction|].
  unfold ret. destruct (local_generation _ _ _); reflexivity.
Qed.

(** The CDN answers 200 and [re.findall] returns its matches. *)
Lemma fetch_template_found (rt : runtime) (net : remote)
    (language : string) (framework : option string) (include_examples : bool)
    (template_url : string) (calls : list request)
    (resp : response) (code_blocks : list string) :
  net calls (GET template_url []) = Return resp ->
  status_code resp = 200 ->
  re_findall_fenced rt language (text resp) = Return code_blocks ->
  fetch_template rt net language framework include_examples template_url calls =
  (Return (Code match code_blocks with
                | block :: _ => strip block
                | [] => text resp
                end (Some (text resp))),
   (calls ++ [GET template_url []])%list).
Proof.
  intros Hnet Hstatus Hre. unfold fetch_template, try_except, bind, send.
  rewrite Hnet, Hstatus. cbn [Z.eqb Pos.eqb].
  unfold lift. rewrite Hre. destruct code_blocks; reflexivity.
Qed.

(** The block issues exactly one request and never raises. *)
Lemma fetch_template_total (rt : runtime) (net : remote)
    (language : string) (framework : option string) (include_examples : bool)
    (template_url : string) (calls : list request) :
  exists fetched,
    fetch_template rt net language framework include_examples template_url calls
    = (Return fetched, (calls ++ [GET template_url []])%list).
Proof.
  destruct (net calls (GET template_url [])) as [resp|e] eqn:Hnet.
  - destruct (Z.eq_dec (status_code resp) 200) as [Hok|Hbad].
    + destruct (re_findall_fenced rt language (text resp)) as [blocks|e] eqn:Hre.
      * eexists. apply (fetch_template_found _ _ _ _ _ _ _ resp blocks Hnet Hok Hre).
      * unfold fetch_template, try_except, bind, send.
        rewrite Hnet, Hok. cbn [Z.eqb Pos.eqb].
        unfold lift. rewrite Hre. unfold cdn_error_fallback, ret.
        destruct (local_generation _ _ _); eexists; reflexivity.
    + rewrite (fetch_template_not_found _ _ _ _ _ _ _ resp Hnet Hbad).
      destruct (local_generation _ _ _); eexists; reflexivity.
  - rewrite (fetch_template_raised _ _ _ _ _ _ _ e Hnet).
    destruct (local_generation _ _ _); eexists; reflexivity.
Qed.

(** [generate_direct_api_code] in terms of what its inner block yields. *)
Lemma generate_direct_api_code_unfold
    (rt : runtime) (net : remote) (language : string) (framework : option string)
    (include_examples : bool) (calls : list request) :
  let lang := lower rt language in
  let fw := lower_opt rt framework in
  let url := cdn_template_url lang fw in
  forall fetched calls',
    fetch_template rt net lang fw include_examples url calls
    = (Return fetched, calls') ->
    generate_direct_api_code rt net language framework include_examples calls =
    (Return
       match fetched with
       | Returned result => result
       | Code code template_content =>
           let from_cdn :=
             match template_content with Some _ => true | None => false end in
           [("success", VBool true);
            ("language", VStr lang);
            ("framework", opt_str fw);
            ("code", VStr code);
            ("filename",
             VStr ("baas-sms-service." ++
                   match assoc lang extensions with Some e => e | None => lang end));
            ("description",
             VStr (title rt lang ++ " BaaS SMS service for direct API calls"));
            ("source", VStr (if from_cdn then "CDN template" else "Local generation"));
            ("template_url", VStr url);
            ("configuration", dict_get config_instructions lang (VDict []));
            ("api_endpoint", VStr "https://api.aiapp.link");
            ("message",
             VStr (title rt lang ++ " 코드가 성공적으로 생성되었습니다 (소스: "
                   ++ (if from_cdn then "CDN" else "로컬") ++ ")"))]
       end, calls').
Proof.
  cbv zeta. intros fetched calls' Hfetch.
  unfold generate_direct_api_code, generate_direct_api_code_body, try_except, bind.
  unfold cdn_template_url in Hfetch. rewrite Hfetch.
  destruct fetched; reflexivity.
Qed.

(** C8, as stated, fails on two inputs.  (1) The CDN answers 200 with a
    Markdown document that has no fenced block for the language: the whole
    document becomes the code, not the embedded Python source.  (2) The
    language is "ruby" and the fetch raises: the error code is
    [GENERATION_FAILED], with no list of supported languages. *)
Lemma generate_direct_api_code_not_embedded :
  (exists d,
      generate_direct_api_code Sample.rt
        (Sample.net_text 200 "# Python guide: coming soon") "python" None true []
      = (Return d,
         [GET "https://cdn.baas-templates.com/sms-mms/python/vanilla.md" []]) /\
      re_findall_fenced Sample.rt "python" "# Python guide: coming soon"
      = Return [] /\
      lookup "success" d = Some (VBool true) /\
      lookup "code" d = Some (VStr "# Python guide: coming soon") /\
      lookup "source" d = Some (VStr "CDN template") /\
      contains "# Python guide: coming soon" "class BaaSMessageService" = false) /\
  (exists d,
      generate_direct_api_code Sample.rt Sample.net_down "ruby" None true []
      = (Return d,
         [GET "https://cdn.baas-templates.com/sms-mms/ruby/vanilla.md" []]) /\
      lookup "error_code" d = Some (VStr "GENERATION_FAILED") /\
      lookup "supported_languages" d = None).
Proof.
  split; eexists; (split; [vm_compute; reflexivity|]); repeat split.
Qed.

(** C8, amended.  [generate_direct_api_code] fetches the template once.
    When the fetch raises or is answered with a status other than 200, the
    languages javascript/js, python/py and php fall back to the embedded
    source: the result has [success: True], the locally generated code, which
    defines [class BaaSMessageService], and the source "Local generation".
    Any other language gets [TEMPLATE_UNAVAILABLE] with the three supported
    languages on a non-200 answer, and [GENERATION_FAILED] when the fetch
    raises.  A 200 answer without a fenced block for the language makes the
    whole document the code (source "CDN template"). *)
Theorem generate_direct_api_code_fallback
    (rt : runtime) (net : remote) (language : string) (framework : option string)
    (include_examples : bool) (calls : list request) :
  let lang := lower rt language in
  let fw := lower_opt rt framework in
  let request := GET (cdn_template_url lang fw) [] in
  let run :=
    generate_direct_api_code rt net language framework include_examples calls in
  let cdn_failed :=
    (exists e, net calls request = Raise e) \/
    (exists resp, net calls request = Return resp /\ status_code resp <> 200) in
  snd run = (calls ++ [request])%list /\
  (In lang ["javascript"; "js"; "python"; "py"; "php"] <->
   exists code, local_generation lang fw include_examples = Some code) /\
  (cdn_failed ->
   forall code,
     local_generation lang fw include_examples = Some code ->
     contains code "class BaaSMessageService" = true /\
     exists d,
       fst run = Return d /\
       lookup "success" d = Some (VBool true) /\
       lookup "code" d = Some (VStr code) /\
       lookup "source" d = Some (VStr "Local generation")) /\
  (forall resp,
      net calls request = Return resp ->
      status_code resp <> 200 ->
      local_generation lang fw include_examples = None ->
      fst run =
      Return [("success", VBool false);
              ("error", VStr ("CDN에서 템플릿을 가져올 수 없고, 언어 '" ++ lang
                              ++ "'는 로컬 생성을 지원하지 않습니다"));
              ("supported_languages", str_list ["javascript"; "python"; "php"]);
              ("error_code", VStr "TEMPLATE_UNAVAILABLE")]) /\
  (forall e,
      net calls request = Raise e ->
      local_generation lang fw include_examples = None ->
      fst run =
      Return (failure ("CDN 오류 및 로컬 생성 불가: " ++ exn_str e)
                      "GENERATION_FAILED")) /\
  (forall resp,
      net calls request = Return resp ->
      status_code resp = 200 ->
      re_findall_fenced rt lang (text resp) = Return [] ->
      exists d,
        fst run = Return d /\
        lookup "success" d = Some (VBool true) /\
        lookup "code" d = Some (VStr (text resp)) /\
        lookup "source" d = Some (VStr "CDN template")).
Proof.
  cbv zeta.
  set (lang := lower rt language). set (fw := lower_opt rt framework).
  set (url := cdn_template_url lang fw).
  pose proof (generate_direct_api_code_unfold rt net language framework
                include_examples calls) as Hgen.
  cbv zeta in Hgen. fold lang fw url in Hgen.
  split; [|split; [apply local_generation_languages|split; [|split; [|split]]]].
  - destruct (fetch_template_total rt net lang fw include_examples url calls)
      as [fetched Hfetch].
    rewrite (Hgen _ _ Hfetch). reflexivity.
  - intros Hfailed code Hlocal.
    split; [exact (local_generation_has_class _ _ _ _ Hlocal)|].
    assert (fetch_template rt net lang fw include_examples url calls =
            (Return (Code code None), (calls ++ [GET url []])%list)) as Hfetch.
    { destruct Hfailed as [[e Hnet]|[resp [Hnet Hstatus]]].
      - rewrite (fetch_template_raised rt net lang fw include_examples url calls
                   e Hnet), Hlocal. reflexivity.
      - rewrite (fetch_template_not_found rt net lang fw include_examples url
                   calls resp Hnet Hstatus), Hlocal. reflexivity. }
    rewrite (Hgen _ _ Hfetch). eexists. split; [reflexivity|]. repeat split.
  - intros resp Hnet Hstatus Hlocal.
    pose proof (fetch_template_not_found rt net lang fw include_examples url
                  calls resp Hnet Hstatus) as Hfetch.
    rewrite Hlocal in Hfetch. rewrite (Hgen _ _ Hfetch). reflexivity.
  - intros e Hnet Hlocal.
    pose proof (fetch_template_raised rt net lang fw include_examples url
                  calls e Hnet) as Hfetch.
    rewrite Hlocal in Hfetch. rewrite (Hgen _ _ Hfetch). reflexivity.
  - intros resp Hnet Hstatus Hre.
    pose proof (fetch_template_found rt net lang fw include_examples url
                  calls resp [] Hnet Hstatus Hre) as Hfetch.
    rewrite (Hgen _ _ Hfetch). eexists. split; [reflexivity|]. repeat split.
Qed.

(** The CDN is unreachable and the language is "python": the embedded Python
    client comes back, with its usage examples. *)
Lemma generate_direct_api_code_fallback_witness :
  contains (generate_python_code None true) "class BaaSMessageService" = true /\
  exists d,
    fst (generate_direct_api_code Sample.rt Sample.net_down "python" None true [])
    = Return d /\
    lookup "success" d = Some (VBool true) /\
    lookup "code" d = Some (VStr (generate_python_code None true)) /\
    lookup "source" d = Some (VStr "Local generation").
Proof.
  destruct (generate_direct_api_code_fallback Sample.rt Sample.net_down "python"
              None true [])
    as (_ & _ & Hlocal & _).
  apply Hlocal.
  - left. eexists. reflexivity.
  - reflexivity.
Defined.

(* ------------------------------------------------------------------ *)
(** ** Project templates: [create_message_service_template] *)

Lemma strip_prefix_sound (needle s rest : string) :
  strip_prefix needle s = Some rest -> s = needle ++ rest.
Proof.
  revert s. induction needle as [|a needle IH]; intros s H; simpl in *.
  - now injection H as ->.
  - destruct s as [|b s]; [discriminate|].
    destruct (Ascii.eqb_spec a b); [|discriminate].
    subst. now rewrite (IH _ H).
Qed.

(** Skipping the bytes of an occurrence. *)
Lemma replace_from_skip (old new p t : string) :
  replace_from (String.length p) old new (p ++ t) = replace_from O old new t.
Proof. induction p as [|c p IH]; simpl; [reflexivity | exact IH]. Qed.

Lemma length_app (a b : string) :
  String.length (a ++ b) = (String.length a + String.length b)%nat.
Proof. induction a; simpl; [reflexivity | now rewrite IHa]. Qed.

(** [replace] rewrites every occurrence met while reading from the left. *)
Lemma replace_spec (old new : string) :
  old <> EmptyString ->
  forall s, Replaced old new s (replace s old new).
Proof.
  intros Hold s. unfold replace.
  remember (String.length s) as n eqn:Hn.
  revert s Hn. induction n as [n IH] using lt_wf_ind. intros s Hn.
  destruct s as [|c s]; simpl; [constructor|].
  unfold startswith.
  destruct (strip_prefix old (String c s)) as [rest|] eqn:Hpre.
  - destruct old as [|a old']; [congruence|].
    simpl in Hpre. destruct (Ascii.eqb_spec a c); [subst a | discriminate].
    apply strip_prefix_sound in Hpre. subst s.
    replace (String.length (String c old') - 1)%nat with (String.length old')
      by (simpl; lia).
    rewrite replace_from_skip.
    change (String c (old' ++ rest)) with (String c old' ++ rest).
    constructor. apply (IH (String.length rest)); [|reflexivity].
    subst n. simpl. rewrite length_app. lia.
  - constructor.
    + unfold startswith. now rewrite Hpre.
    + apply (IH (String.length s)); [subst n; simpl; lia | reflexivity].
Qed.

Lemma strip_prefix_self (needle rest : string) :
  strip_prefix needle (needle ++ rest) = Some rest.
Proof.
  induction needle as [|a needle IH]; simpl; [reflexivity|].
  now rewrite Ascii.eqb_refl.
Qed.

(** The reading is deterministic: [Replaced] describes [replace] and nothing
    else. *)
Lemma Replaced_functional (old new s t : string) :
  old <> EmptyString ->
  Replaced old new s t -> t = replace s old new.
Proof.
  intros Hold H. unfold replace.
  induction H as [|rest rest' _ IH|c s s' Hkeep _ IH].
  - reflexivity.
  - destruct old as [|a old']; [congruence|].
    change (String a old' ++ rest) with (String a (old' ++ rest)).
    cbn [replace_from].
    change (String a (old' ++ rest)) with (String a old' ++ rest).
    unfold startswith. rewrite strip_prefix_self.
    replace (String.length (String a old') - 1)%nat with (String.length old')
      by (simpl; lia).
    now rewrite replace_from_skip, IH.
  - cbn [replace_from]. now rewrite Hkeep, IH.
Qed.

Lemma config_get_present (project_config : list (string * string))
    (key default v : string) :
  assoc key project_config = Some v -> config_get project_config key default = v.
Proof. unfold config_get. now intros ->. Qed.

Lemma config_get_absent (project_config : list (string * string))
    (key default : string) :
  assoc key project_config = None -> config_get project_config key default = default.
Proof. unfold config_get. now intros ->. Qed.

(** [generate_direct_api_code] always returns a dictionary, after exactly one
    request; a result with a true success flag carries the code as a string. *)
Lemma generate_direct_api_code_shape
    (rt : runtime) (net : remote) (language : string) (framework : option string)
    (include_examples : bool) (calls : list request) :
  exists base_result,
    generate_direct_api_code rt net language framework include_examples calls =
    (Return base_result,
     (calls ++ [GET (cdn_template_url (lower rt language)
                                      (lower_opt rt framework)) []])%list) /\
    lookup "success" base_result <> None /\
    (truthy (dict_get base_result "success" VNone) = true ->
     exists code, lookup "code" base_result = Some (VStr code)).
Proof.
  pose proof (generate_direct_api_code_unfold rt net language framework
                include_examples calls) as Hgen.
  cbv zeta in Hgen.
  set (lang := lower rt language) in *. set (fw := lower_opt rt framework) in *.
  set (url := cdn_template_url lang fw) in *.
  assert (exists fetched,
             fetch_template rt net lang fw include_examples url calls =
             (Return fetched, (calls ++ [GET url []])%list) /\
             match fetched with
             | Returned result => lookup "success" result = Some (VBool false)
             | Code _ _ => True
             end) as (fetched & Hfetch & Hshape).
  { destruct (net calls (GET url [])) as [resp|e] eqn:Hnet.
    - destruct (Z.eq_dec (status_code resp) 200) as [Hok|Hbad].
      + destruct (re_findall_fenced rt lang (text resp)) as [blocks|e] eqn:Hre.
        * eexists. split; [apply (fetch_template_found _ _ _ _ _ _ _ resp
                                    blocks Hnet Hok Hre)|exact I].
        * unfold fetch_template, try_except, bind, send.
          rewrite Hnet, Hok. cbn [Z.eqb Pos.eqb].
          unfold lift. rewrite Hre. unfold cdn_error_fallback, ret.
          destruct (local_generation _ _ _); eexists;
            (split; [reflexivity|]); [exact I | reflexivity].
      + rewrite (fetch_template_not_found _ _ _ _ _ _ _ resp Hnet Hbad).
        destruct (local_generation _ _ _); eexists;
          (split; [reflexivity|]); [exact I | reflexivity].
    - rewrite (fetch_template_raised _ _ _ _ _ _ _ e Hnet).
      destruct (local_generation _ _ _); eexists;
        (split; [reflexivity|]); [exact I | reflexivity]. }
  rewrite (Hgen _ _ Hfetch). eexists. split; [reflexivity|].
  destruct fetched as [code content|result].
  - split; [discriminate|]. intros _. exists code. reflexivity.
  - unfold dict_get. rewrite Hshape. split; [discriminate|]. discriminate.
Qed.

(** C9, as stated, at the language "python" with an unreachable CDN: the
    generator succeeds from the embedded source, the helpers cannot be
    fetched, and for a language other than "javascript" nothing is appended:
    the code field is the customized base code and nothing more. *)
Lemma create_message_service_template_no_helpers :
  exists base_result d,
    generate_direct_api_code Sample.rt Sample.net_down "python" None true []
    = (Return base_result,
       [GET "https://cdn.baas-templates.com/sms-mms/python/vanilla.md" []]) /\
    lookup "success" base_result = Some (VBool true) /\
    lookup "code" base_result = Some (VStr (generate_python_code None true)) /\
    create_message_service_template Sample.rt Sample.net_down
      Sample.project_config "python" None []
    = (Return d,
       [GET "https://cdn.baas-templates.com/sms-mms/python/vanilla.md" [];
        GET "https://cdn.baas-templates.com/sms-mms/helpers/python-project.md" []])
    /\
    lookup "success" d = Some (VBool true) /\
    lookup "code" d =
      Some (VStr (customize (generate_python_code None true)
                            "proj-42" "02-1234-5678" "Acme")).
Proof.
  do 2 eexists.
  split; [vm_compute; reflexivity|].
  split; [reflexivity|]. split; [vm_compute; reflexivity|].
  split; [vm_compute; reflexivity|].
  split; [reflexivity|]. vm_compute. reflexivity.
Qed.

(** C9, amended.  [create_message_service_template] calls
    [generate_direct_api_code language None True].  When the generator fails,
    its result is returned unchanged.  When it succeeds, the code field starts
    with the base code after three literal replacements made one after the
    other: "your-project-id" by the project id, "02-1234-5678" by the default
    callback, "Your Company" by the company name, each value defaulting to
    its placeholder when absent from [project_config].  Then the helpers are
    fetched: on a 200 answer the helper template is appended after two line
    feeds, with [{{company_name}}], [{{project_id}}] and
    [{{default_callback}}] replaced in that order; when the fetch raises, the
    local JavaScript helpers are appended for the language "javascript" and
    nothing is appended for any other language. *)
Theorem create_message_service_template_customizes
    (rt : runtime) (net : remote) (project_config : list (string * string))
    (language : string) (features : option (list string))
    (calls : list request) :
  let project_id := config_get project_config "project_id" "your-project-id" in
  let default_callback :=
    config_get project_config "default_callback" "02-1234-5678" in
  let company_name := config_get project_config "company_name" "Your Company" in
  let calls1 :=
    (calls ++ [GET (cdn_template_url (lower rt language) None) []])%list in
  let request := GET (helpers_url language) [] in
  let run :=
    create_message_service_template rt net project_config language features
                                    calls in
  (forall v, assoc "project_id" project_config = Some v -> project_id = v) /\
  (assoc "project_id" project_config = None -> project_id = "your-project-id") /\
  (forall v, assoc "default_callback" project_config = Some v ->
             default_callback = v) /\
  (assoc "default_callback" project_config = None ->
   default_callback = "02-1234-5678") /\
  (forall v, assoc "company_name" project_config = Some v -> company_name = v) /\
  (assoc "company_name" project_config = None -> company_name = "Your Company") /\
  exists base_result,
    generate_direct_api_code rt net language None true calls
    = (Return base_result, calls1) /\
    (truthy (dict_get base_result "success" VNone) = false ->
     run = (Return base_result, calls1)) /\
    (truthy (dict_get base_result "success" VNone) = true ->
     exists base_code c1 c2 customized,
       lookup "code" base_result = Some (VStr base_code) /\
       Replaced "your-project-id" project_id base_code c1 /\
       Replaced "02-1234-5678" default_callback c1 c2 /\
       Replaced "Your Company" company_name c2 customized /\
       customized = customize base_code project_id default_callback company_name /\
       snd run = (calls1 ++ [request])%list /\
       (forall resp,
           net calls1 request = Return resp ->
           status_code resp = 200 ->
           exists d h1 h2 helpers,
             fst run = Return d /\
             lookup "success" d = Some (VBool true) /\
             lookup "code" d = Some (VStr (customized ++ nl ++ nl ++ helpers)) /\
             Replaced "{{company_name}}" company_name (text resp) h1 /\
             Replaced "{{project_id}}" project_id h1 h2 /\
             Replaced "{{default_callback}}" default_callback h2 helpers /\
             helpers = fill_helpers (text resp) project_id default_callback
                                    company_name) /\
       (forall e,
           net calls1 request = Raise e ->
           exists d,
             fst run = Return d /\
             lookup "success" d = Some (VBool true) /\
             (language = "javascript" ->
              lookup "code" d =
              Some (VStr (customized
                          ++ project_helpers project_id default_callback
                                             company_name))) /\
             (language <> "javascript" ->
              lookup "code" d = Some (VStr customized)))).
Proof.
  cbv zeta.
  set (project_id := config_get project_config "project_id" "your-project-id").
  set (default_callback :=
         config_get project_config "default_callback" "02-1234-5678").
  set (company_name := config_get project_config "company_name" "Your Company").
  repeat (split; [first [ intros v Hv; exact (config_get_present _ _ _ _ Hv)
                        | intro Hv; exact (config_get_absent _ _ _ Hv) ]|]).
  destruct (generate_direct_api_code_shape rt net language None true calls)
    as (base_result & Hgen & _ & Hcode).
  change (lower_opt rt None) with (@None string) in Hgen.
  set (calls1 := (calls ++ _)%list) in *.
  exists base_result. split; [exact Hgen|]. split.
  - intro Hflag.
    unfold create_message_service_template,
      create_message_service_template_body, try_except, bind.
    rewrite Hgen, Hflag. reflexivity.
  - intro Hflag. destruct (Hcode Hflag) as [base_code Hbase].
    set (c1 := replace base_code "your-project-id" project_id).
    set (c2 := replace c1 "02-1234-5678" default_callback).
    exists base_code, c1, c2, (replace c2 "Your Company" company_name).
    split; [exact Hbase|].
    split; [apply replace_spec; discriminate|].
    split; [apply replace_spec; discriminate|].
    split; [apply replace_spec; discriminate|].
    split; [reflexivity|].
    fold c1 c2.
    set (run := create_message_service_template rt net project_config language
                  features calls).
    assert (run =
            try_except
              (code <- append_helpers net language
                         (replace c2 "Your Company" company_name)
                         project_id default_callback company_name ;;
               ret [("success", VBool true);
                    ("project_config", str_dict project_config);
                    ("language", VStr language);
                    ("features",
                     str_list match features with
                              | None => ["sms"; "mms"; "status_check"]
                              | Some fs => fs
                              end);
                    ("code", VStr code);
                    ("filename",
                     VStr (replace (lower rt company_name) " " "_"
                           ++ "_message_service." ++ language));
                    ("description", VStr (company_name ++ " 전용 메시지 서비스 템플릿"));
                    ("source", VStr "CDN template + project customization");
                    ("message", VStr "프로젝트별 맞춤 코드가 생성되었습니다 (CDN 최적화)")])
              (fun e => ret (failure ("템플릿 생성에 실패했습니다: " ++ exn_str e)
                                     "TEMPLATE_GENERATION_ERROR"))
              calls1) as Hrun.
    { unfold run, create_message_service_template,
        create_message_service_template_body, try_except, bind at 1.
      rewrite Hgen, Hflag. cbn [negb]. unfold bind at 1, lift.
      cbn [subscript]. rewrite Hbase. reflexivity. }
    clearbody run. subst run.
    unfold append_helpers. unfold bind, try_except, send, ret. cbv beta.
    change ("https://cdn.baas-templates.com/sms-mms/helpers/" ++ language
            ++ "-project.md") with (helpers_url language).
    destruct (net calls1 (GET (helpers_url language) [])) as [resp|e].
    + destruct (Z.eqb_spec (status_code resp) 200) as [Hok|Hbad].
      * split; [reflexivity|]. split; [|intros e Heq; discriminate Heq].
        intros resp' Heq _. injection Heq as <-.
        eexists. exists (replace (text resp) "{{company_name}}" company_name).
        exists (replace (replace (text resp) "{{company_name}}" company_name)
                        "{{project_id}}" project_id).
        eexists. split; [reflexivity|]. split; [reflexivity|].
        split; [reflexivity|].
        repeat split; apply replace_spec; discriminate.
      * split; [reflexivity|]. split; [|intros e Heq; discriminate Heq].
        intros resp' Heq Hstatus. injection Heq as <-. contradiction.
    + split; [destruct (String.eqb language "javascript"); reflexivity|].
      split; [intros resp Heq; discriminate Heq|].
      intros e' _.
      destruct (String.eqb_spec language "javascript") as [Hjs|Hjs];
        eexists; (split; [reflexivity|]); (split; [reflexivity|]);
        split; intro H; (reflexivity || contradiction).
Qed.

(** The CDN has no JavaScript template but has the project helpers: the
    embedded client is customized for project "proj-42" of "Acme" and the
    helper template follows, its variables filled in. *)
Lemma create_message_service_template_customizes_witness :
  exists d,
    fst (create_message_service_template Sample.rt Sample.net_helpers_only
           Sample.project_config "javascript" None []) = Return d /\
    lookup "success" d = Some (VBool true) /\
    lookup "code" d =
      Some (VStr (customize (generate_javascript_code None true)
                            "proj-42" "02-1234-5678" "Acme"
                  ++ nl ++ nl ++ "// Acme helpers for proj-42")).
Proof.
  destruct (create_message_service_template_customizes
              Sample.rt Sample.net_helpers_only Sample.project_config
              "javascript" None [])
    as (_ & _ & _ & _ & _ & _ & base_result & Hgen & _ & Hok).
  vm_compute in Hgen. injection Hgen as <-.
  destruct (Hok eq_refl)
    as (base_code & c1 & c2 & customized & Hcode & _ & _ & _ & -> & _ & H200 & _).
  vm_compute in Hcode. injection Hcode as <-.
  destruct (H200 (Response 200 "// {{company_name}} helpers for {{project_id}}"
                           (Raise (Exn "JSONDecodeError" "Expecting value")))
                 eq_refl eq_refl)
    as (d & h1 & h2 & helpers & Hret & Hsuccess & Hc & _ & _ & _ & ->).
  exists d. split; [exact Hret|]. split; [exact Hsuccess|].
  rewrite Hc. vm_compute. reflexivity.
Defined.

(* ------------------------------------------------------------------ *)
(** ** The tool boundary *)













(** Local faults behind a 200 answer: a body that is not JSON, a JSON body
    that is not an object, and a success answer without [data.group_id]. *)
Example get_message_status_bad_json :
  fst (get_message_status Sample.rt (Sample.net_text 200 "<html>") 7 []) =
  Return (failure "메시지 상태 조회에 실패했습니다: Expecting value" "INTERNAL_ERROR").
Proof. reflexivity. Qed.

Example get_message_status_json_list :
  fst (get_message_status Sample.rt (Sample.net_json 200 (VList [])) 7 []) =
  Return (failure "메시지 상태 조회에 실패했습니다: 'list' object has no attribute 'get'"
                  "INTERNAL_ERROR").
Proof. reflexivity. Qed.

Example send_sms_without_group_id :
  fst (send_sms Sample.rt (Sample.net_json 200 (VDict [("success", VBool true)]))
                Sample.recipients "hello" "02-1234-5678" "project-1" []) =
  Return (failure "SMS 전송에 실패했습니다: 'data'" "INTERNAL_ERROR").
Proof. reflexivity. Qed.

(* ------------------------------------------------------------------ *)
(** ** Deployment guides: [get_integration_guide] *)

(** X1.  When the CDN answers 200, [get_integration_guide] returns the body
    of the answer as [guide_content], with source "CDN", after one GET to
    [deployment/<platform>-<deployment_type>.md] built from the lower-cased
    arguments; the local guides are not consulted, so any platform name is
    served. *)
Theorem get_integration_guide_from_cdn
    (rt : runtime) (net : remote) (platform deployment_type : string)
    (calls : list request) (resp : response) :
  let p := lower rt platform in
  let dt := lower rt deployment_type in
  net calls (GET (guide_url p dt) []) = Return resp ->
  status_code resp = 200 ->
  get_integration_guide rt net platform deployment_type calls =
  (Return [("success", VBool true);
           ("platform", VStr p);
           ("deployment_type", VStr dt);
           ("guide_content", VStr (text resp));
           ("source", VStr "CDN");
           ("guide_url", VStr (guide_url p dt));
           ("security_checklist", security_checklist);
           ("message",
            VStr (title rt p ++ " " ++ dt ++ " 배포 가이드입니다 (CDN 최적화)"))],
   (calls ++ [GET (guide_url p dt) []])%list).
Proof.
  cbv zeta. intros Hnet Hstatus.
  unfold get_integration_guide, get_integration_guide_body, fetch_guide,
    try_except, bind, send, ret.
  unfold guide_url in Hnet. rewrite Hnet, Hstatus. reflexivity.
Qed.

Lemma get_integration_guide_from_cdn_witness :
  exists d,
    fst (get_integration_guide Sample.rt (Sample.net_text 200 "# Heroku")
           "Heroku" "Production" []) = Return d /\
    lookup "guide_content" d = Some (VStr "# Heroku") /\
    lookup "guide_url" d =
      Some (VStr "https://cdn.baas-templates.com/sms-mms/deployment/heroku-production.md").
Proof.
  eexists.
  rewrite (get_integration_guide_from_cdn Sample.rt
             (Sample.net_text 200 "# Heroku") "Heroku" "Production" []
             (Response 200 "# Heroku"
                       (Raise (Exn "JSONDecodeError" "Expecting value")))
             eq_refl eq_refl).
  repeat split.
Defined.

(** The fetch of the guide failed: the transport raised, or the answer has
    a status other than 200. *)
Lemma get_integration_guide_cdn_failed
    (rt : runtime) (net : remote) (platform deployment_type : string)
    (calls : list request) :
  let p := lower rt platform in
  let dt := lower rt deployment_type in
  (exists e, net calls (GET (guide_url p dt) []) = Raise e) \/
  (exists resp, net calls (GET (guide_url p dt) []) = Return resp /\
                status_code resp <> 200) ->
  get_integration_guide rt net platform deployment_type calls =
  (Return
     (if negb (truthy (dict_get basic_guides p VNone)) then
        [("success", VBool false);
         ("error", VStr ("플랫폼 '" ++ p
                         ++ "'에 대한 가이드가 아직 준비되지 않았습니다"));
         ("available_platforms", str_list ["vercel"; "netlify"; "docker"]);
         ("cdn_url", VStr "https://cdn.baas-templates.com/sms-mms/deployment/");
         ("error_code", VStr "PLATFORM_NOT_SUPPORTED")]
      else
        [("success", VBool true);
         ("platform", VStr p);
         ("deployment_type", VStr dt);
         ("guide", dict_get basic_guides p VNone);
         ("source", VStr "Local fallback");
         ("deployment_notes", dict_get deployment_notes dt (VStr ""));
         ("security_checklist", security_checklist);
         ("message",
          VStr (title rt p ++ " " ++ dt ++ " 배포 가이드입니다 (로컬 폴백)"))]),
   (calls ++ [GET (guide_url p dt) []])%list).
Proof.
  cbv zeta. intro Hfailed.
  unfold get_integration_guide, get_integration_guide_body, fetch_guide,
    try_except, bind, send, ret.
  unfold guide_url in Hfailed.
  destruct Hfailed as [[e Hnet]|[resp [Hnet Hstatus]]]; rewrite Hnet.
  - destruct (negb _); reflexivity.
  - destruct (Z.eqb_spec (status_code resp) 200); [contradiction|].
    destruct (negb _); reflexivity.
Qed.

(** The platforms with a local guide. *)
Lemma basic_guides_platforms (p : string) :
  In p ["vercel"; "netlify"; "docker"] <->
  truthy (dict_get basic_guides p VNone) = true.
Proof.
  unfold dict_get, basic_guides, lookup. split.
  - intros [<-|[<-|[<-|[]]]]; reflexivity.
  - destruct (String.eqb_spec p "vercel"); [subst; simpl; tauto|].
    destruct (String.eqb_spec p "netlify"); [subst; simpl; tauto|].
    destruct (String.eqb_spec p "docker"); [subst; simpl; tauto|].
    discriminate.
Qed.

(** X2.  When the fetch of the guide raises or is answered with a status
    other than 200, a platform whose lower-cased name is vercel, netlify or
    docker gets its built-in guide with source "Local fallback"; the
    deployment note is the one of the lower-cased deployment type, or the
    empty string for a type other than development, staging and production. *)
Theorem get_integration_guide_local_fallback
    (rt : runtime) (net : remote) (platform deployment_type : string)
    (calls : list request) :
  let p := lower rt platform in
  let dt := lower rt deployment_type in
  (exists e, net calls (GET (guide_url p dt) []) = Raise e) \/
  (exists resp, net calls (GET (guide_url p dt) []) = Return resp /\
                status_code resp <> 200) ->
  In p ["vercel"; "netlify"; "docker"] ->
  exists guide note,
    get_integration_guide rt net platform deployment_type calls =
    (Return [("success", VBool true);
             ("platform", VStr p);
             ("deployment_type", VStr dt);
             ("guide", VDict guide);
             ("source", VStr "Local fallback");
             ("deployment_notes", VStr note);
             ("security_checklist", security_checklist);
             ("message",
              VStr (title rt p ++ " " ++ dt ++ " 배포 가이드입니다 (로컬 폴백)"))],
     (calls ++ [GET (guide_url p dt) []])%list) /\
    lookup p basic_guides = Some (VDict guide) /\
    lookup "steps" guide <> None /\
    (~ In dt ["development"; "staging"; "production"] -> note = EmptyString) /\
    (dt = "development" -> note = "개발 환경에서는 .env 파일 사용 권장") /\
    (dt = "staging" -> note = "스테이징 환경에서는 별도 프로젝트 ID 사용") /\
    (dt = "production" -> note = "프로덕션에서는 환경 변수 암호화 및 로깅 설정 필요").
Proof.
  cbv zeta. intros Hfailed Hin.
  rewrite (get_integration_guide_cdn_failed rt net platform deployment_type
             calls Hfailed).
  rewrite (proj1 (basic_guides_platforms _) Hin). cbn [negb].
  set (p := lower rt platform) in *. set (dt := lower rt deployment_type).
  assert (exists guide, dict_get basic_guides p VNone = VDict guide /\
                        lookup p basic_guides = Some (VDict guide) /\
                        lookup "steps" guide <> None)
    as (guide & -> & Hguide & Hsteps).
  { destruct Hin as [<-|[<-|[<-|[]]]]; eexists;
      (split; [reflexivity|]); (split; [reflexivity|]); discriminate. }
  assert (exists note, dict_get deployment_notes dt (VStr "") = VStr note /\
            (~ In dt ["development"; "staging"; "production"] ->
             note = EmptyString) /\
            (dt = "development" -> note = "개발 환경에서는 .env 파일 사용 권장") /\
            (dt = "staging" -> note = "스테이징 환경에서는 별도 프로젝트 ID 사용") /\
            (dt = "production" ->
             note = "프로덕션에서는 환경 변수 암호화 및 로깅 설정 필요"))
    as (note & -> & Hnote).
  { unfold dict_get, deployment_notes, lookup.
    destruct (String.eqb_spec dt "development") as [->|H1].
    { eexists. split; [reflexivity|].
      repeat split; intro H; (reflexivity || discriminate H || idtac).
      exfalso. apply H. simpl. tauto. }
    destruct (String.eqb_spec dt "staging") as [->|H2].
    { eexists. split; [reflexivity|].
      repeat split; intro H; (reflexivity || discriminate H || idtac).
      exfalso. apply H. simpl. tauto. }
    destruct (String.eqb_spec dt "production") as [->|H3].
    { eexists. split; [reflexivity|].
      repeat split; intro H; (reflexivity || discriminate H || idtac).
      exfalso. apply H. simpl. tauto. }
    eexists. split; [reflexivity|].
    repeat split; intro H; (reflexivity || contradiction). }
  exists guide, note. split; [reflexivity|]. split; [exact Hguide|].
  split; [exact Hsteps | exact Hnote].
Qed.

Lemma get_integration_guide_local_fallback_witness :
  exists d,
    fst (get_integration_guide Sample.rt Sample.net_down "Docker" "QA" [])
    = Return d /\
    lookup "source" d = Some (VStr "Local fallback") /\
    lookup "deployment_notes" d = Some (VStr EmptyString).
Proof.
  destruct (get_integration_guide_local_fallback Sample.rt Sample.net_down
              "Docker" "QA" [])
    as (guide & note & Hrun & _ & _ & Hnote & _).
  - left. eexists. reflexivity.
  - simpl. tauto.
  - rewrite Hrun. eexists. split; [reflexivity|]. split; [reflexivity|].
    rewrite Hnote; [reflexivity|].
    simpl. intros [H|[H|[H|[]]]]; discriminate H.
Defined.

(** X3.  When the fetch of the guide raises or is answered with a status
    other than 200 and the lower-cased platform is none of vercel, netlify
    and docker, the tool returns [PLATFORM_NOT_SUPPORTED] and lists exactly
    these three platforms. *)
Theorem get_integration_guide_unknown_platform
    (rt : runtime) (net : remote) (platform deployment_type : string)
    (calls : list request) :
  let p := lower rt platform in
  let dt := lower rt deployment_type in
  (exists e, net calls (GET (guide_url p dt) []) = Raise e) \/
  (exists resp, net calls (GET (guide_url p dt) []) = Return resp /\
                status_code resp <> 200) ->
  ~ In p ["vercel"; "netlify"; "docker"] ->
  get_integration_guide rt net platform deployment_type calls =
  (Return [("success", VBool false);
           ("error", VStr ("플랫폼 '" ++ p
                           ++ "'에 대한 가이드가 아직 준비되지 않았습니다"));
           ("available_platforms", str_list ["vercel"; "netlify"; "docker"]);
           ("cdn_url", VStr "https://cdn.baas-templates.com/sms-mms/deployment/");
           ("error_code", VStr "PLATFORM_NOT_SUPPORTED")],
   (calls ++ [GET (guide_url p dt) []])%list).
Proof.
  cbv zeta. intros Hfailed Hout.
  rewrite (get_integration_guide_cdn_failed rt net platform deployment_type
             calls Hfailed).
  destruct (truthy (dict_get basic_guides (lower rt platform) VNone)) eqn:Hguide.
  - exfalso. apply Hout. now apply basic_guides_platforms.
  - reflexivity.
Qed.

Lemma get_integration_guide_unknown_platform_witness :
  fst (get_integration_guide Sample.rt (Sample.net_text 404 "Not Found")
         "Heroku" "production" []) =
  Return [("success", VBool false);
          ("error", VStr "플랫폼 'heroku'에 대한 가이드가 아직 준비되지 않았습니다");
          ("available_platforms", str_list ["vercel"; "netlify"; "docker"]);
          ("cdn_url", VStr "https://cdn.baas-templates.com/sms-mms/deployment/");
          ("error_code", VStr "PLATFORM_NOT_SUPPORTED")].
Proof.
  rewrite (get_integration_guide_unknown_platform Sample.rt
             (Sample.net_text 404 "Not Found") "Heroku" "production" []).
  - reflexivity.
  - right. eexists. split; [reflexivity | discriminate].
  - simpl. intros [H|[H|[H|[]]]]; discriminate H.
Defined.

(* ------------------------------------------------------------------ *)
(** ** Further properties of [get_message_status] *)

(** X4.  [get_message_status] always issues exactly one GET, to
    [/message/send_history/sms/<group_id>/messages] with the API key header,
    whatever the group id and the answer.
    A status other than 200 gives [API_ERROR] with the status code in the
    message; a 200 answer whose JSON object has no true success flag gives
    the remote message and error code, defaulting to "메시지 상태 조회에
    실패했습니다" and [UNKNOWN_ERROR] when the answer lacks them. *)
Theorem get_message_status_failure_paths
    (rt : runtime) (net : remote) (group_id : Z) (calls : list request) :
  let request := status_request rt group_id in
  let run := get_message_status rt net group_id calls in
  snd run = (calls ++ [request])%list /\
  (forall resp,
      net calls request = Return resp ->
      status_code resp <> 200 ->
      fst run =
      Return (failure ("API 호출이 실패했습니다 (상태코드: "
                       ++ str_of_int (status_code resp) ++ ")") "API_ERROR")) /\
  (forall resp result,
      net calls request = Return resp ->
      status_code resp = 200 ->
      json resp = Return (VDict result) ->
      truthy (dict_get result "success" VNone) = false ->
      fst run =
      Return [("success", VBool false);
              ("error",
               dict_get result "message" (VStr "메시지 상태 조회에 실패했습니다"));
              ("error_code", dict_get result "error_code" (VStr "UNKNOWN_ERROR"))]
      /\
      (lookup "message" result = None ->
       lookup "error_code" result = None ->
       fst run = Return (failure "메시지 상태 조회에 실패했습니다" "UNKNOWN_ERROR"))).
Proof.
  cbv zeta. split; [|split].
  - unfold get_message_status, get_message_status_body, try_except, bind, send,
      lift, ret, status_request.
    destruct (net calls _) as [resp|e]; [|reflexivity].
    destruct (status_code resp =? 200); [|reflexivity].
    destruct (json resp) as [result|e]; [|reflexivity].
    destruct (get result "success" VNone) as [flag|e]; [|reflexivity].
    destruct (truthy flag).
    + destruct (get result "data" _) as [messages|e]; [|reflexivity].
      destruct (group_status group_id messages); reflexivity.
    + destruct (get result "message" _) as [m|e]; [|reflexivity].
      destruct (get result "error_code" _); reflexivity.
  - intros resp Hnet Hstatus.
    unfold get_message_status, get_message_status_body, try_except, bind, send.
    unfold status_request in Hnet. rewrite Hnet.
    destruct (Z.eqb_spec (status_code resp) 200); [contradiction | reflexivity].
  - intros resp result Hnet Hstatus Hjson Hflag.
    assert (fst (get_message_status rt net group_id calls) =
            Return [("success", VBool false);
                    ("error",
                     dict_get result "message"
                              (VStr "메시지 상태 조회에 실패했습니다"));
                    ("error_code",
                     dict_get result "error_code" (VStr "UNKNOWN_ERROR"))])
      as Hrun.
    { unfold get_message_status, get_message_status_body, try_except, bind,
        send, lift.
      unfold status_request in Hnet. rewrite Hnet, Hstatus, Hjson.
      cbn [get Z.eqb Pos.eqb]. rewrite Hflag. reflexivity. }
    split; [exact Hrun|].
    intros Hm Hc. rewrite Hrun. unfold dict_get. now rewrite Hm, Hc.
Qed.

Lemma get_message_status_failure_paths_witness :
  fst (get_message_status Sample.rt (Sample.net_json 200 Scenario.refused) 7 [])
  = Return (failure "메시지 상태 조회에 실패했습니다" "UNKNOWN_ERROR") /\
  fst (get_message_status Sample.rt (Sample.net_json 503 VNone) 7 [])
  = Return (failure "API 호출이 실패했습니다 (상태코드: 503)" "API_ERROR").
Proof.
  destruct (get_message_status_failure_paths Sample.rt
              (Sample.net_json 200 Scenario.refused) 7 [])
    as (_ & _ & Hrefused).
  destruct (get_message_status_failure_paths Sample.rt
              (Sample.net_json 503 VNone) 7 [])
    as (_ & Hhttp & _).
  split.
  - apply (Hrefused (Response 200 EmptyString (Return Scenario.refused))
                    [("success", VBool false)]
                    eq_refl eq_refl eq_refl eq_refl); reflexivity.
  - apply (Hhttp (Response 503 EmptyString (Return VNone)) eq_refl).
    discriminate.
Defined.

(** Counting stops at the first item that is not a dictionary. *)
Lemma sum_results_not_dict (l : string) (messages : list value) :
  existsb (fun v => negb (is_dict v)) messages = true ->
  forall acc, exists e,
    sum_results l acc messages = Raise e /\ exn_class e = "AttributeError".
Proof.
  induction messages as [|v messages IH]; simpl; [discriminate|].
  intros H acc.
  destruct v; simpl in *; try (eexists; split; reflexivity).
  apply IH. exact H.
Qed.

(** X5.  The [data] of a successful status answer decides between an empty
    report and a fault.  Without a [data] key the report is the empty group
    (all counts 0, status "성공").  With [data] set to null, a boolean or a
    number, [len] fails and the tool returns [INTERNAL_ERROR] naming the
    type.  With a [data] list holding an item that is not an object, the
    tool returns [INTERNAL_ERROR] as well. *)
Theorem get_message_status_data_edge_cases
    (rt : runtime) (net : remote) (group_id : Z) (calls : list request)
    (resp : response) (result : dict) :
  net calls (status_request rt group_id) = Return resp ->
  status_code resp = 200 ->
  json resp = Return (VDict result) ->
  truthy (dict_get result "success" VNone) = true ->
  let run := get_message_status rt net group_id calls in
  (lookup "data" result = None ->
   fst run = Return [("group_id", VInt group_id);
                     ("status", VStr "성공");
                     ("total_count", VInt 0);
                     ("success_count", VInt 0);
                     ("failed_count", VInt 0);
                     ("pending_count", VInt 0);
                     ("messages", VList [])]) /\
  (forall v,
      lookup "data" result = Some v ->
      is_scalar v = true ->
      fst run =
      Return (failure ("메시지 상태 조회에 실패했습니다: object of type '"
                       ++ type_name v ++ "' has no len()") "INTERNAL_ERROR")) /\
  (forall items,
      lookup "data" result = Some (VList items) ->
      existsb (fun v => negb (is_dict v)) items = true ->
      exists reason,
        fst run =
        Return (failure ("메시지 상태 조회에 실패했습니다: " ++ reason)
                        "INTERNAL_ERROR")).
Proof.
  intros Hnet Hstatus Hjson Hflag. cbv zeta.
  assert (forall messages,
             dict_get result "data" (VList []) = messages ->
             get_message_status rt net group_id calls =
             try_except (lift (group_status group_id messages))
               (fun e => ret (failure ("메시지 상태 조회에 실패했습니다: "
                                       ++ exn_str e) "INTERNAL_ERROR"))
               (calls ++ [status_request rt group_id])%list) as Hrun.
  { intros messages Hdata.
    unfold get_message_status, get_message_status_body, try_except, bind, send,
      lift.
    unfold status_request in Hnet. rewrite Hnet, Hstatus, Hjson.
    cbn [get Z.eqb Pos.eqb]. rewrite Hflag, Hdata. reflexivity. }
  split; [|split].
  - intro Hdata. rewrite (Hrun (VList [])); [reflexivity|].
    unfold dict_get. now rewrite Hdata.
  - intros v Hdata Hscalar. rewrite (Hrun v).
    + destruct v; try discriminate Hscalar; reflexivity.
    + unfold dict_get. now rewrite Hdata.
  - intros items Hdata Hbad. rewrite (Hrun (VList items)).
    + destruct (sum_results_not_dict "성공" items Hbad 0) as (e & He & _).
      exists (exn_str e).
      unfold try_except, lift, group_status, count_results.
      cbn [len iterate obind]. rewrite He. reflexivity.
    + unfold dict_get. now rewrite Hdata.
Qed.

Lemma get_message_status_data_edge_cases_witness :
  fst (get_message_status Sample.rt
         (Sample.net_json 200 (Scenario.status_data VNone)) 7 []) =
  Return (failure "메시지 상태 조회에 실패했습니다: object of type 'NoneType' has no len()"
                  "INTERNAL_ERROR") /\
  fst (get_message_status Sample.rt
         (Sample.net_json 200 (VDict [("success", VBool true)])) 7 []) =
  Return [("group_id", VInt 7);
          ("status", VStr "성공");
          ("total_count", VInt 0);
          ("success_count", VInt 0);
          ("failed_count", VInt 0);
          ("pending_count", VInt 0);
          ("messages", VList [])].
Proof.
  split.
  - apply (get_message_status_data_edge_cases Sample.rt
             (Sample.net_json 200 (Scenario.status_data VNone)) 7 []
             (Response 200 EmptyString (Return (Scenario.status_data VNone)))
             [("success", VBool true); ("data", VNone)]
             eq_refl eq_refl eq_refl eq_refl)
      with (v := VNone); reflexivity.
  - apply (get_message_status_data_edge_cases Sample.rt
             (Sample.net_json 200 (VDict [("success", VBool true)])) 7 []
             (Response 200 EmptyString (Return (VDict [("success", VBool true)])))
             [("success", VBool true)]
             eq_refl eq_refl eq_refl eq_refl).
    reflexivity.
Defined.

Lemma filter_length_le {A} (p : A -> bool) (l : list A) :
  (List.length (filter p l) <= List.length l)%nat.
Proof. induction l as [|a l IH]; simpl; [lia|]. destruct (p a); simpl; lia. Qed.

Lemma filter_all {A} (p : A -> bool) (l : list A) :
  List.length (filter p l) = List.length l <-> Forall (fun a => p a = true) l.
Proof.
  induction l as [|a l IH]; simpl.
  - split; [constructor | reflexivity].
  - pose proof (filter_length_le p l) as Hle.
    destruct (p a) eqn:Ha; simpl; split; intro H.
    + constructor; [exact Ha | apply IH; lia].
    + inversion H; subst. f_equal. now apply IH.
    + lia.
    + inversion H; subst. congruence.
Qed.

Lemma filter_none {A} (p : A -> bool) (l : list A) :
  List.length (filter p l) = O <-> Forall (fun a => p a = false) l.
Proof.
  induction l as [|a l IH]; simpl.
  - split; [constructor | reflexivity].
  - destruct (p a) eqn:Ha; simpl; split; intro H.
    + discriminate.
    + inversion H; subst. congruence.
    + constructor; [exact Ha | now apply IH].
    + inversion H; subst. now apply IH.
Qed.

Lemma count_label_all (l : string) (records : list dict) :
  count_label l records = Z.of_nat (List.length records) <->
  Forall (has_label l) records.
Proof.
  unfold count_label, has_label. rewrite Nat2Z.inj_iff, filter_all.
  split; intro H; (eapply Forall_impl; [|exact H]); intros r Hr;
    now apply eq_str_true.
Qed.

Lemma count_label_none (l : string) (records : list dict) :
  count_label l records = 0 <-> Forall (fun r => ~ has_label l r) records.
Proof.
  unfold count_label, has_label.
  change 0 with (Z.of_nat O). rewrite Nat2Z.inj_iff, filter_none.
  split; intro H; (eapply Forall_impl; [|exact H]); intros r Hr.
  - intro Hl. apply eq_str_true in Hl. congruence.
  - destruct (eq_str (label r) l) eqn:E; [|reflexivity].
    apply eq_str_true in E. contradiction.
Qed.

Lemma has_label_dec (l : string) (r : dict) : has_label l r \/ ~ has_label l r.
Proof.
  unfold has_label. destruct (eq_str (label r) l) eqn:E.
  - left. now apply eq_str_true.
  - right. intro H. apply eq_str_true in H. congruence.
Qed.

(** The records that are neither delivered nor failed are the pending ones. *)
Lemma pending_none (records : list dict) :
  Z.of_nat (List.length records) - count_label "성공" records
  - count_label "실패" records = 0 <->
  Forall (fun r => has_label "성공" r \/ has_label "실패" r) records.
Proof.
  unfold count_label, has_label.
  induction records as [|r records IH]; cbn [filter].
  - split; [constructor | reflexivity].
  - pose proof (count_label_disjoint "성공" "실패" records success_failed_differ)
      as Hd.
    unfold count_label in Hd.
    destruct (eq_str (label r) "성공") eqn:Es, (eq_str (label r) "실패") eqn:Ef;
      cbn [List.length]; rewrite ?Nat2Z.inj_succ.
    + apply eq_str_true in Es. apply eq_str_true in Ef.
      rewrite Es in Ef. discriminate Ef.
    + apply eq_str_true in Es. split; intro H.
      * constructor; [now left | apply IH; lia].
      * inversion H as [|? ? _ Hrest]; subst. apply IH in Hrest. lia.
    + apply eq_str_true in Ef. split; intro H.
      * constructor; [now right | apply IH; lia].
      * inversion H as [|? ? _ Hrest]; subst. apply IH in Hrest. lia.
    + split; intro H; [lia|].
      inversion H as [|? ? [Hl|Hl] _]; subst; apply eq_str_true in Hl;
        congruence.
Qed.

(** X6.  The overall status of [get_message_status] in terms of the
    records: it is "성공" exactly when every record is labelled "성공" (an
    empty group included), "실패" exactly when there is at least one record
    and every record is labelled "실패", "전송중" exactly when some record
    carries neither label, and "부분성공" exactly when every record carries
    one of the two labels and both occur. *)
Theorem get_message_status_status_meaning
    (rt : runtime) (net : remote) (group_id : Z) (calls : list request)
    (resp : response) (result : dict) (records : list dict) :
  net calls (status_request rt group_id) = Return resp ->
  status_code resp = 200 ->
  json resp = Return (VDict result) ->
  truthy (dict_get result "success" VNone) = true ->
  dict_get result "data" (VList []) = VList (map VDict records) ->
  exists d status,
    fst (get_message_status rt net group_id calls) = Return d /\
    lookup "status" d = Some (VStr status) /\
    (status = "성공" <-> Forall (has_label "성공") records) /\
    (status = "실패" <-> records <> [] /\ Forall (has_label "실패") records) /\
    (status = "전송중" <->
     Exists (fun r => ~ has_label "성공" r /\ ~ has_label "실패" r) records) /\
    (status = "부분성공" <->
     Forall (fun r => has_label "성공" r \/ has_label "실패" r) records /\
     Exists (has_label "성공") records /\ Exists (has_label "실패") records).
Proof.
  intros Hnet Hstatus Hjson Hflag Hdata.
  pose proof (get_message_status_on_records rt net group_id calls resp result
                records Hnet Hstatus Hjson Hflag Hdata) as Hrun.
  cbv zeta in Hrun. rewrite Hrun. cbn [fst].
  do 2 eexists. split; [reflexivity|]. split; [reflexivity|].
  pose proof (count_label_nonneg "성공" records) as Hs0.
  pose proof (count_label_nonneg "실패" records) as Hf0.
  pose proof (count_label_disjoint "성공" "실패" records success_failed_differ)
    as Hdis.
  pose proof (pending_none records) as Hpending.
  pose proof (count_label_all "성공" records) as Hsall.
  pose proof (count_label_all "실패" records) as Hfall.
  pose proof (count_label_none "성공" records) as Hsnone.
  pose proof (count_label_none "실패" records) as Hfnone.
  set (total := Z.of_nat (List.length records)) in *.
  set (s := count_label "성공" records) in *.
  set (f := count_label "실패" records) in *.
  assert (Exists (fun r => ~ has_label "성공" r /\ ~ has_label "실패" r) records
          <-> total - s - f <> 0) as Hex.
  { rewrite Hpending. rewrite <- Exists_Forall_neg.
    - split; apply Exists_impl; intros r Hr; tauto.
    - intro r. unfold has_label.
      destruct (eq_str (label r) "성공") eqn:Es;
        [left; left; now apply eq_str_true|].
      destruct (eq_str (label r) "실패") eqn:Ef;
        [left; right; now apply eq_str_true|].
      right. intros [H|H]; apply eq_str_true in H; congruence. }
  assert (Exists (has_label "성공") records <-> s <> 0) as Hexs.
  { rewrite Hsnone. rewrite <- Exists_Forall_neg.
    - split; apply Exists_impl; intros r Hr;
        destruct (has_label_dec "성공" r); tauto.
    - intro r. destruct (has_label_dec "성공" r); tauto. }
  assert (Exists (has_label "실패") records <-> f <> 0) as Hexf.
  { rewrite Hfnone. rewrite <- Exists_Forall_neg.
    - split; apply Exists_impl; intros r Hr;
        destruct (has_label_dec "실패" r); tauto.
    - intro r. destruct (has_label_dec "실패" r); tauto. }
  assert (records <> [] <-> total <> 0) as Hne.
  { unfold total. destruct records; simpl; split; intro H;
      (congruence || lia). }
  rewrite <- Hsall, <- Hfall, Hex, <- Hpending, Hexs, Hexf, Hne.
  unfold overall_status.
  destruct (Z.gtb_spec (total - s - f) 0), (Z.eqb_spec f 0), (Z.eqb_spec s 0);
    repeat split; intros; try discriminate; try reflexivity; try lia.
Qed.

Lemma get_message_status_status_meaning_witness :
  exists d,
    fst (get_message_status Sample.rt
           (Sample.net_json 200 (Sample.status_ok ["성공"; "실패"])) 7 [])
    = Return d /\
    lookup "status" d = Some (VStr "부분성공").
Proof.
  destruct (get_message_status_status_meaning
              Sample.rt (Sample.net_json 200 (Sample.status_ok ["성공"; "실패"]))
              7 []
              (Response 200 EmptyString
                        (Return (Sample.status_ok ["성공"; "실패"])))
              [("success", VBool true);
               ("data", VList (map (fun l => VDict (record_with l))
                                   ["성공"; "실패"]))]
              (map record_with ["성공"; "실패"])
              eq_refl eq_refl eq_refl eq_refl eq_refl)
    as (d & status & Hrun & Hstatus & _ & _ & _ & Hpartial).
  exists d. split; [exact Hrun|]. rewrite Hstatus.
  rewrite (proj2 Hpartial); [reflexivity|].
  split; [|split].
  - constructor; [left; reflexivity|].
    constructor; [right; reflexivity | constructor].
  - left. reflexivity.
  - right. left. reflexivity.
Defined.

Lemma count_label_permutation (l : string) (records records' : list dict) :
  Permutation records records' ->
  count_label l records = count_label l records'.
Proof.
  intro H. unfold count_label. f_equal. apply Permutation_length.
  induction H as [|r a b _ IH|r r' a|a b c _ IH1 _ IH2]; simpl.
  - constructor.
  - destruct (eq_str (label r) l); [now constructor | exact IH].
  - destruct (eq_str (label r) l), (eq_str (label r') l);
      try apply Permutation_refl. apply perm_swap.
  - now apply Permutation_trans with (filter (fun r => eq_str (label r) l) b).
Qed.

(** X7.  The report of [get_message_status] does not depend on the order of
    the records: two answers whose record lists are permutations of each
    other give the same status and the same four counts; only the [messages]
    list, which follows the order of the answer, may differ. *)
Theorem get_message_status_order_independent
    (rt : runtime) (net net' : remote) (group_id : Z)
    (calls calls' : list request) (resp resp' : response)
    (result result' : dict) (records records' : list dict) :
  net calls (status_request rt group_id) = Return resp ->
  status_code resp = 200 ->
  json resp = Return (VDict result) ->
  truthy (dict_get result "success" VNone) = true ->
  dict_get result "data" (VList []) = VList (map VDict records) ->
  net' calls' (status_request rt group_id) = Return resp' ->
  status_code resp' = 200 ->
  json resp' = Return (VDict result') ->
  truthy (dict_get result' "success" VNone) = true ->
  dict_get result' "data" (VList []) = VList (map VDict records') ->
  Permutation records records' ->
  exists d d',
    fst (get_message_status rt net group_id calls) = Return d /\
    fst (get_message_status rt net' group_id calls') = Return d' /\
    forall key, key <> "messages" -> lookup key d = lookup key d'.
Proof.
  intros Hnet Hstatus Hjson Hflag Hdata Hnet' Hstatus' Hjson' Hflag' Hdata' Hperm.
  pose proof (get_message_status_on_records rt net group_id calls resp result
                records Hnet Hstatus Hjson Hflag Hdata) as Hrun.
  pose proof (get_message_status_on_records rt net' group_id calls' resp'
                result' records' Hnet' Hstatus' Hjson' Hflag' Hdata') as Hrun'.
  cbv zeta in Hrun, Hrun'. rewrite Hrun, Hrun'. cbn [fst].
  rewrite <- (count_label_permutation "성공" _ _ Hperm),
    <- (count_label_permutation "실패" _ _ Hperm),
    <- (Permutation_length Hperm).
  do 2 eexists. split; [reflexivity|]. split; [reflexivity|].
  intros key Hkey. cbn [lookup].
  destruct (String.eqb_spec key "messages"); [contradiction|].
  repeat (destruct (String.eqb key _); [reflexivity|]). reflexivity.
Qed.

Lemma get_message_status_order_independent_witness :
  exists d d',
    fst (get_message_status Sample.rt
           (Sample.net_json 200 (Sample.status_ok ["성공"; "실패"; "접수"])) 7 [])
    = Return d /\
    fst (get_message_status Sample.rt
           (Sample.net_json 200 (Sample.status_ok ["접수"; "성공"; "실패"])) 7 [])
    = Return d' /\
    lookup "status" d = lookup "status" d' /\
    lookup "pending_count" d = lookup "pending_count" d'.
Proof.
  destruct (get_message_status_order_independent
              Sample.rt
              (Sample.net_json 200 (Sample.status_ok ["성공"; "실패"; "접수"]))
              (Sample.net_json 200 (Sample.status_ok ["접수"; "성공"; "실패"]))
              7 [] []
              (Response 200 EmptyString
                        (Return (Sample.status_ok ["성공"; "실패"; "접수"])))
              (Response 200 EmptyString
                        (Return (Sample.status_ok ["접수"; "성공"; "실패"])))
              [("success", VBool true);
               ("data", VList (map (fun l => VDict (record_with l))
                                   ["성공"; "실패"; "접수"]))]
              [("success", VBool true);
               ("data", VList (map (fun l => VDict (record_with l))
                                   ["접수"; "성공"; "실패"]))]
              (map record_with ["성공"; "실패"; "접수"])
              (map record_with ["접수"; "성공"; "실패"])
              eq_refl eq_refl eq_refl eq_refl eq_refl
              eq_refl eq_refl eq_refl eq_refl eq_refl)
    as (d & d' & Hrun & Hrun' & Hsame).
  - simpl. apply Permutation_sym.
    apply (Permutation_cons_app [record_with "성공"; record_with "실패"] []).
    rewrite app_nil_r. apply Permutation_refl.
  - exists d, d'. split; [exact Hrun|]. split; [exact Hrun'|].
    split; apply Hsame; discriminate.
Defined.

(** X8.  The [messages] list of the report has one row per record, in the
    order of the answer, and as many rows as [total_count] says.  A row
    copies [phone], [name], [result] (as [status]) and [reason] from its
    record; a missing [phone], [name] or [result] becomes the empty string
    and a missing [reason] becomes [None]. *)
Theorem get_message_status_rows
    (rt : runtime) (net : remote) (group_id : Z) (calls : list request)
    (resp : response) (result : dict) (records : list dict) :
  net calls (status_request rt group_id) = Return resp ->
  status_code resp = 200 ->
  json resp = Return (VDict result) ->
  truthy (dict_get result "success" VNone) = true ->
  dict_get result "data" (VList []) = VList (map VDict records) ->
  exists d rows,
    fst (get_message_status rt net group_id calls) = Return d /\
    lookup "messages" d = Some (VList rows) /\
    lookup "total_count" d = Some (VInt (Z.of_nat (List.length rows))) /\
    List.length rows = List.length records /\
    forall i record,
      nth_error records i = Some record ->
      exists row,
        nth_error rows i = Some (VDict row) /\
        List.length row = 4%nat /\
        (forall v, lookup "phone" record = Some v -> lookup "phone" row = Some v) /\
        (forall v, lookup "name" record = Some v -> lookup "name" row = Some v) /\
        (forall v, lookup "result" record = Some v ->
                   lookup "status" row = Some v) /\
        (forall v, lookup "reason" record = Some v ->
                   lookup "reason" row = Some v) /\
        (lookup "phone" record = None ->
         lookup "phone" row = Some (VStr EmptyString)) /\
        (lookup "name" record = None ->
         lookup "name" row = Some (VStr EmptyString)) /\
        (lookup "result" record = None ->
         lookup "status" row = Some (VStr EmptyString)) /\
        (lookup "reason" record = None -> lookup "reason" row = Some VNone).
Proof.
  intros Hnet Hstatus Hjson Hflag Hdata.
  pose proof (get_message_status_on_records rt net group_id calls resp result
                records Hnet Hstatus Hjson Hflag Hdata) as Hrun.
  cbv zeta in Hrun. rewrite Hrun. cbn [fst].
  do 2 eexists. split; [reflexivity|]. split; [reflexivity|].
  split; [cbn [lookup String.eqb Ascii.eqb Bool.eqb]; now rewrite length_map|].
  split; [apply length_map|].
  intros i record Hnth. eexists.
  split; [rewrite nth_error_map, Hnth; reflexivity|].
  split; [reflexivity|].
  unfold dict_get.
  repeat split; intros; cbn [lookup String.eqb Ascii.eqb Bool.eqb];
    match goal with H : lookup _ record = _ |- _ => now rewrite H end.
Qed.

Lemma get_message_status_rows_witness :
  exists d,
    fst (get_message_status Sample.rt
           (Sample.net_json 200
              (Scenario.status_data
                 (VList [VDict [("phone", VStr "010-1111-2222");
                                ("result", VStr "실패");
                                ("reason", VStr "결번")];
                         VDict []]))) 7 []) = Return d /\
    lookup "messages" d =
      Some (VList [VDict [("phone", VStr "010-1111-2222");
                          ("name", VStr EmptyString);
                          ("status", VStr "실패");
                          ("reason", VStr "결번")];
                   VDict [("phone", VStr EmptyString);
                          ("name", VStr EmptyString);
                          ("status", VStr EmptyString);
                          ("reason", VNone)]]).
Proof.
  destruct (get_message_status_rows
              Sample.rt
              (Sample.net_json 200
                 (Scenario.status_data
                    (VList [VDict [("phone", VStr "010-1111-2222");
                                   ("result", VStr "실패");
                                   ("reason", VStr "결번")];
                            VDict []])))
              7 []
              (Response 200 EmptyString
                 (Return (Scenario.status_data
                            (VList [VDict [("phone", VStr "010-1111-2222");
                                           ("result", VStr "실패");
                                           ("reason", VStr "결번")];
                                    VDict []]))))
              [("success", VBool true);
               ("data", VList [VDict [("phone", VStr "010-1111-2222");
                                      ("result", VStr "실패");
                                      ("reason", VStr "결번")];
                               VDict []])]
              [[("phone", VStr "010-1111-2222"); ("result", VStr "실패");
                ("reason", VStr "결번")]; []]
              eq_refl eq_refl eq_refl eq_refl eq_refl)
    as (d & rows & Hrun & _).
  exists d. split; [exact Hrun|].
  vm_compute in Hrun. injection Hrun as <-. reflexivity.
Defined.

(* ------------------------------------------------------------------ *)
(** ** Further properties of [send_sms] and [send_mms] *)

(** When [send_result] raises: the body is not JSON, the JSON is not an
    object, or a flagged answer has no [data.group_id] to read. *)
Lemma send_result_raises (sent : string) (recipients : list recipient)
    (resp : response) (calls : list request) (e : exn) :
  status_code resp = 200 ->
  json resp = Raise e \/
  (exists v, json resp = Return v /\ get v "success" VNone = Raise e) \/
  (exists result,
      json resp = Return (VDict result) /\
      truthy (dict_get result "success" VNone) = true /\
      (subscript (VDict result) "data" = Raise e \/
       exists data, lookup "data" result = Some data /\
                    subscript data "group_id" = Raise e)) ->
  send_result sent recipients resp calls = (Raise e, calls).
Proof.
  intros Hstatus H. unfold send_result, bind, lift. rewrite Hstatus.
  cbn [Z.eqb Pos.eqb].
  destruct H as [Hjson|[(v & Hjson & Hget)|(result & Hjson & Hflag & H)]];
    rewrite Hjson; [reflexivity | rewrite Hget; reflexivity |].
  cbn [get]. rewrite Hflag.
  destruct H as [Hdata|(data & Hdata & Hgroup)].
  - rewrite Hdata. reflexivity.
  - cbn [subscript]. rewrite Hdata, Hgroup. reflexivity.
Qed.



(** X10.  A 200 answer with a true success flag is reported as a success
    only if [data.group_id] can be read.  When the answer has no [data], or
    [data] is not an object, or [data] has no [group_id], [send_sms] and
    [send_mms] return [INTERNAL_ERROR] although the remote side accepted the
    message; a missing key is named in the error text. *)
Theorem send_without_group_id
    (rt : runtime) (net : remote) (recipients : list recipient)
    (message subject callback_number project_id : string)
    (image_urls : option (list string)) (calls : list request)
    (resp : response) (result : dict) :
  1 <= Z.of_nat (List.length recipients) <= 1000 ->
  py_len message <= 2000 ->
  project_id <> EmptyString ->
  status_code resp = 200 ->
  json resp = Return (VDict result) ->
  truthy (dict_get result "success" VNone) = true ->
  let missing :=
    fun e =>
      subscript (VDict result) "data" = Raise e \/
      exists data, lookup "data" result = Some data /\
                   subscript data "group_id" = Raise e in
  (forall e,
      net calls (sms_request rt recipients message callback_number project_id)
      = Return resp ->
      missing e ->
      fst (send_sms rt net recipients message callback_number project_id calls)
      = Return (failure ("SMS 전송에 실패했습니다: " ++ exn_str e) "INTERNAL_ERROR"))
  /\
  (forall e,
      py_len subject <= 40 ->
      match image_urls with
      | Some urls => Z.of_nat (List.length urls) <= 5
      | None => True
      end ->
      net calls (mms_request rt recipients message subject callback_number
                             project_id image_urls) = Return resp ->
      missing e ->
      fst (send_mms rt net recipients message subject callback_number
                    project_id image_urls calls)
      = Return (failure ("MMS 전송에 실패했습니다: " ++ exn_str e) "INTERNAL_ERROR"))
  /\
  (lookup "data" result = None -> missing (Exn "KeyError" "'data'")) /\
  (forall data, lookup "data" result = Some (VDict data) ->
                lookup "group_id" data = None ->
                missing (Exn "KeyError" "'group_id'")) /\
  (lookup "data" result = Some VNone ->
   missing (Exn "TypeError" "'NoneType' object is not subscriptable")).
Proof.
  intros Hrec Hmsg Hpid Hstatus Hjson Hflag. cbv zeta.
  split; [|split; [|split; [|split]]].
  - intros e Hnet Hmissing.
    pose proof (send_sms_valid rt net recipients message callback_number
                  project_id calls Hrec Hmsg Hpid) as Hrun.
    cbv zeta in Hrun. rewrite Hrun, Hnet. unfold try_except.
    rewrite (send_result_raises _ _ _ _ e Hstatus); [reflexivity|].
    right. right. exists result. auto.
  - intros e Hsubj Himg Hnet Hmissing.
    pose proof (send_mms_valid rt net recipients message subject
                  callback_number project_id image_urls calls Hrec Hmsg Hpid
                  Hsubj Himg) as Hrun.
    cbv zeta in Hrun. rewrite Hrun, Hnet. unfold try_except.
    rewrite (send_result_raises _ _ _ _ e Hstatus); [reflexivity|].
    right. right. exists result. auto.
  - intro Hdata. left. cbn [subscript]. now rewrite Hdata.
  - intros data Hdata Hgroup. right. exists (VDict data).
    split; [exact Hdata|]. cbn [subscript]. now rewrite Hgroup.
  - intro Hdata. right. exists VNone. split; [exact Hdata | reflexivity].
Qed.

Lemma send_without_group_id_witness :
  fst (send_mms Sample.rt
         (Sample.net_json 200
            (VDict [("success", VBool true); ("data", VDict [])]))
         Sample.recipients "hello" "subject" "02-1234-5678" "project-1" None [])
  = Return (failure "MMS 전송에 실패했습니다: 'group_id'" "INTERNAL_ERROR").
Proof.
  destruct (send_without_group_id Sample.rt
              (Sample.net_json 200
                 (VDict [("success", VBool true); ("data", VDict [])]))
              Sample.recipients "hello" "subject" "02-1234-5678" "project-1"
              None []
              (Response 200 EmptyString
                 (Return (VDict [("success", VBool true); ("data", VDict [])])))
              [("success", VBool true); ("data", VDict [])]
              ltac:(simpl; lia) ltac:(vm_compute; discriminate)
              ltac:(discriminate) eq_refl eq_refl eq_refl)
    as (_ & Hmms & _ & Hgroup & _).
  apply (Hmms (Exn "KeyError" "'group_id'")).
  - vm_compute. discriminate.
  - exact I.
  - reflexivity.
  - apply (Hgroup []); reflexivity.
Defined.

(** X11.  For [send_mms] an empty [image_urls] list is the same as no list:
    the two calls behave identically, for every argument and every remote
    side.  With valid arguments, a list of at most five URLs is posted
    unchanged as [img_url_list] (five is accepted). *)
Theorem send_mms_image_list
    (rt : runtime) (net : remote) (recipients : list recipient)
    (message subject callback_number project_id : string)
    (calls : list request) :
  send_mms rt net recipients message subject callback_number project_id
           (Some []) calls =
  send_mms rt net recipients message subject callback_number project_id
           None calls /\
  forall urls,
    1 <= Z.of_nat (List.length recipients) <= 1000 ->
    py_len message <= 2000 ->
    project_id <> EmptyString ->
    py_len subject <= 40 ->
    Z.of_nat (List.length urls) <= 5 ->
    exists payload,
      snd (send_mms rt net recipients message subject callback_number
                    project_id (Some urls) calls) =
      (calls ++ [POST (API_BASE_URL ++ "/message/mms") payload
                      (api_headers rt)])%list /\
      field "img_url_list" payload = Some (str_list urls) /\
      field "subject" payload = Some (VStr subject) /\
      field "channel_id" payload = Some (VInt 3).
Proof.
  split; [reflexivity|].
  intros urls Hrec Hmsg Hpid Hsubj Himg.
  pose proof (send_mms_valid rt net recipients message subject callback_number
                project_id (Some urls) calls Hrec Hmsg Hpid Hsubj Himg) as Hrun.
  cbv zeta in Hrun. rewrite Hrun. unfold mms_request.
  eexists. split.
  - destruct (net calls _) as [resp|e]; [|reflexivity].
    rewrite try_except_ret_calls. apply send_result_calls.
  - split; [|split; reflexivity].
    destruct urls; reflexivity.
Qed.

Lemma send_mms_image_list_witness :
  exists payload,
    snd (send_mms Sample.rt Sample.net_down Sample.recipients "hello" "subject"
                  "02-1234-5678" "project-1"
                  (Some (repeat "https://example.com/image.jpg" 5)) []) =
    [POST (API_BASE_URL ++ "/message/mms") payload (api_headers Sample.rt)] /\
    field "img_url_list" payload =
      Some (str_list (repeat "https://example.com/image.jpg" 5)).
Proof.
  destruct (send_mms_image_list Sample.rt Sample.net_down Sample.recipients
              "hello" "subject" "02-1234-5678" "project-1" [])
    as (_ & Hurls).
  destruct (Hurls (repeat "https://example.com/image.jpg" 5)
                  ltac:(simpl; lia) ltac:(vm_compute; discriminate)
                  ltac:(discriminate) ltac:(vm_compute; discriminate)
                  ltac:(vm_compute; discriminate))
    as (payload & Hcalls & Himages & _).
  exists payload. split; assumption.
Defined.

(* ------------------------------------------------------------------ *)
(** ** Further properties of the template tools *)

Lemma str_in_In (x : string) (l : list string) : str_in x l = true <-> In x l.
Proof.
  unfold str_in. rewrite existsb_exists. split.
  - intros (y & Hin & Heq). apply String.eqb_eq in Heq. now subst.
  - intro Hin. exists x. split; [exact Hin | apply String.eqb_refl].
Qed.

Lemma ascii_lower_idempotent (c : ascii) :
  ascii_lower (ascii_lower c) = ascii_lower c.
Proof. destruct c as [[] [] [] [] [] [] [] []]; reflexivity. Qed.

Lemma ascii_lower_is_ascii (c : ascii) :
  is_ascii c = true -> is_ascii (ascii_lower c) = true.
Proof. destruct c as [[] [] [] [] [] [] [] []]; intro H; (reflexivity || exact H). Qed.

Lemma lower_all_ascii (s : string) :
  all_ascii s = true -> all_ascii (map_string ascii_lower s) = true.
Proof.
  induction s as [|c s IH]; simpl; [reflexivity|].
  intro H. apply andb_true_iff in H as [Hc Hs].
  now rewrite (ascii_lower_is_ascii c Hc), (IH Hs).
Qed.

Lemma map_lower_idempotent (s : string) :
  map_string ascii_lower (map_string ascii_lower s) = map_string ascii_lower s.
Proof.
  induction s as [|c s IH]; simpl; [reflexivity|].
  now rewrite ascii_lower_idempotent, IH.
Qed.

(** Lowering ASCII text twice is lowering it once. *)
Lemma lower_idempotent (rt : runtime) (s : string) :
  all_ascii s = true -> lower rt (lower rt s) = lower rt s.
Proof.
  intro H. unfold lower. rewrite H, (lower_all_ascii s H).
  apply map_lower_idempotent.
Qed.

(** X12.  [get_code_template_url] succeeds exactly when the lower-cased
    language is one of javascript, python, php, java, go and csharp.  The
    framework is never checked against the table of supported frameworks:
    with a supported language any framework is accepted and lower-cased into
    the template URL, an absent or empty framework selects [vanilla], and the
    integration URL is [None] unless a non-empty platform is given. *)
Theorem get_code_template_url_accepts_any_framework
    (rt : runtime) (language : string)
    (framework deployment_platform : option string) (calls : list request) :
  let lang := lower rt language in
  let fw := lower_opt rt framework in
  exists d,
    get_code_template_url rt language framework deployment_platform calls
    = (Return d, calls) /\
    (lookup "success" d = Some (VBool true) <->
     In lang ["javascript"; "python"; "php"; "java"; "go"; "csharp"]) /\
    (In lang ["javascript"; "python"; "php"; "java"; "go"; "csharp"] ->
     lookup "template_url" d = Some (VStr (mbaas_template_url lang fw)) /\
     lookup "framework" d = Some (opt_str fw) /\
     lookup "integration_url" d =
       Some match lower_opt rt deployment_platform with
            | Some p =>
                VStr ("https://cdn.mbaas.kr/templates/sms-mms/deployment/"
                      ++ p ++ ".md")
            | None => VNone
            end) /\
    (fw = None <-> framework = None \/ framework = Some EmptyString).
Proof.
  cbv zeta.
  unfold get_code_template_url, get_code_template_url_body, try_except, ret.
  pose proof (str_in_In (lower rt language) supported_languages) as Hin.
  unfold supported_languages in Hin at 2.
  assert (lower_opt rt framework = None <->
          framework = None \/ framework = Some EmptyString) as Hfw.
  { destruct framework as [[|c f]|]; simpl; split; intro H;
      try reflexivity; try discriminate; auto.
    destruct H as [H|H]; discriminate H. }
  destruct (str_in (lower rt language) supported_languages) eqn:Hsupp;
    cbn [negb]; eexists; (split; [reflexivity|]).
  - split; [split; [intros _; now apply Hin | reflexivity]|].
    split; [|exact Hfw]. intros _.
    split; [reflexivity|]. split; [reflexivity|].
    destruct (lower_opt rt deployment_platform); reflexivity.
  - split; [split; [discriminate | intro H; apply Hin in H; discriminate H]|].
    split; [|exact Hfw]. intro H. apply Hin in H. discriminate H.
Qed.

Lemma get_code_template_url_accepts_any_framework_witness :
  exists d,
    get_code_template_url Sample.rt "Go" (Some "Rails") (Some "AWS") []
    = (Return d, []) /\
    lookup "template_url" d =
      Some (VStr "https://cdn.mbaas.kr/templates/sms-mms/go/rails.md") /\
    lookup "integration_url" d =
      Some (VStr "https://cdn.mbaas.kr/templates/sms-mms/deployment/aws.md").
Proof.
  destruct (get_code_template_url_accepts_any_framework Sample.rt "Go"
              (Some "Rails") (Some "AWS") [])
    as (d & Hrun & _ & Hurl & _).
  exists d. split; [exact Hrun|].
  destruct Hurl as (Htemplate & _ & Hintegration); [simpl; tauto|].
  split; assumption.
Defined.

(** X13.  The template tools read their language and platform arguments
    without regard to ASCII letter case: calling [get_code_template_url],
    [generate_direct_api_code] or [get_integration_guide] with an ASCII
    argument gives the same result and the same requests as calling it with
    the lower-cased argument. *)
Theorem template_tools_ignore_case
    (rt : runtime) (net : remote) (language platform deployment_type : string)
    (framework deployment_platform : option string) (include_examples : bool)
    (calls : list request) :
  (all_ascii language = true ->
   get_code_template_url rt language framework deployment_platform calls =
   get_code_template_url rt (lower rt language) framework deployment_platform
                         calls /\
   generate_direct_api_code rt net language framework include_examples calls =
   generate_direct_api_code rt net (lower rt language) framework
                            include_examples calls) /\
  (all_ascii platform = true ->
   all_ascii deployment_type = true ->
   get_integration_guide rt net platform deployment_type calls =
   get_integration_guide rt net (lower rt platform) (lower rt deployment_type)
                         calls).
Proof.
  split.
  - intro Hlang. split.
    + unfold get_code_template_url, get_code_template_url_body.
      now rewrite (lower_idempotent rt language Hlang).
    + unfold generate_direct_api_code, generate_direct_api_code_body.
      now rewrite (lower_idempotent rt language Hlang).
  - intros Hplatform Htype.
    unfold get_integration_guide, get_integration_guide_body.
    now rewrite (lower_idempotent rt platform Hplatform),
      (lower_idempotent rt deployment_type Htype).
Qed.

Lemma template_tools_ignore_case_witness :
  generate_direct_api_code Sample.rt Sample.net_down "PHP" None false [] =
  generate_direct_api_code Sample.rt Sample.net_down "php" None false [] /\
  get_integration_guide Sample.rt Sample.net_down "VERCEL" "Staging" [] =
  get_integration_guide Sample.rt Sample.net_down "vercel" "staging" [].
Proof.
  destruct (template_tools_ignore_case Sample.rt Sample.net_down "PHP"
              "VERCEL" "Staging" None None false [])
    as (Hlanguage & Hguide).
  split; [exact (proj2 (Hlanguage eq_refl)) | exact (Hguide eq_refl eq_refl)].
Defined.

(** The inner block of [generate_direct_api_code] returns from the tool only
    with a failure. *)
Lemma fetch_template_returned (rt : runtime) (net : remote)
    (language : string) (framework : option string) (include_examples : bool)
    (template_url : string) (calls calls' : list request) (result : dict) :
  fetch_template rt net language framework include_examples template_url calls
  = (Return (Returned result), calls') ->
  lookup "success" result = Some (VBool false).
Proof.
  destruct (net calls (GET template_url [])) as [resp|e] eqn:Hnet.
  - destruct (Z.eq_dec (status_code resp) 200) as [Hok|Hbad].
    + destruct (re_findall_fenced rt language (text resp)) as [blocks|e] eqn:Hre.
      * rewrite (fetch_template_found _ _ _ _ _ _ _ resp blocks Hnet Hok Hre).
        discriminate.
      * unfold fetch_template, try_except, bind, send.
        rewrite Hnet, Hok. cbn [Z.eqb Pos.eqb].
        unfold lift. rewrite Hre. unfold cdn_error_fallback, ret.
        destruct (local_generation _ _ _); intro H; [discriminate H|].
        injection H as <- _. reflexivity.
    + rewrite (fetch_template_not_found _ _ _ _ _ _ _ resp Hnet Hbad).
      destruct (local_generation _ _ _); intro H; [discriminate H|].
      injection H as <- _. reflexivity.
  - rewrite (fetch_template_raised _ _ _ _ _ _ _ e Hnet).
    destruct (local_generation _ _ _); intro H; [discriminate H|].
    injection H as <- _. reflexivity.
Qed.

(** The names with a local generator hold no regular-expression
    metacharacter. *)
Lemma local_generation_literal (language : string) (framework : option string)
    (include_examples : bool) (code : string) :
  local_generation language framework include_examples = Some code ->
  is_literal_pattern language = true.
Proof.
  intro H.
  assert (In language ["javascript"; "js"; "python"; "py"; "php"]) as Hin
    by (apply (local_generation_languages language framework include_examples);
        now exists code).
  destruct Hin as [<-|[<-|[<-|[<-|[<-|[]]]]]]; reflexivity.
Qed.

Lemma extension_of_table (language : string) :
  match assoc language extensions with Some e => e | None => language end
  = extension_of language.
Proof.
  unfold extension_of, extensions, assoc.
  destruct (String.eqb_spec language "javascript"); [reflexivity|].
  destruct (String.eqb_spec language "js"); [reflexivity|].
  destruct (String.eqb_spec language "python"); [reflexivity|].
  destruct (String.eqb_spec language "py"); [reflexivity|].
  destruct (String.eqb_spec language "php"); [now subst | reflexivity].
Qed.

(** X14.  When the CDN answers 200 and [re.findall] finds fenced blocks for
    the language, [generate_direct_api_code] returns the first block with
    the surrounding white space stripped, marked as source "CDN template";
    the embedded sources are not used, so any language is served. *)
Theorem generate_direct_api_code_from_cdn
    (rt : runtime) (net : remote) (language : string) (framework : option string)
    (include_examples : bool) (calls : list request)
    (resp : response) (block : string) (more : list string) :
  let lang := lower rt language in
  let fw := lower_opt rt framework in
  let request := GET (cdn_template_url lang fw) [] in
  net calls request = Return resp ->
  status_code resp = 200 ->
  re_findall_fenced rt lang (text resp) = Return (block :: more) ->
  exists d,
    generate_direct_api_code rt net language framework include_examples calls
    = (Return d, (calls ++ [request])%list) /\
    lookup "success" d = Some (VBool true) /\
    lookup "code" d = Some (VStr (strip block)) /\
    lookup "source" d = Some (VStr "CDN template") /\
    lookup "template_url" d = Some (VStr (cdn_template_url lang fw)).
Proof.
  cbv zeta. intros Hnet Hstatus Hre.
  pose proof (generate_direct_api_code_unfold rt net language framework
                include_examples calls) as Hgen.
  cbv zeta in Hgen.
  rewrite (Hgen _ _ (fetch_template_found _ _ _ _ _ _ _ resp (block :: more)
                       Hnet Hstatus Hre)).
  eexists. split; [reflexivity|]. repeat split.
Qed.

Lemma generate_direct_api_code_from_cdn_witness :
  exists d,
    fst (generate_direct_api_code Sample.rt Scenario.net_markdown "Python"
           None true []) = Return d /\
    lookup "code" d = Some (VStr "print('hello')") /\
    lookup "source" d = Some (VStr "CDN template").
Proof.
  destruct (generate_direct_api_code_from_cdn Sample.rt Scenario.net_markdown
              "Python" None true []
              (Response 200 Scenario.markdown
                        (Raise (Exn "JSONDecodeError" "Expecting value")))
              (nl ++ "print('hello')" ++ nl) []
              eq_refl eq_refl eq_refl)
    as (d & Hrun & _ & Hcode & Hsource & _).
  exists d. rewrite Hrun. split; [reflexivity|]. split; [exact Hcode | exact Hsource].
Defined.

(** X15.  When the CDN answers 200 but [re.findall] raises on the pattern
    built from the language (a language name with a regular-expression
    metacharacter can make it do so), the fetched document is discarded and
    the tool returns [GENERATION_FAILED] with the text of the exception: no
    such language has an embedded source to fall back to. *)
Theorem generate_direct_api_code_regex_error
    (rt : runtime) (net : remote) (language : string) (framework : option string)
    (include_examples : bool) (calls : list request)
    (resp : response) (e : exn) :
  let lang := lower rt language in
  let fw := lower_opt rt framework in
  let request := GET (cdn_template_url lang fw) [] in
  net calls request = Return resp ->
  status_code resp = 200 ->
  re_findall_fenced rt lang (text resp) = Raise e ->
  is_literal_pattern lang = false /\
  generate_direct_api_code rt net language framework include_examples calls =
  (Return (failure ("CDN 오류 및 로컬 생성 불가: " ++ exn_str e)
                   "GENERATION_FAILED"),
   (calls ++ [request])%list).
Proof.
  cbv zeta. intros Hnet Hstatus Hre.
  assert (is_literal_pattern (lower rt language) = false) as Hliteral.
  { unfold re_findall_fenced in Hre.
    destruct (is_literal_pattern (lower rt language)); [discriminate Hre|].
    reflexivity. }
  split; [exact Hliteral|].
  assert (local_generation (lower rt language) (lower_opt rt framework)
                           include_examples = None) as Hlocal.
  { destruct (local_generation _ _ _) as [code|] eqn:Hcode; [|reflexivity].
    apply local_generation_literal in Hcode. congruence. }
  pose proof (generate_direct_api_code_unfold rt net language framework
                include_examples calls) as Hgen.
  cbv zeta in Hgen.
  assert (fetch_template rt net (lower rt language) (lower_opt rt framework)
            include_examples
            (cdn_template_url (lower rt language) (lower_opt rt framework))
            calls =
          (Return (Returned (failure ("CDN 오류 및 로컬 생성 불가: " ++ exn_str e)
                                     "GENERATION_FAILED")),
           (calls ++ [GET (cdn_template_url (lower rt language)
                                            (lower_opt rt framework)) []])%list))
    as Hfetch.
  { unfold fetch_template, try_except, bind, send.
    rewrite Hnet, Hstatus. cbn [Z.eqb Pos.eqb].
    unfold lift. rewrite Hre. unfold cdn_error_fallback. rewrite Hlocal.
    reflexivity. }
  rewrite (Hgen _ _ Hfetch). reflexivity.
Qed.

Lemma generate_direct_api_code_regex_error_witness :
  fst (generate_direct_api_code Scenario.rt Scenario.net_markdown "(" None
         true []) =
  Return (failure "CDN 오류 및 로컬 생성 불가: missing ), unterminated subpattern at position 3"
                  "GENERATION_FAILED").
Proof.
  destruct (generate_direct_api_code_regex_error Scenario.rt
              Scenario.net_markdown "(" None true []
              (Response 200 Scenario.markdown
                        (Raise (Exn "JSONDecodeError" "Expecting value")))
              Scenario.regex_error
              eq_refl eq_refl eq_refl)
    as (_ & Hrun).
  rewrite Hrun. reflexivity.
Defined.

(** X16.  Every successful result of [generate_direct_api_code] names the
    file [baas-sms-service.<ext>], where the extension is js for javascript
    and js, py for python and py, and otherwise the lower-cased language
    itself.  The configuration instructions are present for javascript,
    python and php only: the aliases js and py, like every other language,
    get an empty configuration. *)
Theorem generate_direct_api_code_filename
    (rt : runtime) (net : remote) (language : string) (framework : option string)
    (include_examples : bool) (calls : list request) :
  let lang := lower rt language in
  exists d,
    fst (generate_direct_api_code rt net language framework include_examples
                                  calls) = Return d /\
    (lookup "success" d = Some (VBool true) ->
     lookup "language" d = Some (VStr lang) /\
     lookup "filename" d =
       Some (VStr ("baas-sms-service." ++ extension_of lang)) /\
     (In lang ["javascript"; "python"; "php"] ->
      exists instructions,
        lookup "configuration" d = Some (VDict instructions) /\
        lookup "env_vars" instructions =
          Some (str_list ["BAAS_API_KEY"; "BAAS_PROJECT_ID"]) /\
        lookup "install" instructions <> None) /\
     (~ In lang ["javascript"; "python"; "php"] ->
      lookup "configuration" d = Some (VDict []))).
Proof.
  cbv zeta.
  destruct (fetch_template_total rt net (lower rt language)
              (lower_opt rt framework) include_examples
              (cdn_template_url (lower rt language) (lower_opt rt framework))
              calls) as [fetched Hfetch].
  pose proof (generate_direct_api_code_unfold rt net language framework
                include_examples calls) as Hgen.
  cbv zeta in Hgen. rewrite (Hgen _ _ Hfetch). cbn [fst].
  eexists. split; [reflexivity|].
  destruct fetched as [code content|result].
  - intros _. split; [reflexivity|].
    split; [cbn [lookup String.eqb Ascii.eqb Bool.eqb];
            now rewrite extension_of_table|].
    split.
    + intros [<-|[<-|[<-|[]]]]; eexists; (split; [reflexivity|]);
        (split; [reflexivity | discriminate]).
    + intro Hout. cbn [lookup String.eqb Ascii.eqb Bool.eqb]. f_equal.
      unfold dict_get, config_instructions, lookup.
      destruct (String.eqb_spec (lower rt language) "javascript") as [E|_];
        [exfalso; apply Hout; rewrite E; simpl; tauto|].
      destruct (String.eqb_spec (lower rt language) "python") as [E|_];
        [exfalso; apply Hout; rewrite E; simpl; tauto|].
      destruct (String.eqb_spec (lower rt language) "php") as [E|_];
        [exfalso; apply Hout; rewrite E; simpl; tauto|].
      reflexivity.
  - intro Hsuccess.
    rewrite (fetch_template_returned _ _ _ _ _ _ _ _ _ Hfetch) in Hsuccess.
    discriminate Hsuccess.
Qed.

Lemma generate_direct_api_code_filename_witness :
  exists d,
    fst (generate_direct_api_code Sample.rt Sample.net_down "js" None false [])
    = Return d /\
    lookup "filename" d = Some (VStr "baas-sms-service.js") /\
    lookup "configuration" d = Some (VDict []).
Proof.
  destruct (generate_direct_api_code_filename Sample.rt Sample.net_down "js"
              None false [])
    as (d & Hrun & Hshape).
  exists d. split; [exact Hrun|].
  assert (lookup "success" d = Some (VBool true)) as Hsuccess.
  { vm_compute in Hrun. injection Hrun as <-. reflexivity. }
  destruct (Hshape Hsuccess) as (_ & Hfile & _ & Hconfig).
  split; [exact Hfile|]. apply Hconfig.
  simpl. intros [H|[H|[H|[]]]]; discriminate H.
Defined.

(* ------------------------------------------------------------------ *)
(** ** Further properties of [create_message_service_template] *)

(** A string without occurrence of [old] is left alone. *)
Lemma replace_none (s old new : string) :
  contains s old = false -> replace s old new = s.
Proof.
  unfold replace. induction s as [|c s IH]; simpl; [reflexivity|].
  intro H. apply orb_false_iff in H as [Hhere Hrest].
  rewrite Hhere. f_equal. now apply IH.
Qed.

Lemma Replaced_same (old s t : string) : Replaced old old s t -> s = t.
Proof. induction 1; subst; reflexivity. Qed.

(** Replacing a text by itself changes nothing. *)
Lemma replace_same (s old : string) :
  old <> EmptyString -> replace s old old = s.
Proof.
  intro Hold. symmetry. apply (Replaced_same old). now apply replace_spec.
Qed.

Lemma startswith_prefix (s a b : string) :
  startswith s (a ++ b) = true -> startswith s a = true.
Proof.
  unfold startswith. revert s.
  induction a as [|c a IH]; intros s; simpl; [reflexivity|].
  destruct s as [|d s]; [discriminate|].
  destruct (Ascii.eqb c d); [apply IH | discriminate].
Qed.

(** No occurrence of a text, no occurrence of a longer one. *)
Lemma contains_prefix (s a b : string) :
  contains s a = false -> contains s (a ++ b) = false.
Proof.
  induction s as [|c s IH]; simpl; intro H;
    apply orb_false_iff in H as [Hhere Hrest].
  - rewrite orb_false_r.
    destruct (startswith EmptyString (a ++ b)) eqn:E; [|reflexivity].
    apply startswith_prefix in E. congruence.
  - rewrite (IH Hrest), orb_false_r.
    destruct (startswith (String c s) (a ++ b)) eqn:E; [|reflexivity].
    apply startswith_prefix in E. congruence.
Qed.

(** Occurrences of one character in a concatenation. *)
Lemma contains_char_app (a b : string) (c : ascii) :
  contains (a ++ b) (String c EmptyString) =
  (contains a (String c EmptyString) || contains b (String c EmptyString))%bool.
Proof.
  induction a as [|d a IH].
  - reflexivity.
  - change (String d a ++ b) with (String d (a ++ b)). cbn [contains].
    rewrite IH. unfold startswith. cbn [strip_prefix].
    destruct (Ascii.eqb c d); reflexivity.
Qed.

(** After spaces are replaced by underscores no space is left. *)
Lemma replace_space_no_space (s : string) :
  contains (replace s " " "_") " " = false.
Proof.
  unfold replace. induction s as [|c s IH]; [reflexivity|].
  cbn [replace_from]. unfold startswith at 1. cbn [strip_prefix].
  destruct (Ascii.eqb_spec " "%char c) as [<-|Hc].
  - cbn [String.length Nat.sub]. change ("_" ++ ?x) with (String "_"%char x).
    cbn [contains]. rewrite IH. reflexivity.
  - cbn [contains]. rewrite IH. unfold startswith. cbn [strip_prefix].
    destruct (Ascii.eqb_spec " "%char c); [contradiction | reflexivity].
Qed.

Lemma startswith_refl (s : string) : startswith s s = true.
Proof.
  unfold startswith. induction s as [|c s IH]; simpl; [reflexivity|].
  now rewrite Ascii.eqb_refl.
Qed.

(** What the helpers block does, by the answer to its request. *)
Lemma append_helpers_run (net : remote) (language code project_id
    default_callback company_name : string) (calls : list request) :
  append_helpers net language code project_id default_callback company_name
                 calls =
  (Return (with_helpers language code project_id default_callback company_name
                        (net calls (GET (helpers_url language) []))),
   (calls ++ [GET (helpers_url language) []])%list).
Proof.
  unfold append_helpers, with_helpers, helpers_url, try_except, bind, send, ret.
  destruct (net calls _) as [resp|e].
  - destruct (status_code resp =? 200); reflexivity.
  - destruct (String.eqb language "javascript"); reflexivity.
Qed.

(** [create_message_service_template] after a successful generator. *)
Lemma create_message_service_template_success
    (rt : runtime) (net : remote) (project_config : list (string * string))
    (language : string) (features : option (list string))
    (calls calls1 : list request) (base_result : dict) (base_code : string) :
  generate_direct_api_code rt net language None true calls
  = (Return base_result, calls1) ->
  truthy (dict_get base_result "success" VNone) = true ->
  lookup "code" base_result = Some (VStr base_code) ->
  let project_id := config_get project_config "project_id" "your-project-id" in
  let default_callback :=
    config_get project_config "default_callback" "02-1234-5678" in
  let company_name := config_get project_config "company_name" "Your Company" in
  create_message_service_template rt net project_config language features calls
  = (Return
       (template_result rt project_config language features
          (with_helpers language
             (customize base_code project_id default_callback company_name)
             project_id default_callback company_name
             (net calls1 (GET (helpers_url language) [])))),
     (calls1 ++ [GET (helpers_url language) []])%list).
Proof.
  intros Hgen Hflag Hcode. cbv zeta.
  unfold create_message_service_template,
    create_message_service_template_body, try_except, bind at 1.
  rewrite Hgen, Hflag. cbn [negb]. unfold bind at 1, lift.
  cbn [subscript]. rewrite Hcode. unfold bind.
  rewrite append_helpers_run. reflexivity.
Qed.

(** [create_message_service_template] after a failed generator. *)
Lemma create_message_service_template_failure
    (rt : runtime) (net : remote) (project_config : list (string * string))
    (language : string) (features : option (list string))
    (calls calls1 : list request) (base_result : dict) :
  generate_direct_api_code rt net language None true calls
  = (Return base_result, calls1) ->
  truthy (dict_get base_result "success" VNone) = false ->
  create_message_service_template rt net project_config language features calls
  = (Return base_result, calls1).
Proof.
  intros Hgen Hflag.
  unfold create_message_service_template,
    create_message_service_template_body, try_except, bind.
  rewrite Hgen, Hflag. reflexivity.
Qed.

(** X17.  When the generator has succeeded and the helpers request is
    answered with a status other than 200, nothing is appended: the code
    field is the customized base code alone, for every language,
    "javascript" included; the local JavaScript helpers are used only when
    the helpers request raises. *)
Theorem create_message_service_template_helpers_not_found
    (rt : runtime) (net : remote) (project_config : list (string * string))
    (language : string) (features : option (list string))
    (calls calls1 : list request) (base_result : dict) (base_code : string)
    (resp : response) :
  generate_direct_api_code rt net language None true calls
  = (Return base_result, calls1) ->
  truthy (dict_get base_result "success" VNone) = true ->
  lookup "code" base_result = Some (VStr base_code) ->
  net calls1 (GET (helpers_url language) []) = Return resp ->
  status_code resp <> 200 ->
  exists d,
    create_message_service_template rt net project_config language features
                                    calls
    = (Return d, (calls1 ++ [GET (helpers_url language) []])%list) /\
    lookup "success" d = Some (VBool true) /\
    lookup "code" d =
      Some (VStr (customize base_code
                    (config_get project_config "project_id" "your-project-id")
                    (config_get project_config "default_callback" "02-1234-5678")
                    (config_get project_config "company_name" "Your Company"))).
Proof.
  intros Hgen Hflag Hcode Hnet Hstatus.
  pose proof (create_message_service_template_success rt net project_config
                language features calls calls1 base_result base_code
                Hgen Hflag Hcode) as Hrun.
  cbv zeta in Hrun. rewrite Hrun, Hnet. unfold with_helpers.
  destruct (Z.eqb_spec (status_code resp) 200); [contradiction|].
  eexists. split; [reflexivity|]. split; reflexivity.
Qed.

Lemma create_message_service_template_helpers_not_found_witness :
  exists d,
    fst (create_message_service_template Sample.rt
           (Sample.net_text 404 "Not Found") Sample.project_config
           "javascript" None []) = Return d /\
    lookup "code" d =
      Some (VStr (customize (generate_javascript_code None true)
                            "proj-42" "02-1234-5678" "Acme")).
Proof.
  destruct (generate_direct_api_code_shape Sample.rt
              (Sample.net_text 404 "Not Found") "javascript" None true [])
    as (base_result & Hgen & _ & _).
  pose proof Hgen as Hbase. vm_compute in Hbase. injection Hbase as <-.
  destruct (create_message_service_template_helpers_not_found
              Sample.rt (Sample.net_text 404 "Not Found") Sample.project_config
              "javascript" None [] _ _
              (generate_javascript_code None true)
              (Response 404 "Not Found"
                        (Raise (Exn "JSONDecodeError" "Expecting value")))
              Hgen eq_refl ltac:(vm_compute; reflexivity) eq_refl
              ltac:(discriminate))
    as (d & Hrun & _ & Hcode).
  exists d. rewrite Hrun. split; [reflexivity | exact Hcode].
Defined.

(** X18.  The [features] argument is only echoed: two calls that differ in
    [features] alone issue the same requests and return dictionaries that
    agree on every key but [features]; in particular the generated code is
    the same. *)
Theorem create_message_service_template_features_echoed
    (rt : runtime) (net : remote) (project_config : list (string * string))
    (language : string) (features features' : option (list string))
    (calls : list request) :
  exists d d' calls',
    create_message_service_template rt net project_config language features
                                    calls = (Return d, calls') /\
    create_message_service_template rt net project_config language features'
                                    calls = (Return d', calls') /\
    (forall key, key <> "features" -> lookup key d = lookup key d') /\
    (lookup "success" d = Some (VBool true) ->
     lookup "features" d =
       Some (str_list match features with
                      | None => ["sms"; "mms"; "status_check"]
                      | Some fs => fs
                      end)).
Proof.
  destruct (generate_direct_api_code_shape rt net language None true calls)
    as (base_result & Hgen & Hsuccess & Hcode).
  destruct (truthy (dict_get base_result "success" VNone)) eqn:Hflag.
  - destruct (Hcode eq_refl) as [base_code Hbase].
    pose proof (create_message_service_template_success rt net project_config
                  language features calls _ base_result base_code
                  Hgen Hflag Hbase) as Hrun.
    pose proof (create_message_service_template_success rt net project_config
                  language features' calls _ base_result base_code
                  Hgen Hflag Hbase) as Hrun'.
    cbv zeta in Hrun, Hrun'. rewrite Hrun, Hrun'.
    do 3 eexists. split; [reflexivity|]. split; [reflexivity|]. split.
    + intros key Hkey. unfold template_result. cbn [lookup].
      destruct (String.eqb_spec key "features"); [contradiction|].
      repeat (destruct (String.eqb key _); [reflexivity|]). reflexivity.
    + intros _. reflexivity.
  - rewrite (create_message_service_template_failure rt net project_config
               language features calls _ base_result Hgen Hflag).
    rewrite (create_message_service_template_failure rt net project_config
               language features' calls _ base_result Hgen Hflag).
    do 3 eexists. split; [reflexivity|]. split; [reflexivity|].
    split; [reflexivity|].
    intro Htrue. unfold dict_get in Hflag. rewrite Htrue in Hflag.
    discriminate Hflag.
Qed.

Lemma create_message_service_template_features_echoed_witness :
  exists d,
    fst (create_message_service_template Sample.rt Sample.net_down
           Sample.project_config "php" None []) = Return d /\
    lookup "features" d = Some (str_list ["sms"; "mms"; "status_check"]).
Proof.
  destruct (create_message_service_template_features_echoed
              Sample.rt Sample.net_down Sample.project_config "php" None None [])
    as (d & _ & calls' & Hrun & _ & _ & Hfeatures).
  exists d. rewrite Hrun. split; [reflexivity|].
  apply Hfeatures.
  vm_compute in Hrun. injection Hrun as <- _. reflexivity.
Defined.

(** X19.  The file name of a customized template is the lower-cased
    company name with every space replaced by an underscore, followed by
    [_message_service.] and the language exactly as it was passed (the
    language itself, not a file extension, and not lower-cased).  When the
    language has no space, the file name has none. *)
Theorem create_message_service_template_filename
    (rt : runtime) (net : remote) (project_config : list (string * string))
    (language : string) (features : option (list string))
    (calls : list request) :
  let company_name := config_get project_config "company_name" "Your Company" in
  exists d,
    fst (create_message_service_template rt net project_config language
                                         features calls) = Return d /\
    (lookup "success" d = Some (VBool true) ->
     exists stem,
       lookup "filename" d
       = Some (VStr (stem ++ "_message_service." ++ language)) /\
       stem = replace (lower rt company_name) " " "_" /\
       contains stem " " = false /\
       (contains language " " = false ->
        contains (stem ++ "_message_service." ++ language) " " = false)).
Proof.
  cbv zeta.
  destruct (generate_direct_api_code_shape rt net language None true calls)
    as (base_result & Hgen & Hsuccess & Hcode).
  destruct (truthy (dict_get base_result "success" VNone)) eqn:Hflag.
  - destruct (Hcode eq_refl) as [base_code Hbase].
    pose proof (create_message_service_template_success rt net project_config
                  language features calls _ base_result base_code
                  Hgen Hflag Hbase) as Hrun.
    cbv zeta in Hrun. rewrite Hrun. cbn [fst].
    eexists. split; [reflexivity|]. intros _.
    eexists. split; [reflexivity|]. split; [reflexivity|].
    split; [apply replace_space_no_space|].
    intro Hlang.
    rewrite contains_char_app, replace_space_no_space.
    rewrite contains_char_app, Hlang. reflexivity.
  - rewrite (create_message_service_template_failure rt net project_config
               language features calls _ base_result Hgen Hflag).
    exists base_result. split; [reflexivity|].
    intro Htrue. unfold dict_get in Hflag. rewrite Htrue in Hflag.
    discriminate Hflag.
Qed.

Lemma create_message_service_template_filename_witness :
  exists d,
    fst (create_message_service_template Sample.rt Sample.net_down
           [("company_name", "Acme Mobile Korea")] "Python" None []) = Return d /\
    lookup "filename" d
    = Some (VStr "acme_mobile_korea_message_service.Python").
Proof.
  destruct (create_message_service_template_filename
              Sample.rt Sample.net_down [("company_name", "Acme Mobile Korea")]
              "Python" None [])
    as (d & Hrun & Hname).
  exists d. split; [exact Hrun|].
  destruct Hname as (stem & Hfile & -> & _).
  - vm_compute in Hrun. injection Hrun as <-. reflexivity.
  - rewrite Hfile. reflexivity.
Defined.

(** [generate_direct_api_code] when the fetch failed and the language has a
    local generator. *)
Lemma generate_direct_api_code_local
    (rt : runtime) (net : remote) (language : string) (framework : option string)
    (include_examples : bool) (calls : list request) (code : string) :
  let lang := lower rt language in
  let fw := lower_opt rt framework in
  let request := GET (cdn_template_url lang fw) [] in
  (exists e, net calls request = Raise e) \/
  (exists resp, net calls request = Return resp /\ status_code resp <> 200) ->
  local_generation lang fw include_examples = Some code ->
  exists d,
    generate_direct_api_code rt net language framework include_examples calls
    = (Return d, (calls ++ [request])%list) /\
    truthy (dict_get d "success" VNone) = true /\
    lookup "code" d = Some (VStr code).
Proof.
  cbv zeta. intros Hfailed Hlocal.
  pose proof (generate_direct_api_code_unfold rt net language framework
                include_examples calls) as Hgen.
  cbv zeta in Hgen.
  assert (fetch_template rt net (lower rt language) (lower_opt rt framework)
            include_examples
            (cdn_template_url (lower rt language) (lower_opt rt framework))
            calls =
          (Return (Code code None),
           (calls ++ [GET (cdn_template_url (lower rt language)
                                            (lower_opt rt framework)) []])%list))
    as Hfetch.
  { destruct Hfailed as [[e Hnet]|[resp [Hnet Hstatus]]].
    - rewrite (fetch_template_raised _ _ _ _ _ _ _ e Hnet), Hlocal. reflexivity.
    - rewrite (fetch_template_not_found _ _ _ _ _ _ _ resp Hnet Hstatus), Hlocal.
      reflexivity. }
  rewrite (Hgen _ _ Hfetch). eexists. split; [reflexivity|].
  split; reflexivity.
Qed.

(** X20.  The local JavaScript helpers are chosen by comparing the language
    as it was passed, while the generator lower-cases it first.  When both
    CDN requests raise and the language lower-cases to "javascript", the
    code is the customized embedded JavaScript client; the helpers follow it
    only if the language was spelled exactly "javascript". *)
Theorem create_message_service_template_exact_spelling
    (rt : runtime) (net : remote) (project_config : list (string * string))
    (language : string) (features : option (list string))
    (calls : list request) (e1 e2 : exn) :
  let project_id := config_get project_config "project_id" "your-project-id" in
  let default_callback :=
    config_get project_config "default_callback" "02-1234-5678" in
  let company_name := config_get project_config "company_name" "Your Company" in
  let template_request := GET (cdn_template_url (lower rt language) None) [] in
  let helpers_request := GET (helpers_url language) [] in
  let customized :=
    customize (generate_javascript_code None true) project_id default_callback
              company_name in
  lower rt language = "javascript" ->
  net calls template_request = Raise e1 ->
  net (calls ++ [template_request])%list helpers_request = Raise e2 ->
  exists d,
    create_message_service_template rt net project_config language features
                                    calls
    = (Return d, (calls ++ [template_request; helpers_request])%list) /\
    lookup "success" d = Some (VBool true) /\
    (language = "javascript" ->
     lookup "code" d =
       Some (VStr (customized
                   ++ project_helpers project_id default_callback company_name)))
    /\
    (language <> "javascript" -> lookup "code" d = Some (VStr customized)).
Proof.
  cbv zeta. intros Hlower Hnet1 Hnet2.
  destruct (generate_direct_api_code_local rt net language None true calls
              (generate_javascript_code None true))
    as (base_result & Hgen & Hflag & Hcode).
  { left. exists e1. exact Hnet1. }
  { change (lower_opt rt None) with (@None string). now rewrite Hlower. }
  change (lower_opt rt None) with (@None string) in Hgen.
  pose proof (create_message_service_template_success rt net project_config
                language features calls _ base_result _ Hgen Hflag Hcode)
    as Hrun.
  cbv zeta in Hrun. rewrite Hrun, Hnet2. unfold with_helpers.
  rewrite <- app_assoc. cbn [app].
  destruct (String.eqb_spec language "javascript") as [Hjs|Hjs];
    eexists; (split; [reflexivity|]); (split; [reflexivity|]);
    split; intro H; (reflexivity || contradiction).
Qed.

Lemma create_message_service_template_exact_spelling_witness :
  exists d,
    fst (create_message_service_template Sample.rt Sample.net_down
           Sample.project_config "JavaScript" None []) = Return d /\
    lookup "code" d =
      Some (VStr (customize (generate_javascript_code None true)
                            "proj-42" "02-1234-5678" "Acme")).
Proof.
  destruct (create_message_service_template_exact_spelling
              Sample.rt Sample.net_down Sample.project_config "JavaScript" None []
              (Exn "ConnectError" "All connection attempts failed")
              (Exn "ConnectError" "All connection attempts failed")
              eq_refl eq_refl eq_refl)
    as (d & Hrun & _ & _ & Hcode).
  exists d. rewrite Hrun. split; [reflexivity|].
  apply Hcode. discriminate.
Defined.

(** X21.  With a [project_config] that sets none of [project_id],
    [default_callback] and [company_name], each placeholder is replaced by
    itself and the base code comes back unchanged; what follows it is only
    what the helpers request adds. *)
Theorem create_message_service_template_defaults
    (rt : runtime) (net : remote) (project_config : list (string * string))
    (language : string) (features : option (list string))
    (calls calls1 : list request) (base_result : dict) (base_code : string) :
  assoc "project_id" project_config = None ->
  assoc "default_callback" project_config = None ->
  assoc "company_name" project_config = None ->
  generate_direct_api_code rt net language None true calls
  = (Return base_result, calls1) ->
  truthy (dict_get base_result "success" VNone) = true ->
  lookup "code" base_result = Some (VStr base_code) ->
  exists d code,
    fst (create_message_service_template rt net project_config language
                                         features calls) = Return d /\
    lookup "code" d = Some (VStr code) /\
    code = with_helpers language base_code "your-project-id" "02-1234-5678"
                        "Your Company"
                        (net calls1 (GET (helpers_url language) [])) /\
    startswith code base_code = true /\
    lookup "filename" d
    = Some (VStr ("your_company_message_service." ++ language)).
Proof.
  intros Hpid Hcb Hcn Hgen Hflag Hcode.
  pose proof (create_message_service_template_success rt net project_config
                language features calls calls1 base_result base_code
                Hgen Hflag Hcode) as Hrun.
  cbv zeta in Hrun.
  rewrite (config_get_absent _ _ _ Hpid), (config_get_absent _ _ _ Hcb),
    (config_get_absent _ _ _ Hcn) in Hrun.
  assert (customize base_code "your-project-id" "02-1234-5678" "Your Company"
          = base_code) as Hsame.
  { unfold customize. now rewrite !replace_same by discriminate. }
  rewrite Hsame in Hrun. rewrite Hrun. cbn [fst].
  do 2 eexists. split; [reflexivity|]. split; [reflexivity|].
  split; [reflexivity|]. split.
  - pose proof (startswith_refl base_code) as Hself.
    unfold with_helpers.
    destruct (net calls1 _) as [resp|e].
    + destruct (status_code resp =? 200);
        [now apply startswith_app | exact Hself].
    + destruct (String.eqb language "javascript");
        [now apply startswith_app | exact Hself].
  - unfold template_result. rewrite (config_get_absent _ _ _ Hcn). reflexivity.
Qed.

Lemma create_message_service_template_defaults_witness :
  exists d,
    fst (create_message_service_template Sample.rt Sample.net_down [] "php"
           None []) = Return d /\
    lookup "code" d = Some (VStr (generate_php_code None true)).
Proof.
  destruct (generate_direct_api_code_shape Sample.rt Sample.net_down "php" None
              true [])
    as (base_result & Hgen & _ & _).
  pose proof Hgen as Hbase. vm_compute in Hbase. injection Hbase as <-.
  destruct (create_message_service_template_defaults
              Sample.rt Sample.net_down [] "php" None [] _ _
              (generate_php_code None true)
              eq_refl eq_refl eq_refl Hgen eq_refl
              ltac:(vm_compute; reflexivity))
    as (d & code & Hrun & Hcode & -> & _).
  exists d. split; [exact Hrun|]. rewrite Hcode. reflexivity.
Defined.

(** X22.  A helper template fetched with status 200 that holds no [{{] at
    all is appended as it is, after two line feeds: the three
    template-variable replacements leave it untouched. *)
Theorem create_message_service_template_plain_helpers
    (rt : runtime) (net : remote) (project_config : list (string * string))
    (language : string) (features : option (list string))
    (calls calls1 : list request) (base_result : dict) (base_code : string)
    (resp : response) :
  generate_direct_api_code rt net language None true calls
  = (Return base_result, calls1) ->
  truthy (dict_get base_result "success" VNone) = true ->
  lookup "code" base_result = Some (VStr base_code) ->
  net calls1 (GET (helpers_url language) []) = Return resp ->
  status_code resp = 200 ->
  contains (text resp) "{{" = false ->
  exists d,
    fst (create_message_service_template rt net project_config language
                                         features calls) = Return d /\
    lookup "code" d =
      Some (VStr (customize base_code
                    (config_get project_config "project_id" "your-project-id")
                    (config_get project_config "default_callback" "02-1234-5678")
                    (config_get project_config "company_name" "Your Company")
                  ++ nl ++ nl ++ text resp)).
Proof.
  intros Hgen Hflag Hcode Hnet Hstatus Hplain.
  pose proof (create_message_service_template_success rt net project_config
                language features calls calls1 base_result base_code
                Hgen Hflag Hcode) as Hrun.
  cbv zeta in Hrun. rewrite Hrun, Hnet. unfold with_helpers.
  rewrite Hstatus. cbn [Z.eqb Pos.eqb fst].
  assert (forall pid cb cn, fill_helpers (text resp) pid cb cn = text resp)
    as Hfill.
  { intros pid cb cn. unfold fill_helpers.
    rewrite (replace_none (text resp) "{{company_name}}")
      by (apply (contains_prefix _ "{{" "company_name}}"); exact Hplain).
    rewrite (replace_none (text resp) "{{project_id}}")
      by (apply (contains_prefix _ "{{" "project_id}}"); exact Hplain).
    apply replace_none.
    apply (contains_prefix _ "{{" "default_callback}}"). exact Hplain. }
  rewrite Hfill. eexists. split; reflexivity.
Qed.

Lemma create_message_service_template_plain_helpers_witness :
  exists d,
    fst (create_message_service_template Sample.rt
           (Sample.net_text 200 "// no helpers yet") Sample.project_config
           "go" None []) = Return d /\
    lookup "code" d
    = Some (VStr ("// no helpers yet" ++ nl ++ nl ++ "// no helpers yet")).
Proof.
  destruct (generate_direct_api_code_shape Sample.rt
              (Sample.net_text 200 "// no helpers yet") "go" None true [])
    as (base_result & Hgen & _ & _).
  pose proof Hgen as Hbase. vm_compute in Hbase. injection Hbase as <-.
  destruct (create_message_service_template_plain_helpers
              Sample.rt (Sample.net_text 200 "// no helpers yet")
              Sample.project_config "go" None [] _ _ "// no helpers yet"
              (Response 200 "// no helpers yet"
                        (Raise (Exn "JSONDecodeError" "Expecting value")))
              Hgen eq_refl eq_refl eq_refl eq_refl eq_refl)
    as (d & Hrun & Hcode).
  exists d. split; [exact Hrun|]. rewrite Hcode. reflexivity.
Defined.

(** X23.  The template tools never send the API key and never post
    anything: [generate_direct_api_code] and [get_integration_guide] issue
    exactly one request, [create_message_service_template] one or two, and
    every one of them is a GET without headers. *)
Theorem template_tools_requests_are_bare
    (rt : runtime) (net : remote) (calls : list request) :
  (forall language framework include_examples,
      exists r,
        snd (generate_direct_api_code rt net language framework
                                      include_examples calls)
        = (calls ++ [r])%list /\ bare_get r) /\
  (forall platform deployment_type,
      exists r,
        snd (get_integration_guide rt net platform deployment_type calls)
        = (calls ++ [r])%list /\ bare_get r) /\
  (forall project_config language features,
      exists new,
        snd (create_message_service_template rt net project_config language
                                             features calls)
        = (calls ++ new)%list /\
        Forall bare_get new /\
        (1 <= List.length new <= 2)%nat).
Proof.
  split; [|split].
  - intros language framework include_examples.
    destruct (generate_direct_api_code_shape rt net language framework
                include_examples calls) as (d & Hgen & _).
    rewrite Hgen. eexists. split; [reflexivity|]. eexists. reflexivity.
  - intros platform deployment_type.
    exists (GET (guide_url (lower rt platform) (lower rt deployment_type)) []).
    split; [|eexists; reflexivity].
    unfold get_integration_guide, get_integration_guide_body, fetch_guide,
      try_except, bind, send, ret, guide_url.
    destruct (net calls _) as [resp|e].
    + destruct (status_code resp =? 200); [reflexivity|].
      destruct (negb _); reflexivity.
    + destruct (negb _); reflexivity.
  - intros project_config language features.
    destruct (generate_direct_api_code_shape rt net language None true calls)
      as (base_result & Hgen & _ & Hcode).
    destruct (truthy (dict_get base_result "success" VNone)) eqn:Hflag.
    + destruct (Hcode eq_refl) as [base_code Hbase].
      pose proof (create_message_service_template_success rt net project_config
                    language features calls _ base_result base_code
                    Hgen Hflag Hbase) as Hrun.
      cbv zeta in Hrun. rewrite Hrun. cbn [snd].
      rewrite <- app_assoc. eexists. split; [reflexivity|].
      split; [|simpl; lia].
      repeat constructor; eexists; reflexivity.
    + rewrite (create_message_service_template_failure rt net project_config
                 language features calls _ base_result Hgen Hflag).
      cbn [snd]. eexists. split; [reflexivity|].
      split; [|simpl; lia].
      repeat constructor. eexists. reflexivity.
Qed.
